(** * The LPK build pipeline of terraform-provider-lcmd

    A shallow embedding of the [lcmd_lpk_build] resource ([LPKBuildResource];
    the data source in [lpk_build_data_source.go] has the same helper
    functions, body for body): source resolution, template rendering, the
    cached build step, publish reuse and the derived resource identity.

    Conventions of the embedding
    - Go strings are [string] (byte strings); [+:+] is concatenation.
    - [types.String] / [types.Bool] of the plugin framework are the three-state
      values [tfString] / [tfBool].
    - A Go [error] is a value of the inductive [error]; a nil error is [None]
      or the [inr] side of a result.
    - The filesystem is a finite map from clean, slash-separated paths to
      nodes; every operation of package [os] used by the provider is a
      function on it.  External programs (git, the build command), SHA-256,
      the YAML decoder, the template parser and the registry client are
      parameters of the development. *)

From Stdlib Require Import ZArith Ascii String List.
From stdpp Require Import gmap strings list fin_maps sorting pretty.

Local Open Scope string_scope.
Local Open Scope Z_scope.

(** ** Package [strings] *)

Module strings.

  (** The one-byte string holding a double quote. *)
Definition dquote : string := String (ascii_of_nat 34) EmptyString.

  (** [strings.HasPrefix(s, prefix)] *)
Fixpoint HasPrefix (s pre : string) {struct pre} : bool :=
  match pre, s with
  | EmptyString, _ => true
  | String _ _, EmptyString => false
  | String a pre', String b s' => Ascii.eqb a b && HasPrefix s' pre'
  end.

  (** [strings.HasSuffix(s, suffix)] *)
Fixpoint HasSuffix (s suf : string) : bool :=
    if String.eqb s suf then true
    else match s with
         | EmptyString => false
         | String _ r => HasSuffix r suf
         end.

  (** [strings.TrimSuffix(s, suffix)]: [s] without the trailing [suffix],
      and [s] itself when it does not end with [suffix]. *)
Fixpoint TrimSuffix (s suf : string) : string :=
    if String.eqb s suf then EmptyString
    else match s with
         | EmptyString => EmptyString
         | String c r => String c (TrimSuffix r suf)
         end.

Fixpoint TrimLeftFunc (f : ascii -> bool) (s : string) : string :=
    match s with
    | EmptyString => EmptyString
    | String c r => if f c then TrimLeftFunc f r else s
    end.

Fixpoint TrimRightFunc (f : ascii -> bool) (s : string) : string :=
    match s with
    | EmptyString => EmptyString
    | String c r =>
        match TrimRightFunc f r with
        | EmptyString => if f c then EmptyString else String c EmptyString
        | r' => String c r'
        end
    end.

  (** The white space of [unicode.IsSpace], on the UTF-8 bytes of a Go
      string.  In one byte: tab, line feed, vertical tab, form feed,
      carriage return and space. *)
Definition isSpace (c : ascii) : bool := Ascii.is_space c.

Definition byte (n : nat) : ascii := ascii_of_nat n.

  (** In two bytes: U+0085 (C2 85) and U+00A0 (C2 A0). *)
Definition isSpace2 (a b : ascii) : bool :=
    Ascii.eqb a (byte 194) && (Ascii.eqb b (byte 133) || Ascii.eqb b (byte 160)).

  (** In three bytes: U+1680 (E1 9A 80), U+2000 to U+200A (E2 80 80 to
      E2 80 8A), U+2028 and U+2029 (E2 80 A8, E2 80 A9), U+202F (E2 80 AF),
      U+205F (E2 81 9F) and U+3000 (E3 80 80). *)
Definition isSpace3 (a b c : ascii) : bool :=
    (Ascii.eqb a (byte 225) && (Ascii.eqb b (byte 154) && Ascii.eqb c (byte 128)))
    || (Ascii.eqb a (byte 226)
        && ((Ascii.eqb b (byte 128)
             && ((128 <=? nat_of_ascii c)%nat && (nat_of_ascii c <=? 138)%nat
                 || Ascii.eqb c (byte 168) || Ascii.eqb c (byte 169)
                 || Ascii.eqb c (byte 175)))
            || (Ascii.eqb b (byte 129) && Ascii.eqb c (byte 159))))
    || (Ascii.eqb a (byte 227) && (Ascii.eqb b (byte 128) && Ascii.eqb c (byte 128))).

  (** [s] is the encoding of one white-space character. *)
Definition isSpaceRune (s : string) : bool :=
    match s with
    | String a EmptyString => isSpace a
    | String a (String b EmptyString) => isSpace2 a b
    | String a (String b (String c EmptyString)) => isSpace3 a b c
    | _ => false
    end.

  (** [strings.TrimLeftFunc(s, unicode.IsSpace)]: the decoder finds a
      white-space character at the front exactly when the string starts
      with its encoding (the encodings above are the shortest ones, the only
      ones the decoder accepts). *)
Fixpoint TrimLeftSpace (s : string) : string :=
    match s with
    | EmptyString => EmptyString
    | String a r =>
        if isSpace a then TrimLeftSpace r
        else
          match r with
          | EmptyString => s
          | String b r2 =>
              if isSpace2 a b then TrimLeftSpace r2
              else
                match r2 with
                | EmptyString => s
                | String c r3 => if isSpace3 a b c then TrimLeftSpace r3 else s
                end
          end
    end.

  (** [strings.TrimRightFunc(s, unicode.IsSpace)]: the backward decoder
      stops at the first byte that starts a character, so it finds a
      white-space character at the end exactly when the string ends with its
      encoding. *)
Fixpoint TrimRightSpace (s : string) : string :=
    match s with
    | EmptyString => EmptyString
    | String c r =>
        let t := String c (TrimRightSpace r) in
        if isSpaceRune t then EmptyString else t
    end.

  (** [strings.TrimSpace(s)]: leading, then trailing white space. *)
Definition TrimSpace (s : string) : string :=
    TrimRightSpace (TrimLeftSpace s).

Fixpoint contains_byte (c : ascii) (cutset : string) : bool :=
    match cutset with
    | EmptyString => false
    | String d r => if Ascii.eqb c d then true else contains_byte c r
    end.

  (** [strings.Trim(s, cutset)] for a cutset of single-byte characters. *)
Definition Trim (s cutset : string) : string :=
    TrimLeftFunc (fun c => contains_byte c cutset)
                 (TrimRightFunc (fun c => contains_byte c cutset) s).

  (** [strings.Index(s, substr)], with [None] for Go's [-1]. *)
Fixpoint Index (s sub : string) : option nat :=
    if HasPrefix s sub then Some 0%nat
    else match s with
         | EmptyString => None
         | String _ r => S <$> Index r sub
         end.

  (** The slice expressions [s[:n]] and [s[n:]]. *)
Fixpoint take (n : nat) (s : string) : string :=
    match n, s with
    | S n', String c r => String c (take n' r)
    | _, _ => EmptyString
    end.

Fixpoint drop (n : nat) (s : string) : string :=
    match n, s with
    | S n', String _ r => drop n' r
    | _, _ => s
    end.

End strings.

(** ** Framework values: [types.String] and [types.Bool] *)

Inductive tfString : Type :=
| StringNull
| StringUnknown
| StringValue (s : string).

Inductive tfBool : Type :=
| BoolNull
| BoolUnknown
| BoolValue (b : bool).

Definition IsNull (v : tfString) : bool :=
  match v with StringNull => true | _ => false end.

Definition IsUnknown (v : tfString) : bool :=
  match v with StringUnknown => true | _ => false end.

(** [ValueString] is the empty string for null and unknown values. *)
Definition ValueString (v : tfString) : string :=
  match v with StringValue s => s | _ => EmptyString end.

Definition BoolIsNull (v : tfBool) : bool :=
  match v with BoolNull => true | _ => false end.

Definition ValueBool (v : tfBool) : bool :=
  match v with BoolValue b => b | _ => false end.

(** ** Go errors *)

Inductive Errno : Type := ENOENT | EISDIR | EEXIST | ENOTDIR.

(** The dynamic types of error values that occur in the pipeline.
    [ExecError] is the struct value that [text/template] returns from
    [Execute]; [ExecErrorPtr] is an error whose dynamic type is the pointer
    type [*template.ExecError].  [errorVar] is the value of a package-level
    error variable [var name = errors.New(msg)]: one value, made once, which
    [==] tells from every error made at run time, also from one with the
    same text; [errorString] is an error made at run time by [errors.New] or
    a formatting function. *)
Inductive error : Type :=
| errorString (msg : string)
| errorVar (name msg : string)
| wrapError (msg : string) (err : error)
| ExecError (Name : string) (Err : error)
| ExecErrorPtr (Name : string) (Err : error)
| PathError (Op Path : string) (Err : Errno)
| LinkError (Op Old New : string) (Err : Errno)
| ExitError (status : Z).

Definition errnoText (e : Errno) : string :=
  match e with
  | ENOENT => "no such file or directory"
  | EISDIR => "is a directory"
  | EEXIST => "file exists"
  | ENOTDIR => "not a directory"
  end.

(** The method [Error()]. *)
Fixpoint Error (e : error) : string :=
  match e with
  | errorString msg => msg
  | errorVar _ msg => msg
  | wrapError msg _ => msg
  | ExecError _ err => Error err
  | ExecErrorPtr _ err => Error err
  | PathError op path errno => op +:+ " " +:+ path +:+ ": " +:+ errnoText errno
  | LinkError op old new errno =>
      op +:+ " " +:+ old +:+ " " +:+ new +:+ ": " +:+ errnoText errno
  | ExitError status => "exit status " +:+ pretty status
  end.

(** [errors.New(msg)] and [fmt.Errorf(prefix + "%w", err)]. *)
Definition errors_New (msg : string) : error := errorString msg.

Definition Errorf_w (pre : string) (err : error) : error :=
  wrapError (pre +:+ Error err) err.

(** [errors.Is(err, os.ErrNotExist)] follows the [Unwrap] chain. *)
Fixpoint Is_ErrNotExist (e : error) : bool :=
  match e with
  | PathError _ _ ENOENT => true
  | LinkError _ _ _ ENOENT => true
  | wrapError _ err => Is_ErrNotExist err
  | ExecError _ err => Is_ErrNotExist err
  | ExecErrorPtr _ err => Is_ErrNotExist err
  | _ => false
  end.

(** [errors.As(err, &execErr)] for a target of type [*template.ExecError]:
    the first error in the chain whose dynamic type is that pointer type.
    A struct value [ExecError] is not assignable to it and is unwrapped. *)
Fixpoint As_ExecErrorPtr (e : error) : option (string * error) :=
  match e with
  | ExecErrorPtr name err => Some (name, err)
  | wrapError _ err => As_ExecErrorPtr err
  | ExecError _ err => As_ExecErrorPtr err
  | _ => None
  end.

(** ** The data model of the provider *)

Module LPKBuildSourceLocalModel.
Record t : Type := mk { Path : tfString }.
End LPKBuildSourceLocalModel.

Module LPKBuildSourceGitModel.
Record t : Type := mk { URL : tfString; Ref : tfString; Subpath : tfString }.
End LPKBuildSourceGitModel.

(** A nil pointer is [None]: the variant is not populated. *)
Module LPKBuildSourceModel.
Record t : Type := mk {
Local : option LPKBuildSourceLocalModel.t;
    Git : option LPKBuildSourceGitModel.t }.
End LPKBuildSourceModel.

Module LPKBuildBuildModel.
Record t : Type := mk { Command : tfString }.
End LPKBuildBuildModel.

Module LPKBuildPublishModel.
Record t : Type := mk { Enabled : tfBool; Name : tfString; Version : tfString }.
End LPKBuildPublishModel.

Module LPKBuildEnvModel.
Record t : Type := mk {
Variables : gmap string tfString;
    TemplateExtension : tfString }.
End LPKBuildEnvModel.

Module LPKBuildModel.
Record t : Type := mk {
    ID : tfString;
    Source : option LPKBuildSourceModel.t;
    Build : option LPKBuildBuildModel.t;
    Publish : option LPKBuildPublishModel.t;
    Env : option LPKBuildEnvModel.t;
    LPKURL : tfString;
    SHA256 : tfString;
    AppID : tfString;
    Version : tfString;
    LocalPath : tfString;
    UploadID : tfString }.
End LPKBuildModel.

Module lpkMetadata.
Record t : Type := mk {
    AppID : string; Version : string; SHA256 : string; Name : string }.
End lpkMetadata.

Module manifestYAML.
Record t : Type := mk { AppID : string; Version : string; Name : string }.
Definition zero : t := mk EmptyString EmptyString EmptyString.
End manifestYAML.

(** Modelled from the spec: the response of the registry client's
    [Upload(user, name, version, filePath) -> {id, downloadURL, sha256,
    version}]; the client method [UploadLPK] and its response type are not
    among the source files, only the fields read by [applyBuild] are. *)
Module apiUpload.
Record t : Type := mk {
    ID : string; DownloadURL : string; SHA256 : string; Version : string }.
End apiUpload.

Definition defaultTemplateExtension : string := ".tmpl".

(** ** The world: filesystem, clock and the record of external calls *)

Inductive node : Type :=
| File (content : string) (perm : N) (mtime : Z)
| Dir (mtime : Z).

Definition ModTime (n : node) : Z :=
  match n with File _ _ t => t | Dir t => t end.

Definition IsDir (n : node) : bool :=
  match n with Dir _ => true | File _ _ _ => false end.

(** [info.Mode().Perm()]; directories carry no mode in the model and are
    given the customary 0o755. *)
Definition Perm (n : node) : N :=
  match n with File _ p _ => p | Dir _ => 493%N end.

(** One run of [exec.Cmd]: the argument vector, [Dir] and [Env]
    ([None] is a nil [Env]: the child inherits the process environment). *)
Record Cmd : Type := mkCmd {
  Args : list string;
  CmdDir : string;
  CmdEnv : option (list string) }.

(** One call of the registry client's [UploadLPK]. *)
Record UploadCall : Type := mkUploadCall {
  upUser : string; upName : string; upVersion : string; upPath : string }.

Record World : Type := mkWorld {
  files : gmap string node;
  clock : Z;
  execLog : list Cmd;
  uploadLog : list UploadCall }.

Definition setFiles (f : gmap string node) (w : World) : World :=
  mkWorld f (clock w) (execLog w) (uploadLog w).

(** Effectful code: the world is threaded, and it persists when the
    computation fails. *)
Definition M (A : Type) : Type := World -> (error + A) * World.

Definition ret {A} (a : A) : M A := fun w => (inr a, w).
Definition fail {A} (e : error) : M A := fun w => (inl e, w).
Definition bind {A B} (m : M A) (k : A -> M B) : M B :=
  fun w => match m w with
           | (inl e, w') => (inl e, w')
           | (inr a, w') => k a w'
           end.

(** [m] with its error passed through [h] ([return fmt.Errorf(.., err)]). *)
Definition mapErr {A} (h : error -> error) (m : M A) : M A :=
  fun w => match m w with
           | (inl e, w') => (inl (h e), w')
           | (inr a, w') => (inr a, w')
           end.

(** A pure, fallible step. *)
Definition lift {A} (r : error + A) : M A := fun w => (r, w).

Declare Scope go_scope.
Delimit Scope go_scope with go.
Notation "x <- m ;; k" := (bind m (fun x => k))
  (at level 100, m at next level, right associativity) : go_scope.
Notation "m ;;; k" := (bind m (fun _ => k))
  (at level 100, right associativity) : go_scope.

(** ** Package [path/filepath] on clean paths *)

Module filepath.

Definition slash : ascii := ascii_of_nat 47.

Definition isSlash (c : ascii) : bool := Ascii.eqb c slash.

Fixpoint hasSlash (s : string) : bool :=
    match s with
    | EmptyString => false
    | String c r => if isSlash c then true else hasSlash r
    end.

  (** The elements of a path: the text between its slashes. *)
Fixpoint elements (s : string) : list string :=
    match s with
    | EmptyString => [EmptyString]
    | String c r =>
        if isSlash c then EmptyString :: elements r
        else match elements r with
             | [] => [String c EmptyString]
             | h :: t => String c h :: t
             end
    end.

  (** One element met by [Clean], with the elements kept so far in [out],
      the last one first: an empty element and [.] are dropped; [..] takes
      the element before it away, unless there is none or it is a [..]
      itself, where it is kept in a relative path and dropped in a rooted
      one. *)
Definition cleanStep (rooted : bool) (out : list string) (e : string) : list string :=
    if String.eqb e EmptyString || String.eqb e "." then out
    else if String.eqb e ".." then
      match out with
      | top :: rest =>
          if String.eqb top ".." then (if rooted then out else e :: out) else rest
      | [] => if rooted then out else [e]
      end
    else e :: out.

Fixpoint joinSlash (l : list string) : string :=
    match l with
    | [] => EmptyString
    | [x] => x
    | x :: r => x +:+ "/" +:+ joinSlash r
    end.

  (** [filepath.Clean(path)] *)
Definition Clean (path : string) : string :=
    let rooted := strings.HasPrefix path "/" in
    let out := foldl (cleanStep rooted) [] (elements path) in
    let s := (if rooted then "/" else EmptyString)%string +:+ joinSlash (rev out) in
    if String.eqb s EmptyString then "." else s.

  (** [filepath.Join(dir, elem)]: empty operands are ignored, the others
      are joined by a slash and the result is cleaned. *)
Definition Join (dir elem : string) : string :=
    if String.eqb dir EmptyString then
      if String.eqb elem EmptyString then EmptyString else Clean elem
    else Clean (dir +:+ "/" +:+ elem).

  (** [filepath.Split(path)]: the path up to and with its last slash, and
      what follows. *)
Fixpoint Split (path : string) : string * string :=
    match path with
    | EmptyString => (EmptyString, EmptyString)
    | String c r =>
        if hasSlash path then (String c (Split r).1, (Split r).2)
        else (EmptyString, path)
    end.

Fixpoint lastElement (s : string) : string :=
    match s with
    | EmptyString => EmptyString
    | String c r =>
        if hasSlash r then lastElement r
        else if isSlash c then r else s
    end.

  (** [filepath.Base(path)] *)
Definition Base (path : string) : string :=
    if String.eqb path EmptyString then "."
    else
      match lastElement (strings.TrimRightFunc isSlash path) with
      | EmptyString => "/"
      | b => b
      end.

  (** [p] lies strictly below the directory [dir]. *)
Definition under (dir p : string) : bool :=
    strings.HasPrefix p (dir +:+ "/").

  (** The name of [p] when it is an entry of the directory [dir] itself. *)
Definition entryName (dir p : string) : option string :=
    if under dir p then
      let name := strings.drop (String.length dir + 1) p in
      if hasSlash name || String.eqb name EmptyString then None else Some name
    else None.

End filepath.

(** ** Package [sort] *)

Module sort.

(** [sort.Slice(data, less)] as a stable insertion sort (the algorithm Go
    runs on slices of at most twelve elements).  On longer slices Go's
    pattern-defeating quicksort may order elements that compare equal
    differently; the first element is minimal for [less] either way. *)
Fixpoint insert {A} (less : A -> A -> bool) (x : A) (l : list A) : list A :=
  match l with
  | [] => [x]
  | y :: r => if less y x then y :: insert less x r else x :: y :: r
  end.

Fixpoint Slice {A} (less : A -> A -> bool) (l : list A) : list A :=
  match l with
  | [] => []
  | x :: r => insert less x (Slice less r)
  end.

(** [sort.Strings(keys)]: increasing byte-wise order. *)
Definition Strings (keys : list string) : list string :=
  merge_sort String.le keys.

End sort.

(** ** Package [os] on the modelled filesystem *)

Module os.

(** [os.Stat(name)] *)
Definition Stat (name : string) (fs : gmap string node) : error + node :=
  match fs !! name with
  | Some n => inr n
  | None => inl (PathError "stat" name ENOENT)
  end.

(** [os.ReadFile(name)] *)
Definition ReadFile (name : string) : M string := fun w =>
  match files w !! name with
  | Some (File c _ _) => (inr c, w)
  | Some (Dir _) => (inl (PathError "read" name EISDIR), w)
  | None => (inl (PathError "open" name ENOENT), w)
  end.

(** [os.WriteFile(name, data, perm)]: truncates an existing file, keeping
    its mode, or creates the file with [perm]; a directory (or a name with
    a trailing separator) cannot be opened for writing.  The directory that
    is to hold [name] is taken to exist.  The mode recorded for a new file
    is the one asked for: the kernel clears the bits of the process umask
    from it, and the model, which has no umask, says nothing of the mode a
    new file ends up with. *)
Definition WriteFile (name data : string) (perm : N) : M unit := fun w =>
  if String.eqb name EmptyString then (inl (PathError "open" name ENOENT), w)
  else if strings.HasSuffix name "/" then (inl (PathError "open" name EISDIR), w)
  else
    let store n :=
      (inr tt, mkWorld (<[name := n]> (files w)) (clock w + 1)
                       (execLog w) (uploadLog w)) in
    match files w !! name with
    | Some (Dir _) => (inl (PathError "open" name EISDIR), w)
    | Some (File _ p _) => store (File data p (clock w))
    | None => store (File data perm (clock w))
    end.

(** Where an entry lands when [old] is renamed to [new]: the entry itself
    and, for a directory, everything below it. *)
Definition moveKey (old new k : string) : string :=
  if String.eqb k old then new
  else if filepath.under old k then new +:+ strings.drop (String.length old) k
  else k.

(** [os.Rename(oldpath, newpath)]: a file replaces an existing file, and
    nothing replaces an existing directory. *)
Definition Rename (oldpath newpath : string) : M unit := fun w =>
  let fs := files w in
  let failure errno := (inl (LinkError "rename" oldpath newpath errno), w) in
  match fs !! oldpath with
  | None => failure ENOENT
  | Some src =>
      if String.eqb oldpath newpath then (inr tt, w)
      else
        match fs !! newpath with
        | Some (Dir _) => failure EEXIST
        | Some (File _ _ _) =>
            if IsDir src then failure ENOTDIR
            else (inr tt, setFiles (<[newpath := src]> (delete oldpath fs)) w)
        | None =>
            (inr tt,
             setFiles
               (list_to_map
                  ((fun kn : string * node => (moveKey oldpath newpath kn.1, kn.2))
                     <$> map_to_list fs)) w)
        end
  end.

(** [os.RemoveAll(path)] with its error dropped ([_ = os.RemoveAll(tmp)]):
    [path] and everything below it are gone afterwards. *)
Definition RemoveAll (path : string) (w : World) : World :=
  setFiles
    (filter (fun kn : string * node =>
               Is_true (negb (String.eqb kn.1 path || filepath.under path kn.1)))
            (files w)) w.

(** [os.MkdirTemp] once the name [name] has been drawn. *)
Definition Mkdir (name : string) : M string := fun w =>
  match files w !! name with
  | Some _ => (inl (PathError "mkdir" name EEXIST), w)
  | None => (inr name, mkWorld (<[name := Dir (clock w)]> (files w)) (clock w + 1)
                               (execLog w) (uploadLog w))
  end.

End os.

Module filepath_glob.

(** [hasMeta(path)]: one of the characters of the pattern language occurs
    in [path]. *)
Fixpoint hasMeta (path : string) : bool :=
  match path with
  | EmptyString => false
  | String c r => strings.contains_byte c "*?[\" || hasMeta r
  end.

(** [cleanGlobPath(path)]: the directory part of a pattern as a path. *)
Definition cleanGlobPath (path : string) : string :=
  if String.eqb path EmptyString then "."
  else if String.eqb path "/" then "/"
  else strings.take (String.length path - 1) path.

(** The name under which the key [k] is listed in the directory [dir]: the
    keys of the model are clean paths, relative ones being entries of the
    current directory [.]. *)
Definition nameIn (dir k : string) : option string :=
  if String.eqb dir "." then
    if filepath.hasSlash k || String.eqb k EmptyString then None else Some k
  else if String.eqb dir "/" then
    match k with
    | String c name =>
        if filepath.isSlash c
           && negb (filepath.hasSlash name || String.eqb name EmptyString)
        then Some name else None
    | EmptyString => None
    end
  else filepath.entryName dir k.

(** [os.Stat(dir)] succeeds and reports a directory; the current directory
    and the root always do. *)
Definition statIsDir (fs : gmap string node) (dir : string) : bool :=
  String.eqb dir "." || String.eqb dir "/"
  || match fs !! dir with
     | Some n => IsDir n
     | None => false
     end.

(** [glob(dir, "*" + suffix, nil)]: the names of [dir] in increasing order
    that end with the literal [suffix] (the star matches any run of bytes
    other than the separator, which a name does not hold), each joined to
    [dir]; nothing when [dir] is not a directory. *)
Definition glob (dir suffix : string) (fs : gmap string node) : list string :=
  if statIsDir fs dir then
    filepath.Join dir
      <$> sort.Strings
            (List.filter (fun name => strings.HasSuffix name suffix)
                         (omap (nameIn dir) (map_to_list fs).*1))
  else [].

(** The literal after the star when the last element of a pattern is a
    star followed by text without metacharacters. *)
Definition starSuffix (file : string) : option string :=
  match file with
  | String c suffix =>
      if Ascii.eqb c "*" && negb (hasMeta suffix) then Some suffix else None
  | EmptyString => None
  end.

(** [filepath.Glob(pattern)].  A pattern without metacharacters matches
    itself if it exists.  A pattern whose directory part has none and whose
    last element is a star and a literal lists that directory.  On every
    other pattern (metacharacters in the directory part, or another last
    element) the result is that of [beyond], the pattern language proper,
    of which the paths that exist are kept: [Glob] returns only paths it has
    found. *)
Definition Glob (beyond : string -> gmap string node -> error + list string)
    (pattern : string) (fs : gmap string node) : error + list string :=
  if negb (hasMeta pattern)
  then inr (if bool_decide (is_Some (fs !! pattern)) then [pattern] else [])
  else
    let dir := cleanGlobPath (filepath.Split pattern).1 in
    match hasMeta dir, starSuffix (filepath.Split pattern).2 with
    | false, Some suffix => inr (glob dir suffix fs)
    | _, _ =>
        match beyond pattern fs with
        | inl err => inl err
        | inr found =>
            inr (List.filter (fun p => bool_decide (is_Some (fs !! p))) found)
        end
    end.

End filepath_glob.

(** ** Package [text/template], the fragment of text and field actions *)

Module template.

(** A parsed template: literal text and actions [{{.Key}}], [Pos] being
    the position [line:col] at which the parser found the action, up to the
    first action of another kind (a pipeline, [if], [with], [range],
    [template], a variable, ...).  From that action on the template is
    [Rest run]: [run] is what the library writes for the rest on the given
    variables, or the error it stops with.  (The field actions before it
    set no variable, so the rest depends on the variables alone.) *)
Inductive Node : Type :=
| Text (s : string)
| Field (Pos : string) (Key : string)
| Rest (run : gmap string string -> error + string).

(** [%q] on a string of printable bytes without quote or backslash. *)
Definition quote (s : string) : string := strings.dquote +:+ s +:+ strings.dquote.

(** The error of [state.errorf] at a field node, wrapped as the package
    does in [ExecError]. *)
Definition errorf (name pos key msg : string) : error :=
  ExecError name
    (errorString ("template: " +:+ name +:+ ":" +:+ pos +:+ ": executing "
                  +:+ quote name +:+ " at <." +:+ key +:+ ">: " +:+ msg)).

Definition missingKeyText (key : string) : string :=
  "map has no entry for key " +:+ quote key.

(** Execution against a [map[string]string] under [missingkey=error]. *)
Fixpoint exec (name : string) (data : gmap string string) (ns : list Node)
    (buf : string) : error + string :=
  match ns with
  | [] => inr buf
  | Text s :: r => exec name data r (buf +:+ s)
  | Field pos key :: r =>
      match data !! key with
      | Some v => exec name data r (buf +:+ v)
      | None => inl (errorf name pos key (missingKeyText key))
      end
  | Rest run :: _ =>
      match run data with
      | inl err => inl err
      | inr out => inr (buf +:+ out)
      end
  end.

Definition Execute (name : string) (ns : list Node) (data : gmap string string)
  : error + string := exec name data ns EmptyString.

(** The keys of the field actions, in order of execution, up to the first
    action of another kind. *)
Fixpoint keys (ns : list Node) : list string :=
  match ns with
  | [] => []
  | Text _ :: r => keys r
  | Field _ key :: r => key :: keys r
  | Rest _ :: _ => []
  end.


End template.

Module filepath_walk.

(** The [fs.DirEntry] handed to the callback. *)
Record DirEntry : Type := mkDirEntry { entryName : string; entryIsDir : bool }.

Definition WalkDirFunc : Type := string -> option DirEntry -> option error -> M unit.

Fixpoint split (s : string) : list string :=
  match s with
  | EmptyString => [EmptyString]
  | String c r =>
      if filepath.isSlash c then EmptyString :: split r
      else match split r with
           | [] => [String c EmptyString]
           | h :: t => String c h :: t
           end
  end.

(** Lexical order, element by element: a directory comes before its
    entries and entries are visited in increasing order of name. *)
Fixpoint lexLess (a b : list string) : bool :=
  match a, b with
  | _, [] => false
  | [], _ :: _ => true
  | x :: a', y :: b' =>
      match String.compare x y with
      | Lt => true
      | Gt => false
      | Eq => lexLess a' b'
      end
  end.

Definition walkOrder (fs : gmap string node) (root : string) : list (string * node) :=
  sort.Slice (fun a b : string * node => lexLess (split a.1) (split b.1))
    (List.filter (fun kn : string * node =>
                    String.eqb kn.1 root || filepath.under root kn.1)
                 (map_to_list fs)).

Fixpoint walk (fn : WalkDirFunc) (entries : list (string * node)) : M unit :=
  match entries with
  | [] => ret tt
  | (p, n) :: r =>
      bind (fn p (Some (mkDirEntry (filepath.Base p) (IsDir n))) None)
           (fun _ => walk fn r)
  end.

(** [filepath.WalkDir(root, fn)].  The callbacks of the provider only
    write next to the file they are called on, in a directory that has been
    listed already, so the tree is listed once, up front; the walk stops at
    the first error a callback returns. *)
Definition WalkDir (root : string) (fn : WalkDirFunc) : M unit := fun w =>
  match files w !! root with
  | None => fn root None (Some (PathError "lstat" root ENOENT)) w
  | Some _ => walk fn (walkOrder (files w) root) w
  end.

End filepath_walk.

(** ** Package [errors]: comparing against a sentinel *)

Module errors.

(** [err == target] for a target that is a package-level error variable:
    the same variable.  (An error made at run time is a value of its own.)
    The provider passes no other target. *)
Definition same (err target : error) : bool :=
  match err, target with
  | errorVar name _, errorVar name' _ => String.eqb name name'
  | _, _ => false
  end.

(** [errors.Is(err, target)] for such a target, which has no [Is] method:
    some error of the [Unwrap] chain is the target. *)
Fixpoint Is (err target : error) : bool :=
  same err target
  || match err with
     | wrapError _ e | ExecError _ e | ExecErrorPtr _ e => Is e target
     | _ => false
     end.

End errors.

(** [var errNotFound = errors.New("resource not found")], which the API
    client returns for a 404 response. *)
Definition errNotFound : error := errorVar "errNotFound" "resource not found".

(** ** Removing a file *)

Module os_remove.

(** Something lies below the directory [name]. *)
Definition hasEntries (name : string) (fs : gmap string node) : bool :=
  existsb (filepath.under name) (map_to_list fs).*1.

(** [os.Remove(name)]: removes a file or an empty directory.  (For a
    directory that is not empty the system call fails with ENOTEMPTY, which
    POSIX lets a system report as EEXIST, the name used here.) *)
Definition Remove (name : string) : M unit := fun w =>
  match files w !! name with
  | None => (inl (PathError "remove" name ENOENT), w)
  | Some (File _ _ _) => (inr tt, setFiles (delete name (files w)) w)
  | Some (Dir _) =>
      if hasEntries name (files w)
      then (inl (PathError "remove" name EEXIST), w)
      else (inr tt, setFiles (delete name (files w)) w)
  end.

End os_remove.

(** ** Diagnostics *)

(** An error diagnostic, as [resp.Diagnostics.AddError(summary, detail)]
    records it. *)
Record Diag : Type := mkDiag { Summary : string; Detail : string }.

(** Code that reports a diagnostic instead of returning an error. *)
Definition D (A : Type) : Type := World -> (Diag + A) * World.



(** [if err != nil { resp.Diagnostics.AddError(summary, err.Error()); return }] *)
Definition orDiag {A} (summary : string) (m : M A) : D A :=
  fun w => match m w with
           | (inl err, w') => (inl (mkDiag summary (Error err)), w')
           | (inr a, w') => (inr a, w')
           end.


(** ** The registry client (api_client.go)

    The HTTP exchange is a transport [httpDo] over the state [Srv] of the
    registry; it stands for the base URL, the credentials and the
    [http.Client] of [LcmdClient] with [buildURL] and [http.NewRequest],
    and answers with the status and the whole body of the response.  What
    the client decides from the answer is modelled as written. *)

Module apiAppInfo.
Record t : Type := mk {
    AppID : string; DeployID : string; LpkID : string; Title : string;
    Version : string; Domain : string; Owner : string }.

(** [var app apiAppInfo] *)
Definition zero : t :=
  mk EmptyString EmptyString EmptyString EmptyString EmptyString EmptyString EmptyString.
End apiAppInfo.

Module apiInstallRequest.
Record t : Type := mk { UID : string; LPKURL : string; Wait : bool; Ephemeral : bool }.
End apiInstallRequest.

Module apiUser.
Record t : Type := mk { UID : string; Nickname : string }.
End apiUser.

Module http.

(** A request as [doRaw] receives it: method, path below the base URL,
    query parameters and the payload handed to [json.Marshal]. *)
Record Request : Type := mkRequest {
    Method : string; Path : string; Query : gmap string string;
    Payload : option apiInstallRequest.t }.

Record Response : Type := mkResponse { StatusCode : Z; Body : string }.

Definition MethodGet : string := "GET".
Definition MethodPost : string := "POST".
Definition MethodDelete : string := "DELETE".
Definition StatusNotFound : Z := 404.

End http.

(** The registry and the requests sent to it so far. *)
Record Remote (Srv : Type) : Type := mkRemote {
    server : Srv; requests : list http.Request }.

Arguments mkRemote {Srv} _ _.
Arguments server {Srv} _.
Arguments requests {Srv} _.

Module LcmdClient.

(** The field of [LcmdClient] that its methods read. *)
Record t : Type := mk { User : string }.

Section Transport.

Context {Srv : Type}.
Variable httpDo : http.Request -> Srv -> (error + http.Response) * Srv.
Variable path_Join : string -> string -> string.
Variable json_Unmarshal_app : string -> error + apiAppInfo.t.
Variable json_Unmarshal_users : string -> error + list apiUser.t.
Variable json_Unmarshal_strings : string -> error + list string.

Definition doRaw (method p : string) (query : gmap string string)
    (body : option apiInstallRequest.t) : Remote Srv -> (error + string) * Remote Srv :=
  fun r =>
    let req := http.mkRequest method p query body in
    let '(resp, srv') := httpDo req (server r) in
    let r' := mkRemote srv' (requests r ++ [req]) in
    match resp with
    | inl err => (inl err, r')
    | inr resp =>
        if (http.StatusCode resp =? http.StatusNotFound)%Z then (inl errNotFound, r')
        else if (300 <=? http.StatusCode resp)%Z
        then (inl (errorString ("api " +:+ method +:+ " " +:+ p +:+ ": "
                                +:+ strings.TrimSpace (http.Body resp))), r')
        else (inr (http.Body resp), r')
    end.

(** [c.do]: [out] is the decoder for the type that [out] points to, and
    [init] the value it points to before the call. *)
Definition do {A : Type} (method p : string) (query : gmap string string)
    (body : option apiInstallRequest.t) (out : option (string -> error + A))
    (init : A) : Remote Srv -> (error + A) * Remote Srv :=
  fun r =>
    match doRaw method p query body r with
    | (inl err, r') => (inl err, r')
    | (inr data, r') =>
        match out with
        | None => (inr init, r')
        | Some unmarshal =>
            if (String.length data =? 0)%nat then (inr init, r')
            else (unmarshal data, r')
        end
    end.

Definition InstallApp (c : t) (lpkURL : string) (wait ephemeral : bool)
  : Remote Srv -> (error + apiAppInfo.t) * Remote Srv :=
  fun r =>
    if String.eqb (User c) EmptyString
    then (inl (errors_New "user uid is not configured"), r)
    else
      let payload := apiInstallRequest.mk (User c) lpkURL wait ephemeral in
      do http.MethodPost "/v1/apps" ∅ (Some payload)
         (Some json_Unmarshal_app) apiAppInfo.zero r.

Definition GetApp (c : t) (appID : string)
  : Remote Srv -> (error + apiAppInfo.t) * Remote Srv :=
  fun r =>
    if String.eqb (User c) EmptyString
    then (inl (errors_New "user uid is not configured"), r)
    else
      let params : gmap string string := {[ "uid" := User c ]} in
      match do http.MethodGet (path_Join "/v1/apps" appID) params None
               (Some json_Unmarshal_app) apiAppInfo.zero r with
      | (inl err, r') =>
          if errors.Is err errNotFound then (inl err, r') else (inl err, r')
      | (inr app, r') => (inr app, r')
      end.

Definition DeleteApp (c : t) (appID : string) (clearData : bool)
  : Remote Srv -> (error + unit) * Remote Srv :=
  fun r =>
    if String.eqb (User c) EmptyString
    then (inl (errors_New "user uid is not configured"), r)
    else
      let params : gmap string string :=
        <[ "clear_data" := if clearData then "true" else "false" ]>
          {[ "uid" := User c ]} in
      do (A := unit) http.MethodDelete (path_Join "/v1/apps" appID) params None
         None tt r.

Definition ListUsers : Remote Srv -> (error + list apiUser.t) * Remote Srv :=
  fun r =>
    match doRaw http.MethodGet "/v1/users" ∅ None r with
    | (inl err, r') => (inl err, r')
    | (inr data, r') =>
        match json_Unmarshal_users data with
        | inr detailed => (inr detailed, r')
        | inl _ =>
            match json_Unmarshal_strings data with
            | inr simple =>
                (inr ((fun uid => apiUser.mk uid EmptyString) <$> simple), r')
            | inl _ =>
                (inl (errorString ("unexpected users payload: " +:+ data)), r')
            end
        end
    end.

End Transport.

(** [newAPIClient]; [url_Parse] is the error of [url.Parse], if any. *)
Definition newAPIClient (url_Parse : string -> option error)
    (endpoint username password : string) : error + t :=
  if String.eqb endpoint EmptyString then inl (errors_New "endpoint is required")
  else match url_Parse endpoint with
       | Some err => inl (Errorf_w "invalid endpoint: " err)
       | None => inr (mk EmptyString)
       end.

End LcmdClient.

(** ** The provider (provider.go) *)

Module LcmdProviderModel.
Record t : Type := mk {
    Endpoint : tfString; Username : tfString; Password : tfString; User : tfString }.
End LcmdProviderModel.

Definition containsUID (users : list apiUser.t) (uid : string) : bool :=
  existsb (fun u => String.eqb (apiUser.UID u) uid) users.

Module LcmdProvider.
Section Transport.

Context {Srv : Type}.
Variable httpDo : http.Request -> Srv -> (error + http.Response) * Srv.
Variable json_Unmarshal_users : string -> error + list apiUser.t.
Variable json_Unmarshal_strings : string -> error + list string.
Variable url_Parse : string -> option error.

(** [Configure] on the decoded configuration: a diagnostic, or the client
    handed to the resources and data sources. *)
Definition Configure (data : LcmdProviderModel.t)
  : Remote Srv -> (Diag + LcmdClient.t) * Remote Srv :=
  fun r =>
    if IsUnknown (LcmdProviderModel.Endpoint data) || IsNull (LcmdProviderModel.Endpoint data)
       || IsUnknown (LcmdProviderModel.Username data) || IsNull (LcmdProviderModel.Username data)
       || IsUnknown (LcmdProviderModel.Password data) || IsNull (LcmdProviderModel.Password data)
       || IsUnknown (LcmdProviderModel.User data) || IsNull (LcmdProviderModel.User data)
    then (inl (mkDiag "Missing configuration"
                      "endpoint, username, password, and user must be provided"), r)
    else
      match LcmdClient.newAPIClient url_Parse
              (ValueString (LcmdProviderModel.Endpoint data))
              (ValueString (LcmdProviderModel.Username data))
              (ValueString (LcmdProviderModel.Password data)) with
      | inl err => (inl (mkDiag "Failed to configure API client" (Error err)), r)
      | inr _ =>
          match LcmdClient.ListUsers httpDo json_Unmarshal_users
                  json_Unmarshal_strings r with
          | (inl err, r') =>
              (inl (mkDiag "Client Error"
                           ("Unable to list UIDs, got error: " +:+ Error err)), r')
          | (inr users, r') =>
              let uid := ValueString (LcmdProviderModel.User data) in
              if negb (containsUID users uid)
              then (inl (mkDiag "Invalid user" ("User " +:+ uid +:+ " not found")), r')
              else (inr (LcmdClient.mk uid), r')
          end
      end.

End Transport.
End LcmdProvider.

(** ** The application resource (app_resource.go) *)

Module LpkResourceModel.
Record t : Type := mk {
    Title : tfString; LpkUrl : tfString; LpkId : tfString; Appid : tfString;
    Version : tfString; Domain : tfString; Owner : tfString; Ephemeral : tfBool }.
End LpkResourceModel.

Definition stringOrNull (val : string) : tfString :=
  if String.eqb val EmptyString then StringNull else StringValue val.

Module AppResource.

(** The six assignments from the registry's answer. *)
Definition withApp (app : apiAppInfo.t) (d : LpkResourceModel.t) : LpkResourceModel.t :=
  LpkResourceModel.mk
    (stringOrNull (apiAppInfo.Title app))
    (LpkResourceModel.LpkUrl d)
    (stringOrNull (apiAppInfo.LpkID app))
    (stringOrNull (apiAppInfo.AppID app))
    (stringOrNull (apiAppInfo.Version app))
    (stringOrNull (apiAppInfo.Domain app))
    (stringOrNull (apiAppInfo.Owner app))
    (LpkResourceModel.Ephemeral d).

(** The six assignments from the prior state. *)
Definition withState (state plan : LpkResourceModel.t) : LpkResourceModel.t :=
  LpkResourceModel.mk
    (LpkResourceModel.Title state)
    (LpkResourceModel.LpkUrl plan)
    (LpkResourceModel.LpkId state)
    (LpkResourceModel.Appid state)
    (LpkResourceModel.Version state)
    (LpkResourceModel.Domain state)
    (LpkResourceModel.Owner state)
    (LpkResourceModel.Ephemeral plan).

Definition withEphemeral (v : tfBool) (d : LpkResourceModel.t) : LpkResourceModel.t :=
  LpkResourceModel.mk (LpkResourceModel.Title d) (LpkResourceModel.LpkUrl d)
    (LpkResourceModel.LpkId d) (LpkResourceModel.Appid d) (LpkResourceModel.Version d)
    (LpkResourceModel.Domain d) (LpkResourceModel.Owner d) v.

(** What [Read] leaves in the response. *)
Inductive ReadOutcome : Type :=
| Removed
| Refreshed (state : LpkResourceModel.t)
| ReadFailed (d : Diag).

Section Transport.

Context {Srv : Type}.
Variable httpDo : http.Request -> Srv -> (error + http.Response) * Srv.
Variable path_Join : string -> string -> string.
Variable json_Unmarshal_app : string -> error + apiAppInfo.t.

(** The methods on a resource whose client [c] has been configured. *)
Definition Create (c : LcmdClient.t) (data : LpkResourceModel.t)
  : Remote Srv -> (Diag + LpkResourceModel.t) * Remote Srv :=
  fun r =>
    match LcmdClient.InstallApp httpDo json_Unmarshal_app c
            (ValueString (LpkResourceModel.LpkUrl data)) true
            (ValueBool (LpkResourceModel.Ephemeral data)) r with
    | (inl err, r') =>
        (inl (mkDiag "Client Error"
                     ("Unable to install LPK, got error: " +:+ Error err)), r')
    | (inr app, r') => (inr (withApp app data), r')
    end.

Definition Read (c : LcmdClient.t) (state : LpkResourceModel.t)
  : Remote Srv -> ReadOutcome * Remote Srv :=
  fun r =>
    if IsNull (LpkResourceModel.Appid state)
       || String.eqb (ValueString (LpkResourceModel.Appid state)) EmptyString
    then (Removed, r)
    else
      match LcmdClient.GetApp httpDo path_Join json_Unmarshal_app c
              (ValueString (LpkResourceModel.Appid state)) r with
      | (inl err, r') =>
          if errors.Is err errNotFound then (Removed, r')
          else (ReadFailed (mkDiag "QueryApplication failed" (Error err)), r')
      | (inr app, r') => (Refreshed (withApp app state), r')
      end.

Definition Update (c : LcmdClient.t) (plan state : LpkResourceModel.t)
  : Remote Srv -> (Diag + LpkResourceModel.t) * Remote Srv :=
  fun r =>
    let normalized d :=
      withEphemeral (BoolValue (ValueBool (LpkResourceModel.Ephemeral plan))) d in
    if negb (String.eqb (ValueString (LpkResourceModel.LpkUrl plan))
                        (ValueString (LpkResourceModel.LpkUrl state)))
    then
      match
        (if negb (IsNull (LpkResourceModel.Appid state))
            && negb (String.eqb (ValueString (LpkResourceModel.Appid state)) EmptyString)
         then LcmdClient.DeleteApp httpDo path_Join c
                (ValueString (LpkResourceModel.Appid state)) false r
         else (inr tt, r))
      with
      | (inl err, r1) => (inl (mkDiag "Uninstall failed" (Error err)), r1)
      | (inr _, r1) =>
          match LcmdClient.InstallApp httpDo json_Unmarshal_app c
                  (ValueString (LpkResourceModel.LpkUrl plan)) true
                  (ValueBool (LpkResourceModel.Ephemeral plan)) r1 with
          | (inl err, r2) => (inl (mkDiag "Install failed" (Error err)), r2)
          | (inr app, r2) => (inr (normalized (withApp app plan)), r2)
          end
      end
    else (inr (normalized (withState state plan)), r).

(** [Delete]: a diagnostic, or none, after which the framework drops the
    resource from the state. *)
Definition Delete (c : LcmdClient.t) (data : LpkResourceModel.t)
  : Remote Srv -> option Diag * Remote Srv :=
  fun r =>
    if negb (IsNull (LpkResourceModel.Appid data))
       && negb (String.eqb (ValueString (LpkResourceModel.Appid data)) EmptyString)
    then
      match LcmdClient.DeleteApp httpDo path_Join c
              (ValueString (LpkResourceModel.Appid data))
              (ValueBool (LpkResourceModel.Ephemeral data)) r with
      | (inl err, r') =>
          (Some (mkDiag "Client Error"
                        ("Unable to uninstall LPK, got error: " +:+ Error err)), r')
      | (inr _, r') => (None, r')
      end
    else (None, r).

End Transport.
End AppResource.

(** ** Stand-ins for the external collaborators

    Small concrete collaborators and worlds on which the properties below
    are exercised. *)

Module Fixture.

(** A stand-in digest. *)
Definition hash (s : string) : string := "h" +:+ s.

(** A decoder that knows one manifest. *)
Definition yaml (data : string) : error + manifestYAML.t :=
  if String.eqb data "m1" then inr (manifestYAML.mk "a1" "1.0.0" "app")
  else inl (errorString "yaml: unmarshal errors").

(** A parser that knows one template with an action. *)
Definition parse (name text : string) : error + list template.Node :=
  if String.eqb text "hello {{.NAME}}"
  then inr [template.Text "hello "; template.Field "1:8" "NAME"]
  else inr [template.Text text].

(** The build command leaves [out.lpk] in its directory; [git clone]
    checks out a tree holding the manifest. *)
Definition exec (c : Cmd) (fs : gmap string node) : option error * gmap string node :=
  match Args c with
  | ["sh"; "-c"; _] =>
      (None, <[filepath.Join (CmdDir c) "out.lpk" := File "artifact" 420%N 5%Z]> fs)
  | ["git"; "clone"; _; _] =>
      (None, <[filepath.Join (CmdDir c) "repo/lzc-manifest.yml" := File "m1" 420%N 1%Z]>
               (<[filepath.Join (CmdDir c) "repo" := Dir 1%Z]> fs))
  | _ => (Some (ExitError 1), fs)
  end.


Definition temp (fs : gmap string node) : string := "/tmp/lpk-build-1".

(** A registry that reports its own digest of the upload. *)
Definition upload (c : UploadCall) (fs : gmap string node) : error + apiUpload.t :=
  inr (apiUpload.mk "up1" "http://nas/up1.lpk" "remote" EmptyString).

Definition environ : list string := ["HOME=/root"; "PATH=/bin"; "NAME=inherited"].

Definition fs0 : gmap string node :=
  <["w" := Dir 0%Z]>
    (<["w/lzc-manifest.yml" := File "m1" 420%N 0%Z]>
       (<["w/conf.tmpl" := File "hello {{.NAME}}" 384%N 0%Z]> ∅)).

Definition w0 : World := mkWorld fs0 10 [] [].

Definition vars : gmap string string := <["NAME" := "bob"]> ∅.

Definition env : LPKBuildEnvModel.t :=
  LPKBuildEnvModel.mk (<["NAME" := StringValue "bob"]> ∅) StringNull.

Definition localSource : LPKBuildSourceModel.t :=
  LPKBuildSourceModel.mk (Some (LPKBuildSourceLocalModel.mk (StringValue "w"))) None.

Definition gitSource : LPKBuildSourceModel.t :=
  LPKBuildSourceModel.mk None
    (Some (LPKBuildSourceGitModel.mk (StringValue "https://example.com/app.git")
             StringNull StringNull)).

Definition config (source : option LPKBuildSourceModel.t) : LPKBuildModel.t :=
  LPKBuildModel.mk StringNull source None None (Some env)
    StringNull StringNull StringNull StringNull StringNull StringNull.

(** The state left by an earlier apply that uploaded the same bytes. *)
Definition priorState : LPKBuildModel.t :=
  LPKBuildModel.mk (StringValue "a1-1.0.0-hartifact") (Some localSource) None None
    (Some env) (StringValue "http://nas/up0.lpk") (StringValue "hartifact")
    (StringValue "a1") (StringValue "1.0.0")
    (StringValue "w/app-1.0.0-hm1.lpk") (StringValue "up0").

(** The state after an apply that uploaded: the registry's digest is in
    [sha256], the local one in the ID. *)
Definition uploadedState : LPKBuildModel.t :=
  LPKBuildModel.mk (StringValue "a1-1.0.0-hartifact") (Some localSource) None None
    (Some env) (StringValue "http://nas/up1.lpk") (StringValue "remote")
    (StringValue "a1") (StringValue "1.0.0")
    (StringValue "w/app-1.0.0-hm1.lpk") (StringValue "up1").

(** A descriptor with both variants populated. *)
Definition bothSource : LPKBuildSourceModel.t :=
  LPKBuildSourceModel.mk (Some (LPKBuildSourceLocalModel.mk (StringValue "w")))
    (Some (LPKBuildSourceGitModel.mk (StringValue "https://example.com/app.git")
             StringNull StringNull)).

(** The canonical artifact path of the manifest in [fs0], and its
    metadata once built. *)
Definition artifact : string := "w/app-1.0.0-hm1.lpk".

Definition meta : lpkMetadata.t :=
  lpkMetadata.mk "a1" "1.0.0" "hartifact" "app-1.0.0-hm1".

(** The default build command run in [w] without variables. *)
Definition buildCmd0 : Cmd := mkCmd ["sh"; "-c"; "npx lzc-cli project build ."] "w" None.



Definition cachedWorld : World :=
  mkWorld (<[artifact := File "artifact" 420%N 5%Z]> fs0) 10 [buildCmd0] [].

(** A build command that fails, and the worlds after one and two runs of
    it: nothing changes but the record of runs. *)
Definition execFail (c : Cmd) (fs : gmap string node)
  : option error * gmap string node := (Some (ExitError 1), fs).

Definition failedOnce : World := mkWorld fs0 10 [buildCmd0] [].

Definition failedTwice : World := mkWorld fs0 10 [buildCmd0; buildCmd0] [].


(** An [env] block whose only variable is null. *)
Definition nullEnv : LPKBuildEnvModel.t :=
  LPKBuildEnvModel.mk (<["NAME" := StringNull]> ∅) StringNull.

(** The configuration of [config] with publishing switched off. *)
Definition unpublished : LPKBuildModel.t :=
  LPKBuildModel.mk StringNull (Some localSource) None
    (Some (LPKBuildPublishModel.mk (BoolValue false) StringNull StringNull))
    (Some env) StringNull StringNull StringNull StringNull StringNull StringNull.

(** What the registry of [upload] answers. *)
Definition uploaded : apiUpload.t :=
  apiUpload.mk "up1" "http://nas/up1.lpk" "remote" EmptyString.

(** A registry that has forgotten every upload, and one that is out of
    order. *)
Definition deleteGone (id : string) : option error :=
  Some (Errorf_w "delete upload: " errNotFound).

Definition deleteDown (id : string) : option error :=
  Some (errorString "api DELETE /v1/lpks: bad gateway").

(** A world without a manifest. *)
Definition emptyWorld : World := mkWorld ∅ 0 [] [].

Definition git : LPKBuildSourceGitModel.t :=
  LPKBuildSourceGitModel.mk (StringValue "https://example.com/app.git")
    StringNull StringNull.

(** A registry of applications: its state is the list of the paths of the
    installed applications, and it knows one package. *)
Definition appInfo : apiAppInfo.t :=
  apiAppInfo.mk "app1" "d1" "lpk1" "App" "1.0.0" "app1.nas" "alice".

Definition httpDo (req : http.Request) (srv : list string)
  : (error + http.Response) * list string :=
  if String.eqb (http.Method req) "POST"
  then (inr (http.mkResponse 200 "app1"), "/v1/apps/app1" :: srv)
  else if String.eqb (http.Path req) "/v1/users"
  then (inr (http.mkResponse 200 "users"), srv)
  else if existsb (String.eqb (http.Path req)) srv
  then if String.eqb (http.Method req) "DELETE"
       then (inr (http.mkResponse 200 EmptyString),
             List.filter (fun p => negb (String.eqb (http.Path req) p)) srv)
       else (inr (http.mkResponse 200 "app1"), srv)
  else (inr (http.mkResponse 404 "no such app"), srv).

(** A registry that answers every request with an empty body. *)
Definition httpEmpty (req : http.Request) (srv : list string)
  : (error + http.Response) * list string :=
  (inr (http.mkResponse 204 EmptyString), srv).

Definition pathJoin (a b : string) : string := a +:+ "/" +:+ b.

Definition decodeApp (data : string) : error + apiAppInfo.t :=
  if String.eqb data "app1" then inr appInfo
  else inl (errorString "unexpected end of JSON input").

Definition decodeUsers (data : string) : error + list apiUser.t :=
  inl (errorString "json: cannot unmarshal string into Go value of type provider.apiUser").

Definition decodeStrings (data : string) : error + list string :=
  if String.eqb data "users" then inr ["alice"; "bob"]
  else inl (errorString "unexpected end of JSON input").

Definition urlParse (endpoint : string) : option error := None.

Definition client : LcmdClient.t := LcmdClient.mk "alice".

Definition remote0 : Remote (list string) := mkRemote [] [].

Definition remote1 : Remote (list string) := mkRemote ["/v1/apps/app1"] [].

Definition providerConfig : LcmdProviderModel.t :=
  LcmdProviderModel.mk (StringValue "http://nas:8080") (StringValue "admin")
    (StringValue "secret") (StringValue "alice").

(** A plan, the state of the installed application, the plan of a move to
    another URL, and the state of an application the registry has lost. *)
Definition appPlan : LpkResourceModel.t :=
  LpkResourceModel.mk StringUnknown (StringValue "http://nas/up1.lpk") StringUnknown
    StringUnknown StringUnknown StringUnknown StringUnknown BoolNull.

Definition appState : LpkResourceModel.t :=
  LpkResourceModel.mk (StringValue "App") (StringValue "http://nas/up1.lpk")
    (StringValue "lpk1") (StringValue "app1") (StringValue "1.0.0")
    (StringValue "app1.nas") (StringValue "alice") (BoolValue false).

Definition movedPlan : LpkResourceModel.t :=
  LpkResourceModel.mk StringUnknown (StringValue "http://nas/up2.lpk") StringUnknown
    StringUnknown StringUnknown StringUnknown StringUnknown BoolNull.

Definition lostState : LpkResourceModel.t :=
  LpkResourceModel.mk (StringValue "App") (StringValue "http://nas/up1.lpk")
    (StringValue "lpk9") (StringValue "app9") (StringValue "1.0.0")
    (StringValue "app9.nas") (StringValue "alice") (BoolValue false).

(** The states and the registry after the calls exercised below. *)
Definition createdState : LpkResourceModel.t :=
  LpkResourceModel.mk (StringValue "App") (StringValue "http://nas/up1.lpk")
    (StringValue "lpk1") (StringValue "app1") (StringValue "1.0.0")
    (StringValue "app1.nas") (StringValue "alice") BoolNull.

Definition remoteCreated : Remote (list string) :=
  mkRemote ["/v1/apps/app1"]
    [http.mkRequest "POST" "/v1/apps" ∅
       (Some (apiInstallRequest.mk "alice" "http://nas/up1.lpk" true false))].

Definition movedState : LpkResourceModel.t :=
  LpkResourceModel.mk (StringValue "App") (StringValue "http://nas/up2.lpk")
    (StringValue "lpk1") (StringValue "app1") (StringValue "1.0.0")
    (StringValue "app1.nas") (StringValue "alice") (BoolValue false).

Definition remoteMoved : Remote (list string) :=
  mkRemote ["/v1/apps/app1"]
    [http.mkRequest "DELETE" "/v1/apps/app1"
       (<["clear_data" := "false"]> {["uid" := "alice"]}) None;
     http.mkRequest "POST" "/v1/apps" ∅
       (Some (apiInstallRequest.mk "alice" "http://nas/up2.lpk" true false))].

Definition remoteListed : Remote (list string) :=
  mkRemote [] [http.mkRequest "GET" "/v1/users" ∅ None].

(** The pattern language proper, which the fixtures never reach. *)
Definition glob (pattern : string) (fs : gmap string node)
  : error + list string := inl (errorString "syntax error in pattern").

(** A later world: the process has restarted, a source file has changed,
    the manifest and the artifact are as the build left them. *)
Definition laterWorld : World :=
  mkWorld (<["w/main.go" := File "changed" 420%N 20%Z]>
             (<[artifact := File "artifact" 420%N 5%Z]> fs0)) 30 [] [].


End Fixture.

(** ** The provider *)

Section Provider.

Local Open Scope go_scope.

(** [hex.EncodeToString] of the SHA-256 digest of a byte string. *)
Variable sha256hex : string -> string.

(** [yaml.Unmarshal(data, &m)] into a [manifestYAML]. *)
Variable yaml_Unmarshal : string -> error + manifestYAML.t.

(** [template.New(name).Option("missingkey=error").Parse(text)]. *)
Variable template_Parse : string -> string -> error + list template.Node.

(** [os.Environ()]. *)
Variable os_Environ : list string.

(** What running an external program does to the filesystem, and the
    error of [cmd.Run()] if any. *)
Variable exec_Run : Cmd -> gmap string node -> option error * gmap string node.

(** [filepath.Glob] on the patterns whose matching the model of the
    package leaves to the library: those with metacharacters in the
    directory part. *)
Variable filepath_Glob : string -> gmap string node -> error + list string.

(** The fresh name drawn by [os.MkdirTemp] for the pattern [lpk-build-*]
    in the default directory for temporary files. *)
Variable tempDirName : gmap string node -> string.

(** Modelled from the spec: the registry client contract
    [Upload(user, name, version, filePath) -> {id, downloadURL, sha256,
    version}]; the method [LcmdClient.UploadLPK] is called by the source
    files but is not among them. *)
Variable UploadLPK : UploadCall -> gmap string node -> error + apiUpload.t.

(** [r.client.User]. *)
Variable clientUser : string.

(** [cmd.Run()], recorded in the log of external runs. *)
Definition Run (c : Cmd) : M unit := fun w =>
  let '(r, fs') := exec_Run c (files w) in
  let w' := mkWorld fs' (clock w) (execLog w ++ [c]) (uploadLog w) in
  match r with
  | Some e => (inl e, w')
  | None => (inr tt, w')
  end.

(** [r.client.UploadLPK(ctx, user, name, version, path)], recorded in the
    log of uploads. *)
Definition callUploadLPK (c : UploadCall) : M apiUpload.t := fun w =>
  (UploadLPK c (files w),
   mkWorld (files w) (clock w) (execLog w) (uploadLog w ++ [c])).

Definition MkdirTemp : M string := fun w => os.Mkdir (tempDirName (files w)) w.

(** [m], and on its failure [cleanup()] before the wrapped error is
    returned. *)
Definition orCleanup {A} (cleanup : World -> World) (pre : string) (m : M A) : M A :=
  fun w => match m w with
           | (inl e, w') => (inl (Errorf_w pre e), cleanup w')
           | (inr a, w') => (inr a, w')
           end.

(** [if cleanup != nil { defer cleanup() }] around the rest of the
    function: the handle runs on every way out. *)
Definition defer {A} (cleanup : option (World -> World)) (m : M A) : M A :=
  fun w => match m w with
           | (r, w') => (r, match cleanup with
                            | Some f => f w'
                            | None => w'
                            end)
           end.

Definition unset (v : tfString) : bool :=
  IsNull v || String.eqb (ValueString v) EmptyString.

Definition prepareSource (source : option LPKBuildSourceModel.t)
  : M (string * option (World -> World)) :=
  match source with
  | None => fail (errors_New "source block is required")
  | Some source =>
      match LPKBuildSourceModel.Local source with
      | Some loc =>
          if unset (LPKBuildSourceLocalModel.Path loc)
          then fail (errors_New "local.path must be set")
          else ret (ValueString (LPKBuildSourceLocalModel.Path loc), None)
      | None =>
          match LPKBuildSourceModel.Git source with
          | Some git =>
              if unset (LPKBuildSourceGitModel.URL git)
              then fail (errors_New "git.url must be set")
              else
                tmp <- MkdirTemp ;;
                let cleanup := os.RemoveAll tmp in
                orCleanup cleanup "git clone failed: "
                  (Run (mkCmd ["git"; "clone";
                               ValueString (LPKBuildSourceGitModel.URL git); "repo"]
                              tmp None)) ;;;
                let repoPath := filepath.Join tmp "repo" in
                (if unset (LPKBuildSourceGitModel.Ref git) then ret tt
                 else orCleanup cleanup "git checkout failed: "
                        (Run (mkCmd ["git"; "checkout";
                                     ValueString (LPKBuildSourceGitModel.Ref git)]
                                    repoPath None))) ;;;
                let sub :=
                  if unset (LPKBuildSourceGitModel.Subpath git) then repoPath
                  else filepath.Join repoPath
                         (ValueString (LPKBuildSourceGitModel.Subpath git)) in
                ret (sub, Some cleanup)
          | None => fail (errors_New "either source.local or source.git must be provided")
          end
      end
  end.

Definition collectEnvVars (env : option LPKBuildEnvModel.t) : gmap string string :=
  match env with
  | None => ∅
  | Some env =>
      omap (fun value => if IsNull value || IsUnknown value then None
                         else Some (ValueString value))
           (LPKBuildEnvModel.Variables env)
  end.

Definition resolveTemplateExtension (env : option LPKBuildEnvModel.t) : string :=
  match env with
  | None => defaultTemplateExtension
  | Some env =>
      let te := LPKBuildEnvModel.TemplateExtension env in
      if IsNull te || IsUnknown te then defaultTemplateExtension
      else
        let ext := strings.TrimSpace (ValueString te) in
        if String.eqb ext EmptyString then defaultTemplateExtension
        else if negb (strings.HasPrefix ext ".") then "." +:+ ext
        else ext
  end.

Definition extractMissingKey (err : option error) : string :=
  match err with
  | None => EmptyString
  | Some err =>
      let msg := Error err in
      let pre := "map has no entry for key " in
      if negb (strings.HasPrefix msg pre) then EmptyString
      else strings.Trim (strings.drop (String.length pre) msg) strings.dquote
  end.

Definition formatTemplateError (err : error) : error :=
  match As_ExecErrorPtr err with
  | Some (_, execErr_Err) =>
      let missing := extractMissingKey (Some execErr_Err) in
      if negb (String.eqb missing EmptyString)
      then errorString ("environment variable " +:+ missing +:+ " not provided")
      else execErr_Err
  | None => err
  end.

Definition renderTemplateFile (path extension : string)
    (envVars : gmap string string) : M unit :=
  data <- mapErr (Errorf_w ("read template " +:+ path +:+ ": ")) (os.ReadFile path) ;;
  tmpl <- mapErr (Errorf_w ("parse template " +:+ path +:+ ": "))
            (lift (template_Parse (filepath.Base path) data)) ;;
  buf <- mapErr (fun err => Errorf_w ("render template " +:+ path +:+ ": ")
                              (formatTemplateError err))
           (lift (template.Execute (filepath.Base path) tmpl envVars)) ;;
  let dest := strings.TrimSuffix path extension in
  fun w =>
    let perm :=
      match os.Stat path (files w) with
      | inr info => Perm info
      | inl _ => 420%N
      end in
    mapErr (Errorf_w ("write rendered template " +:+ dest +:+ ": "))
           (os.WriteFile dest buf perm) w.

(** The callback that [renderTemplateFiles] hands to [filepath.WalkDir]
    (the walk passes a nil entry only together with an error). *)
Definition renderWalkFn (ext : string) (envVars : gmap string string)
  : filepath_walk.WalkDirFunc :=
  fun path entry walkErr =>
    match walkErr, entry with
    | Some err, _ => fail err
    | None, None => ret tt
    | None, Some entry =>
        if filepath_walk.entryIsDir entry then ret tt
        else if negb (strings.HasSuffix (filepath_walk.entryName entry) ext) then ret tt
        else renderTemplateFile path ext envVars
    end.

Definition renderTemplateFiles (baseDir extension : string)
    (envVars : gmap string string) : M unit :=
  let ext := if String.eqb extension EmptyString then defaultTemplateExtension
             else extension in
  filepath_walk.WalkDir baseDir (renderWalkFn ext envVars).

(** One entry of [os.Environ()] split at its first [=]; entries without
    one, or with nothing before it, are skipped. *)
Definition environPair (pair : string) : option (string * string) :=
  match strings.Index pair "=" with
  | Some idx =>
      if (0 <? idx)%nat
      then Some (strings.take idx pair, strings.drop (idx + 1) pair)
      else None
  | None => None
  end.

(** The first loop of [commandEnvironment]: later entries overwrite
    earlier ones. *)
Definition environStep (values : gmap string string) (pair : string)
  : gmap string string :=
  match environPair pair with
  | Some (k, v) => <[k := v]> values
  | None => values
  end.

Definition environMap (environ : list string) : gmap string string :=
  foldl environStep ∅ environ.

(** [commandEnvironment(custom)]; a nil slice is the empty list.  The
    second loop stores every entry of [custom] over the inherited ones,
    whatever the iteration order: the left-biased union. *)
Definition commandEnvironment (custom : gmap string string) : list string :=
  if (size custom =? 0)%nat then []
  else
    let values := custom ∪ environMap os_Environ in
    let keys := sort.Strings (map_to_list values).*1 in
    (fun key => key +:+ "=" +:+ default EmptyString (values !! key)) <$> keys.

Definition shouldPublish (pub : option LPKBuildPublishModel.t) : bool :=
  match pub with
  | None => true
  | Some pub =>
      if BoolIsNull (LPKBuildPublishModel.Enabled pub) then true
      else ValueBool (LPKBuildPublishModel.Enabled pub)
  end.

(** [os.Stat(p)] then [ModTime()], for a path that exists. *)
Definition mtimeAt (fs : gmap string node) (p : string) : Z :=
  from_option ModTime 0 (fs !! p).

(** [findLatestLPK(dir)]: [less] puts the later modification time first. *)
Definition findLatestLPK (dir : string) : M string := fun w =>
  match filepath_glob.Glob filepath_Glob (filepath.Join dir "*.lpk") (files w) with
  | inl err => (inl err, w)
  | inr matches =>
      match sort.Slice (fun i j => mtimeAt (files w) j <? mtimeAt (files w) i)
                       matches with
      | [] => (inl (errors_New "no .lpk artifact produced"), w)
      | first :: _ => (inr first, w)
      end
  end.

Definition readManifest (path : string) : M manifestYAML.t :=
  data <- os.ReadFile path ;;
  lift (yaml_Unmarshal data).

(** [computeSHA(path)]: opening fails on a missing file, reading on a
    directory. *)
Definition computeSHA (path : string) : M string :=
  data <- os.ReadFile path ;;
  ret (sha256hex data).

Definition canReuseUpload (prior : option LPKBuildModel.t) (meta : lpkMetadata.t) : bool :=
  match prior with
  | None => false
  | Some prior =>
      if unset (LPKBuildModel.UploadID prior) then false
      else if unset (LPKBuildModel.LPKURL prior) then false
      else if IsNull (LPKBuildModel.SHA256 prior)
              || negb (String.eqb (ValueString (LPKBuildModel.SHA256 prior))
                                  (lpkMetadata.SHA256 meta))
           then false
      else true
  end.

Definition defaultBuildCommand : string := "npx lzc-cli project build .".

(** The command line of the build step. *)
Definition buildCommand (build : option LPKBuildBuildModel.t) : string :=
  match build with
  | Some build =>
      if negb (unset (LPKBuildBuildModel.Command build))
      then ValueString (LPKBuildBuildModel.Command build)
      else defaultBuildCommand
  | None => defaultBuildCommand
  end.

Definition buildCmd (path : string) (build : option LPKBuildBuildModel.t)
    (envVars : gmap string string) : Cmd :=
  mkCmd ["sh"; "-c"; buildCommand build] path
        (if (0 <? size envVars)%nat then Some (commandEnvironment envVars) else None).

(** A non-empty override from the publish block. *)
Definition override (v : option tfString) (dflt : string) : string :=
  match v with
  | Some v => if negb (unset v) then ValueString v else dflt
  | None => dflt
  end.

Definition artifactBaseOf (manifest : manifestYAML.t) (manifestHash : string) : string :=
  manifestYAML.Name manifest +:+ "-" +:+ manifestYAML.Version manifest
    +:+ "-" +:+ manifestHash.

(** The cache-miss branch of [runBuild]: run the build command, pick the
    latest package and move it to the canonical path. *)
Definition buildArtifact (path : string) (build : option LPKBuildBuildModel.t)
    (envVars : gmap string string) (artifactPath : string) : M unit :=
  Run (buildCmd path build envVars) ;;;
  out <- findLatestLPK path ;;
  if negb (String.eqb out artifactPath)
  then mapErr (Errorf_w "rename artifact: ") (os.Rename out artifactPath)
  else ret tt.

(** [runBuild]; the resource and the data source have the same body. *)
Definition runBuild (path : string) (build : option LPKBuildBuildModel.t)
    (pub : option LPKBuildPublishModel.t) (envVars : gmap string string)
  : M (string * lpkMetadata.t) :=
  let manifestPath := filepath.Join path "lzc-manifest.yml" in
  manifest <- mapErr (Errorf_w "read manifest: ") (readManifest manifestPath) ;;
  if String.eqb (manifestYAML.Name manifest) EmptyString
  then fail (errors_New "manifest name must be set")
  else if String.eqb (manifestYAML.Version manifest) EmptyString
  then fail (errors_New "manifest version must be set")
  else
    manifestHash <- mapErr (Errorf_w "compute manifest hash: ")
                      (computeSHA manifestPath) ;;
    let artifactBase := artifactBaseOf manifest manifestHash in
    let artifactPath := filepath.Join path (artifactBase +:+ ".lpk") in
    (fun w =>
       match os.Stat artifactPath (files w) with
       | inl statErr =>
           if Is_ErrNotExist statErr
           then buildArtifact path build envVars artifactPath w
           else (inl (Errorf_w "check artifact: " statErr), w)
       | inr _ => (inr tt, w)
       end) ;;;
    sha <- computeSHA artifactPath ;;
    let meta :=
      lpkMetadata.mk
        (manifestYAML.AppID manifest)
        (override (LPKBuildPublishModel.Version <$> pub) (manifestYAML.Version manifest))
        sha
        (override (LPKBuildPublishModel.Name <$> pub) artifactBase) in
    ret (artifactPath, meta).

(** Assignments to the computed attributes of the model. *)
Definition withLocalPath (v : tfString) (d : LPKBuildModel.t) : LPKBuildModel.t :=
  LPKBuildModel.mk (LPKBuildModel.ID d) (LPKBuildModel.Source d) (LPKBuildModel.Build d)
    (LPKBuildModel.Publish d) (LPKBuildModel.Env d) (LPKBuildModel.LPKURL d)
    (LPKBuildModel.SHA256 d) (LPKBuildModel.AppID d) (LPKBuildModel.Version d)
    v (LPKBuildModel.UploadID d).

Definition withAppID (v : tfString) (d : LPKBuildModel.t) : LPKBuildModel.t :=
  LPKBuildModel.mk (LPKBuildModel.ID d) (LPKBuildModel.Source d) (LPKBuildModel.Build d)
    (LPKBuildModel.Publish d) (LPKBuildModel.Env d) (LPKBuildModel.LPKURL d)
    (LPKBuildModel.SHA256 d) v (LPKBuildModel.Version d)
    (LPKBuildModel.LocalPath d) (LPKBuildModel.UploadID d).

Definition withVersion (v : tfString) (d : LPKBuildModel.t) : LPKBuildModel.t :=
  LPKBuildModel.mk (LPKBuildModel.ID d) (LPKBuildModel.Source d) (LPKBuildModel.Build d)
    (LPKBuildModel.Publish d) (LPKBuildModel.Env d) (LPKBuildModel.LPKURL d)
    (LPKBuildModel.SHA256 d) (LPKBuildModel.AppID d) v
    (LPKBuildModel.LocalPath d) (LPKBuildModel.UploadID d).

Definition withSHA256 (v : tfString) (d : LPKBuildModel.t) : LPKBuildModel.t :=
  LPKBuildModel.mk (LPKBuildModel.ID d) (LPKBuildModel.Source d) (LPKBuildModel.Build d)
    (LPKBuildModel.Publish d) (LPKBuildModel.Env d) (LPKBuildModel.LPKURL d)
    v (LPKBuildModel.AppID d) (LPKBuildModel.Version d)
    (LPKBuildModel.LocalPath d) (LPKBuildModel.UploadID d).

Definition withLPKURL (v : tfString) (d : LPKBuildModel.t) : LPKBuildModel.t :=
  LPKBuildModel.mk (LPKBuildModel.ID d) (LPKBuildModel.Source d) (LPKBuildModel.Build d)
    (LPKBuildModel.Publish d) (LPKBuildModel.Env d) v
    (LPKBuildModel.SHA256 d) (LPKBuildModel.AppID d) (LPKBuildModel.Version d)
    (LPKBuildModel.LocalPath d) (LPKBuildModel.UploadID d).

Definition withUploadID (v : tfString) (d : LPKBuildModel.t) : LPKBuildModel.t :=
  LPKBuildModel.mk (LPKBuildModel.ID d) (LPKBuildModel.Source d) (LPKBuildModel.Build d)
    (LPKBuildModel.Publish d) (LPKBuildModel.Env d) (LPKBuildModel.LPKURL d)
    (LPKBuildModel.SHA256 d) (LPKBuildModel.AppID d) (LPKBuildModel.Version d)
    (LPKBuildModel.LocalPath d) v.

Definition withID (v : tfString) (d : LPKBuildModel.t) : LPKBuildModel.t :=
  LPKBuildModel.mk v (LPKBuildModel.Source d) (LPKBuildModel.Build d)
    (LPKBuildModel.Publish d) (LPKBuildModel.Env d) (LPKBuildModel.LPKURL d)
    (LPKBuildModel.SHA256 d) (LPKBuildModel.AppID d) (LPKBuildModel.Version d)
    (LPKBuildModel.LocalPath d) (LPKBuildModel.UploadID d).

(** The attributes set from the build result, before publishing. *)
Definition withBuildResult (lpkPath : string) (meta : lpkMetadata.t)
    (data : LPKBuildModel.t) : LPKBuildModel.t :=
  withUploadID StringNull
    (withLPKURL StringNull
       (withSHA256 (StringValue (lpkMetadata.SHA256 meta))
          (withVersion (StringValue (lpkMetadata.Version meta))
             (withAppID (StringValue (lpkMetadata.AppID meta))
                (withLocalPath (StringValue lpkPath) data))))).

(** The reuse branch of [applyBuild]. *)
Definition reuseUpload (prior data : LPKBuildModel.t) : LPKBuildModel.t :=
  let data := withUploadID (LPKBuildModel.UploadID prior)
                (withLPKURL (LPKBuildModel.LPKURL prior) data) in
  if negb (IsNull (LPKBuildModel.Version prior))
  then withVersion (LPKBuildModel.Version prior) data
  else data.

(** The call made by the upload branch of [applyBuild]. *)
Definition uploadCallOf (data : LPKBuildModel.t) (lpkPath : string)
    (meta : lpkMetadata.t) : UploadCall :=
  let pub := LPKBuildModel.Publish data in
  mkUploadCall clientUser
    (override (LPKBuildPublishModel.Name <$> pub) (lpkMetadata.Name meta))
    (override (LPKBuildPublishModel.Version <$> pub) (lpkMetadata.Version meta))
    lpkPath.

(** The attributes set from the upload response. *)
Definition recordUpload (upload : apiUpload.t) (data : LPKBuildModel.t) : LPKBuildModel.t :=
  let data := withUploadID (StringValue (apiUpload.ID upload))
                (withLPKURL (StringValue (apiUpload.DownloadURL upload)) data) in
  let data := if negb (String.eqb (apiUpload.SHA256 upload) EmptyString)
              then withSHA256 (StringValue (apiUpload.SHA256 upload)) data
              else data in
  if negb (String.eqb (apiUpload.Version upload) EmptyString)
  then withVersion (StringValue (apiUpload.Version upload)) data
  else data.

Definition resourceID (meta : lpkMetadata.t) : string :=
  lpkMetadata.AppID meta +:+ "-" +:+ lpkMetadata.Version meta
    +:+ "-" +:+ lpkMetadata.SHA256 meta.

(** [applyBuild] from the point where the build has returned. *)
Definition publishStep (data : LPKBuildModel.t) (prior : option LPKBuildModel.t)
    (lpkPath : string) (meta : lpkMetadata.t) : M LPKBuildModel.t :=
  let data := withBuildResult lpkPath meta data in
  data <- (if shouldPublish (LPKBuildModel.Publish data) then
             match canReuseUpload prior meta, prior with
             | true, Some prior => ret (reuseUpload prior data)
             | _, _ =>
                 upload <- mapErr (Errorf_w "upload error: ")
                             (callUploadLPK (uploadCallOf data lpkPath meta)) ;;
                 ret (recordUpload upload data)
             end
           else ret data) ;;
  ret (withID (StringValue (resourceID meta)) data).

(** [applyBuild] from the point where the source has been prepared. *)
Definition buildAndPublish (data : LPKBuildModel.t) (prior : option LPKBuildModel.t)
    (workdir : string) : M LPKBuildModel.t :=
  let envVars := collectEnvVars (LPKBuildModel.Env data) in
  let ext := resolveTemplateExtension (LPKBuildModel.Env data) in
  renderTemplateFiles workdir ext envVars ;;;
  built <- runBuild workdir (LPKBuildModel.Build data) (LPKBuildModel.Publish data)
             envVars ;;
  publishStep data prior built.1 built.2.

Definition applyBuild (data : LPKBuildModel.t) (prior : option LPKBuildModel.t)
  : M LPKBuildModel.t :=
  prepared <- mapErr (Errorf_w "source error: ")
                (prepareSource (LPKBuildModel.Source data)) ;;
  defer prepared.2 (buildAndPublish data prior prepared.1).

(** ** Configuration validators *)

(** The attribute paths [source.local] and [source.git]. *)
Inductive SourcePath : Type := source_local | source_git.

(** The validators of package [resourcevalidator] that the provider uses. *)
Inductive ConfigValidator : Type :=
| AtLeastOneOf (paths : list SourcePath)
| Conflicting (paths : list SourcePath).

(** [ConfigValidators]; the resource and the data source return the same
    list. *)
Definition ConfigValidators : list ConfigValidator :=
  [AtLeastOneOf [source_local; source_git];
   Conflicting [source_local; source_git]].

(** The attribute at the path is configured (known and not null). *)
Definition configured (data : LPKBuildModel.t) (p : SourcePath) : bool :=
  match LPKBuildModel.Source data with
  | None => false
  | Some source =>
      match p with
      | source_local => bool_decide (is_Some (LPKBuildSourceModel.Local source))
      | source_git => bool_decide (is_Some (LPKBuildSourceModel.Git source))
      end
  end.

(** The diagnostic "Invalid Attribute Combination" of a validator. *)
Inductive Diagnostic : Type :=
| InvalidAttributeCombination (v : ConfigValidator).

(** [Validate]: [AtLeastOneOf] rejects a configuration with none of its
    paths configured, [Conflicting] one with two or more. *)
Definition Validate (v : ConfigValidator) (data : LPKBuildModel.t) : list Diagnostic :=
  match v with
  | AtLeastOneOf paths =>
      if (length (List.filter (configured data) paths) =? 0)%nat
      then [InvalidAttributeCombination v] else []
  | Conflicting paths =>
      if (length (List.filter (configured data) paths) <? 2)%nat
      then [] else [InvalidAttributeCombination v]
  end.

(** The framework's [ValidateResourceConfig]: every validator runs on the
    configuration alone. *)
Definition ValidateConfig (data : LPKBuildModel.t) : list Diagnostic :=
  flat_map (fun v => Validate v data) ConfigValidators.

(** The result of one plan-and-apply of a configuration. *)
Inductive Outcome : Type :=
| ConfigError (diags : list Diagnostic)
| Applied (result : error + LPKBuildModel.t).

(** The order in which the host drives the resource: [Create] (no prior
    state) or [Update] (with one) is called only for a configuration that
    the validators accepted. *)
Definition Apply (data : LPKBuildModel.t) (prior : option LPKBuildModel.t)
  : World -> Outcome * World :=
  fun w =>
    match ValidateConfig data with
    | [] => let '(r, w') := applyBuild data prior w in (Applied r, w')
    | diags => (ConfigError diags, w)
    end.

(** ** The lifecycle of the resource *)

(** [r.client == nil] until the provider has configured the resource:
    [hasClient] tells whether it has; the client's [User] is [clientUser]. *)
Definition notConfigured : Diag := mkDiag "Provider not configured" EmptyString.

(** [LPKBuildResource.Create] on the decoded plan: the state to store, or
    the diagnostic. *)
Definition Create (hasClient : bool) (plan : LPKBuildModel.t) : D LPKBuildModel.t :=
  if negb hasClient then fun w => (inl notConfigured, w)
  else orDiag "Build error" (applyBuild plan None).

(** [LPKBuildResource.Update] on the decoded plan and prior state. *)
Definition Update (hasClient : bool) (plan state : LPKBuildModel.t)
  : D LPKBuildModel.t :=
  if negb hasClient then fun w => (inl notConfigured, w)
  else orDiag "Build error" (applyBuild plan (Some state)).

(** [LPKBuildResource.Read]: the state to keep, or [None] when the resource
    is removed from the state. *)
Definition Read (state : LPKBuildModel.t) : option LPKBuildModel.t :=
  if IsNull (LPKBuildModel.ID state) then None else Some state.

(** What [Delete] leaves behind besides the world: the diagnostic if any,
    whether [resp.State.RemoveResource] was reached, and the upload IDs it
    asked the registry to delete. *)
Record DeleteOutcome : Type := mkDeleteOutcome {
  deleteDiag : option Diag;
  stateRemoved : bool;
  deleteCalls : list string }.

(** The second half of [Delete]: the local artifact. *)
Definition removeArtifact (state : LPKBuildModel.t) (calls : list string)
  : World -> DeleteOutcome * World :=
  fun w =>
    let localPath := LPKBuildModel.LocalPath state in
    if negb (unset localPath) then
      match os_remove.Remove (ValueString localPath) w with
      | (inl err, w') =>
          if negb (Is_ErrNotExist err)
          then (mkDeleteOutcome (Some (mkDiag "Remove artifact failed" (Error err)))
                                false calls, w')
          else (mkDeleteOutcome None true calls, w')
      | (inr _, w') => (mkDeleteOutcome None true calls, w')
      end
    else (mkDeleteOutcome None true calls, w).

(** [LPKBuildResource.Delete] on the decoded state.

    Modelled from the spec: the registry client contract
    [Delete(uploadID) -> error] (tolerates not-found); the method
    [LcmdClient.DeleteLPK] is called here but is not among the source
    files, and is the parameter [DeleteLPK] ([None] is a nil error). *)
Definition Delete (DeleteLPK : string -> option error) (hasClient : bool)
    (state : LPKBuildModel.t) : World -> DeleteOutcome * World :=
  fun w =>
    let uploadID := LPKBuildModel.UploadID state in
    if hasClient && negb (unset uploadID) then
      match DeleteLPK (ValueString uploadID) with
      | Some err =>
          if negb (errors.Is err errNotFound)
          then (mkDeleteOutcome (Some (mkDiag "Delete upload failed" (Error err)))
                                false [ValueString uploadID], w)
          else removeArtifact state [ValueString uploadID] w
      | None => removeArtifact state [ValueString uploadID] w
      end
    else removeArtifact state [] w.

(** ** The data source *)


(** ** Vocabulary of the specification *)

(** A string of white-space characters only (the empty string
    included). *)
Inductive allSpace : string -> Prop :=
| allSpace_nil : allSpace EmptyString
| allSpace_1 a r : strings.isSpace a = true -> allSpace r -> allSpace (String a r)
| allSpace_2 a b r :
    strings.isSpace2 a b = true -> allSpace r -> allSpace (String a (String b r))
| allSpace_3 a b c r :
    strings.isSpace3 a b c = true -> allSpace r ->
    allSpace (String a (String b (String c r))).

(** [s] begins with a white-space character. *)
Definition startsWithSpace (s : string) : bool :=
  match s with
  | EmptyString => false
  | String a r =>
      strings.isSpace a
      || match r with
         | EmptyString => false
         | String b r2 =>
             strings.isSpace2 a b
             || match r2 with
                | EmptyString => false
                | String c _ => strings.isSpace3 a b c
                end
         end
  end.



(** The bytes of the regular file at [p], if there is one. *)
Definition contentAt (fs : gmap string node) (p : string) : option string :=
  match fs !! p with
  | Some (File c _ _) => Some c
  | _ => None
  end.

(** Nothing is left at [dir] or below it. *)
Definition gone (dir : string) (fs : gmap string node) : Prop :=
  forall p, p = dir \/ filepath.under dir p = true -> fs !! p = None.

(** A computation that makes no call to the registry. *)
Definition keepsUploads {A} (m : M A) : Prop :=
  forall w r w', m w = (r, w') -> uploadLog w' = uploadLog w.

(** A prior state exists and records a non-empty upload ID, a non-empty
    download URL and the content hash [hash]. *)
Definition reusable (prior : option LPKBuildModel.t) (hash : string) : Prop :=
  exists p, prior = Some p
    /\ ValueString (LPKBuildModel.UploadID p) <> EmptyString
    /\ ValueString (LPKBuildModel.LPKURL p) <> EmptyString
    /\ IsNull (LPKBuildModel.SHA256 p) = false
    /\ ValueString (LPKBuildModel.SHA256 p) = hash.

(** Both variants of the source descriptor are populated. *)
Definition bothPopulated (data : LPKBuildModel.t) : Prop :=
  exists s l g, LPKBuildModel.Source data = Some s
    /\ LPKBuildSourceModel.Local s = Some l /\ LPKBuildSourceModel.Git s = Some g.

(** Neither variant is populated (or there is no descriptor at all). *)
Definition neitherPopulated (data : LPKBuildModel.t) : Prop :=
  LPKBuildModel.Source data = None
  \/ exists s, LPKBuildModel.Source data = Some s
       /\ LPKBuildSourceModel.Local s = None /\ LPKBuildSourceModel.Git s = None.



(** The two commands of a git source, run in the staging directory [tmp]
    and in the clone below it. *)
Definition gitClone (git : LPKBuildSourceGitModel.t) (tmp : string) : Cmd :=
  mkCmd ["git"; "clone"; ValueString (LPKBuildSourceGitModel.URL git); "repo"] tmp None.

Definition gitCheckout (git : LPKBuildSourceGitModel.t) (tmp : string) : Cmd :=
  mkCmd ["git"; "checkout"; ValueString (LPKBuildSourceGitModel.Ref git)]
        (filepath.Join tmp "repo") None.

(** A computed attribute as [stringOrNull] leaves it: null, or a value
    that is not the empty string. *)
Definition normalized (v : tfString) : Prop :=
  v = StringNull \/ exists s, s <> EmptyString /\ v = StringValue s.

(** The computed attributes of the application resource. *)
Definition computedAttributes (d : LpkResourceModel.t) : list tfString :=
  [LpkResourceModel.Title d; LpkResourceModel.LpkId d; LpkResourceModel.Appid d;
   LpkResourceModel.Version d; LpkResourceModel.Domain d; LpkResourceModel.Owner d].


(** ** Properties *)

(** *** Strings *)

Lemma app_cons (c : ascii) (s t : string) : String c s +:+ t = String c (s +:+ t).
Proof. reflexivity. Qed.

Lemma app_nil_l (s : string) : EmptyString +:+ s = s.
Proof. reflexivity. Qed.


Lemma app_assoc_s (s t u : string) : (s +:+ t) +:+ u = s +:+ (t +:+ u).
Proof. induction s as [|c s IH]; [reflexivity|]. by rewrite !app_cons, IH. Qed.

Lemma length_app_s (s t : string) :
  String.length (s +:+ t) = (String.length s + String.length t)%nat.
Proof. induction s as [|c s IH]; [reflexivity|]. rewrite app_cons. simpl. by rewrite IH. Qed.






Lemma TrimRightFunc_keep (f : ascii -> bool) (c : ascii) (r : string) :
  f c = false ->
  strings.TrimRightFunc f (String c r) = String c (strings.TrimRightFunc f r).
Proof. intros H. simpl. rewrite H. by destruct (strings.TrimRightFunc f r). Qed.

Lemma TrimLeftFunc_keep (f : ascii -> bool) (c : ascii) (r : string) :
  f c = false -> strings.TrimLeftFunc f (String c r) = String c r.
Proof. intros H. simpl. by rewrite H. Qed.

Lemma isSpace2_first (a b : ascii) :
  strings.isSpace2 a b = true -> a = strings.byte 194.
Proof.
  unfold strings.isSpace2. intros H. apply andb_true_iff in H as [H _].
  by apply Ascii.eqb_eq in H.
Qed.

Lemma isSpace3_first (a b c : ascii) :
  strings.isSpace3 a b c = true ->
  a = strings.byte 225 \/ a = strings.byte 226 \/ a = strings.byte 227.
Proof.
  unfold strings.isSpace3. intros H.
  apply orb_true_iff in H as [H|H]; [apply orb_true_iff in H as [H|H]|];
    apply andb_true_iff in H as [H _]; apply Ascii.eqb_eq in H; auto.
Qed.

Lemma TrimLeftSpace_id (s : string) :
  startsWithSpace s = false -> strings.TrimLeftSpace s = s.
Proof.
  destruct s as [|a [|b [|c r]]]; cbn; intros H; try reflexivity.
  - by rewrite orb_false_r in H; rewrite H.
  - apply orb_false_iff in H as [-> H]. rewrite orb_false_r in H. by rewrite H.
  - apply orb_false_iff in H as [-> H]. by apply orb_false_iff in H as [-> ->].
Qed.

Lemma TrimLeftSpace_allSpace (s : string) :
  allSpace s -> strings.TrimLeftSpace s = EmptyString.
Proof.
  induction 1 as [|a r Ha _ IH|a b r Hab _ IH|a b c r Habc _ IH]; [reflexivity|..].
  - cbn. by rewrite Ha.
  - pose proof (isSpace2_first _ _ Hab) as ->.
    cbn [strings.TrimLeftSpace]. change (strings.isSpace (strings.byte 194)) with false.
    cbv iota. by rewrite Hab.
  - assert (strings.isSpace a = false /\ strings.isSpace2 a b = false) as [Ha Hab].
    { destruct (isSpace3_first _ _ _ Habc) as [-> | [-> | ->]]; split; reflexivity. }
    cbn [strings.TrimLeftSpace]. by rewrite Ha, Hab, Habc.
Qed.

Lemma TrimSpace_allSpace (s : string) :
  allSpace s -> strings.TrimSpace s = EmptyString.
Proof.
  intros H. unfold strings.TrimSpace. by rewrite (TrimLeftSpace_allSpace s H).
Qed.

Lemma TrimRightSpace_cons (c : ascii) (r : string) :
  strings.TrimRightSpace (String c r) =
    if strings.isSpaceRune (String c (strings.TrimRightSpace r)) then EmptyString
    else String c (strings.TrimRightSpace r).
Proof. reflexivity. Qed.

Lemma TrimRightSpace_prefix (s : string) :
  exists t, s = strings.TrimRightSpace s +:+ t.
Proof.
  induction s as [|c r [t IH]]; [by exists EmptyString|].
  rewrite TrimRightSpace_cons. destruct (strings.isSpaceRune _).
  - by exists (String c r).
  - exists t. rewrite app_cons. by f_equal.
Qed.

Lemma isSpaceRune_startsWithSpace (t u : string) :
  strings.isSpaceRune t = true -> startsWithSpace (t +:+ u) = true.
Proof.
  destruct t as [|a [|b [|c [|d t]]]]; try discriminate; cbn; intros H;
    rewrite ?app_cons, ?app_nil_l; cbn; rewrite H; cbn.
  - reflexivity.
  - apply orb_true_r.
  - by rewrite !orb_true_r.
Qed.

(** Nothing but white space is trimmed to nothing. *)
Lemma TrimRightSpace_keep (c : ascii) (r : string) :
  startsWithSpace (String c r) = false ->
  strings.TrimRightSpace (String c r) = String c (strings.TrimRightSpace r).
Proof.
  intros H. rewrite TrimRightSpace_cons.
  destruct (strings.isSpaceRune _) eqn:Hrune; [|reflexivity].
  destruct (TrimRightSpace_prefix r) as [t Ht].
  apply (isSpaceRune_startsWithSpace _ t) in Hrune.
  rewrite app_cons, <- Ht in Hrune. congruence.
Qed.

Lemma TrimSpace_keep (c : ascii) (r : string) :
  startsWithSpace (String c r) = false ->
  strings.TrimSpace (String c r) = String c (strings.TrimRightSpace r).
Proof.
  intros H. unfold strings.TrimSpace.
  by rewrite TrimLeftSpace_id, TrimRightSpace_keep.
Qed.

(** *** Template extension *)

Lemma resolveTemplateExtension_value (vars : gmap string tfString) (v : string) :
  strings.TrimSpace v <> EmptyString ->
  resolveTemplateExtension (Some (LPKBuildEnvModel.mk vars (StringValue v))) =
    if strings.HasPrefix (strings.TrimSpace v) "." then strings.TrimSpace v
    else "." +:+ strings.TrimSpace v.
Proof.
  intros H. unfold resolveTemplateExtension.
  cbn [LPKBuildEnvModel.TemplateExtension IsNull IsUnknown ValueString orb].
  destruct (String.eqb_spec (strings.TrimSpace v) EmptyString); [done|].
  by destruct (strings.HasPrefix (strings.TrimSpace v) ".").
Qed.

Lemma resolveTemplateExtension_nonempty (env : option LPKBuildEnvModel.t) :
  String.eqb (resolveTemplateExtension env) EmptyString = false.
Proof.
  unfold resolveTemplateExtension. destruct env as [[vars te]|]; [|reflexivity].
  cbn [LPKBuildEnvModel.TemplateExtension].
  destruct (IsNull te || IsUnknown te); [reflexivity|].
  destruct (String.eqb_spec (strings.TrimSpace (ValueString te)) EmptyString) as [|Hne];
    [reflexivity|].
  destruct (strings.HasPrefix (strings.TrimSpace (ValueString te)) ".");
    cbn [negb]; [|reflexivity].
  by apply String.eqb_neq.
Qed.

(** C7 (as amended).  A value that begins with neither a white-space
    character nor a dot normalizes, with and without a leading dot, to the
    dot followed by its trimmed form; an unset, unknown, empty or
    white-space-only extension is [.tmpl]; the walk renders a file exactly
    when its name ends with the normalized extension, and leaves it alone
    otherwise.  White space is that of Unicode, as [strings.TrimSpace]
    trims it. *)
Theorem template_extension_normalized :
  (forall (vars : gmap string tfString) (c : ascii) (r : string),
      startsWithSpace (String c r) = false -> c <> "."%char ->
      resolveTemplateExtension
        (Some (LPKBuildEnvModel.mk vars (StringValue (String c r)))) =
        "." +:+ strings.TrimSpace (String c r)
      /\ resolveTemplateExtension
           (Some (LPKBuildEnvModel.mk vars (StringValue ("." +:+ String c r)))) =
         "." +:+ strings.TrimSpace (String c r))
  /\ (resolveTemplateExtension None = ".tmpl"
      /\ forall (vars : gmap string tfString) (te : tfString),
           (te = StringNull \/ te = StringUnknown
            \/ exists v, te = StringValue v /\ allSpace v) ->
           resolveTemplateExtension (Some (LPKBuildEnvModel.mk vars te)) = ".tmpl")
  /\ (forall env envVars path name,
         renderWalkFn (resolveTemplateExtension env) envVars path
           (Some (filepath_walk.mkDirEntry name false)) None =
         if strings.HasSuffix name (resolveTemplateExtension env)
         then renderTemplateFile path (resolveTemplateExtension env) envVars
         else ret tt)
  /\ (forall env baseDir envVars,
         renderTemplateFiles baseDir (resolveTemplateExtension env) envVars =
         filepath_walk.WalkDir baseDir
           (renderWalkFn (resolveTemplateExtension env) envVars)).
Proof.
  repeat split.
  - rewrite resolveTemplateExtension_value; rewrite TrimSpace_keep by done.
    + cbn [strings.HasPrefix].
      destruct (Ascii.eqb_spec "."%char c) as [<-|]; [congruence | done].
    + done.
  - change ("." +:+ String c r) with (String "."%char (String c r)).
    assert (strings.TrimSpace (String "."%char (String c r)) =
            String "."%char (strings.TrimSpace (String c r))) as Hdot.
    { rewrite (TrimSpace_keep "."%char) by (by destruct r).
      by rewrite TrimRightSpace_keep, TrimSpace_keep. }
    rewrite resolveTemplateExtension_value; rewrite Hdot; done.
  - intros vars te [->|[->|(v & -> & Hv)]]; try reflexivity.
    unfold resolveTemplateExtension. simpl. by rewrite (TrimSpace_allSpace v Hv).
  - intros env envVars path name. unfold renderWalkFn. simpl.
    by destruct (strings.HasSuffix _ _).
  - intros env baseDir envVars. unfold renderTemplateFiles.
    by rewrite resolveTemplateExtension_nonempty.
Qed.

(** *** Template rendering *)




(** The text of such an error starts with the template position, not with
    the prefix that [extractMissingKey] looks for. *)
Lemma extractMissingKey_errorf (name pos key msg : string) (e : error) :
  template.errorf name pos key msg = ExecError name e ->
  extractMissingKey (Some e) = EmptyString.
Proof. intros [= <-]. reflexivity. Qed.


(** *** The environment of the build command *)

Lemma Index_cons (c : ascii) (s sub : string) :
  strings.Index (String c s) sub =
    if strings.HasPrefix (String c s) sub then Some 0%nat
    else S <$> strings.Index s sub.
Proof. reflexivity. Qed.

Lemma Index_app_eq (k v : string) :
  strings.Index k "=" = None ->
  strings.Index (k +:+ "=" +:+ v) "=" = Some (String.length k).
Proof.
  induction k as [|c k IH]; intros Hk; [reflexivity|].
  rewrite Index_cons in Hk. rewrite app_cons, Index_cons.
  cbn [strings.HasPrefix] in *.
  destruct (Ascii.eqb "=" c); [discriminate|]. cbn [andb] in *.
  rewrite IH; [reflexivity|]. by destruct (strings.Index k "=").
Qed.

Lemma take_app_length (k s : string) : strings.take (String.length k) (k +:+ s) = k.
Proof.
  induction k as [|c k IH]; [by destruct s|].
  rewrite app_cons. simpl. by rewrite IH.
Qed.

Lemma drop_app_length (k s : string) : strings.drop (String.length k) (k +:+ s) = s.
Proof.
  induction k as [|c k IH]; [by destruct s|].
  rewrite app_cons. simpl. by rewrite IH.
Qed.

(** An inherited entry [KEY=VALUE] with a non-empty key is read as that
    pair. *)
Lemma environPair_entry (k v : string) :
  k <> EmptyString -> strings.Index k "=" = None ->
  environPair (k +:+ "=" +:+ v) = Some (k, v).
Proof.
  intros Hne Hk. unfold environPair. rewrite (Index_app_eq k v Hk).
  destruct k as [|c k]; [done|].
  replace (0 <? String.length (String c k))%nat with true by done.
  rewrite take_app_length.
  replace (String.length (String c k) + 1)%nat
    with (String.length (String c k +:+ "=")) by (by rewrite length_app_s).
  by rewrite <- app_assoc_s, drop_app_length.
Qed.

(** Later entries of the inherited environment win over earlier ones. *)
Lemma environMap_snoc (environ : list string) (pair k v : string) :
  environPair pair = Some (k, v) ->
  environMap (environ ++ [pair]) = <[k := v]> (environMap environ).
Proof. intros H. unfold environMap. rewrite foldl_snoc. unfold environStep. by rewrite H. Qed.

(** The inherited value of a key is that of its last entry. *)
Lemma environMap_last_entry (pre post : list string) (k v : string) :
  k <> EmptyString -> strings.Index k "=" = None ->
  (forall p v', p ∈ post -> environPair p <> Some (k, v')) ->
  environMap (pre ++ (k +:+ "=" +:+ v) :: post) !! k = Some v.
Proof.
  intros Hne Hk Hpost. unfold environMap. rewrite foldl_app. cbn [foldl].
  unfold environStep at 2. rewrite (environPair_entry k v Hne Hk).
  generalize (foldl environStep ∅ pre).
  intros acc. assert (<[k := v]> acc !! k = Some v) as Hacc by apply lookup_insert_eq.
  revert Hacc. generalize (<[k := v]> acc). clear acc.
  induction post as [|p post IH]; intros acc Hacc; [done|]. cbn [foldl].
  apply IH.
  - intros q v' Hq. apply Hpost. by right.
  - unfold environStep. destruct (environPair p) as [[k' v']|] eqn:Hp; [|done].
    rewrite lookup_insert_ne; [done|]. intros ->. eapply Hpost; [by left | done].
Qed.

Lemma commandEnvironment_nonempty (custom : gmap string string) :
  custom <> ∅ ->
  commandEnvironment custom =
    (fun key => key +:+ "=" +:+
                default EmptyString ((custom ∪ environMap os_Environ) !! key))
      <$> sort.Strings (map_to_list (custom ∪ environMap os_Environ)).*1.
Proof.
  intros Hne. unfold commandEnvironment.
  apply map_size_non_empty_iff in Hne.
  by destruct (Nat.eqb_spec (size custom) 0).
Qed.

(** C8.  For a non-empty mapping of supplied variables the environment of
    the build command lists, in strictly increasing order of key and as
    [KEY=VALUE], exactly the keys of the inherited environment and of the
    supplied variables, each with the supplied value when there is one and
    the inherited value otherwise; this list is the [Env] of the command.
    The inherited environment is read off [os.Environ()]: the value of a
    key is that of its last entry [KEY=VALUE]. *)
Theorem commandEnvironment_overlay (custom : gmap string string) :
  custom <> ∅ ->
  (forall pre post k v,
      os_Environ = (pre ++ (k +:+ "=" +:+ v) :: post)%list ->
      k <> EmptyString -> strings.Index k "=" = None ->
      (forall p v', p ∈ post -> environPair p <> Some (k, v')) ->
      environMap os_Environ !! k = Some v)
  /\ exists keys : list string,
    StronglySorted String.le keys
    /\ NoDup keys
    /\ (forall k, k ∈ keys <->
                  is_Some (custom !! k) \/ is_Some (environMap os_Environ !! k))
    /\ commandEnvironment custom =
       (fun k => k +:+ "=" +:+
                 match custom !! k with
                 | Some v => v
                 | None => default EmptyString (environMap os_Environ !! k)
                 end) <$> keys
    /\ forall path build,
         CmdEnv (buildCmd path build custom) = Some (commandEnvironment custom).
Proof.
  intros Hne. split.
  { intros pre post k v -> Hk Hidx Hpost. by apply environMap_last_entry. }
  set (values := custom ∪ environMap os_Environ).
  exists (sort.Strings (map_to_list values).*1).
  assert (forall k, k ∈ sort.Strings (map_to_list values).*1 <-> is_Some (values !! k))
    as Hmem.
  { intros k. unfold sort.Strings. rewrite merge_sort_Permutation.
    rewrite list_elem_of_fmap. split.
    - intros ([k' v] & -> & Hin). apply elem_of_map_to_list in Hin. by exists v.
    - intros [v Hv]. exists (k, v). split; [done|]. by apply elem_of_map_to_list. }
  split; [apply StronglySorted_merge_sort; apply _|].
  split.
  { unfold sort.Strings. rewrite merge_sort_Permutation. apply NoDup_fst_map_to_list. }
  split.
  { intros k. rewrite Hmem. apply lookup_union_is_Some. }
  split.
  { rewrite commandEnvironment_nonempty by done. fold values.
    apply list_fmap_ext. intros i k _. do 2 f_equal. unfold values.
    destruct (custom !! k) as [v|] eqn:Hk.
    - by rewrite (lookup_union_Some_l _ _ _ _ Hk).
    - by rewrite lookup_union_r. }
  intros path build. unfold buildCmd. cbn [CmdEnv].
  apply map_size_non_empty_iff in Hne.
  destruct (Nat.ltb_spec 0 (size custom)); [done | lia].
Qed.

(** *** Selecting the built package *)

Section SliceByKey.

Context {A : Type} (f : A -> Z).

Let less (i j : A) : bool := f j <? f i.






End SliceByKey.

Lemma HasPrefix_app (pre s : string) : strings.HasPrefix (pre +:+ s) pre = true.
Proof.
  induction pre as [|a pre IH]; [done|].
  rewrite app_cons. cbn [strings.HasPrefix]. by rewrite Ascii.eqb_refl, IH.
Qed.



(** *** Paths *)

Lemma elements_nonempty (s : string) : filepath.elements s <> [].
Proof.
  induction s as [|c s IH]; [done|]. cbn.
  destruct (filepath.isSlash c); [done|]. by destruct (filepath.elements s).
Qed.

Lemma elements_app (a b : string) :
  filepath.elements (a +:+ "/" +:+ b)
  = (filepath.elements a ++ filepath.elements b)%list.
Proof.
  induction a as [|c a IH]; [reflexivity|].
  rewrite app_cons. cbn [filepath.elements]. rewrite IH.
  destruct (filepath.isSlash c); [reflexivity|].
  pose proof (elements_nonempty a). by destruct (filepath.elements a).
Qed.

Lemma elements_plain (n : string) :
  filepath.hasSlash n = false -> filepath.elements n = [n].
Proof.
  induction n as [|c n IH]; [reflexivity|]. cbn.
  destruct (filepath.isSlash c); [discriminate|]. intros H. by rewrite IH.
Qed.


Lemma hasSlash_append (a b : string) :
  filepath.hasSlash (a +:+ b) = filepath.hasSlash a || filepath.hasSlash b.
Proof.
  induction a as [|c a IH]; [reflexivity|]. rewrite app_cons. cbn.
  by destruct (filepath.isSlash c).
Qed.

Lemma joinSlash_snoc (l : list string) (n : string) :
  l <> [] ->
  filepath.joinSlash (l ++ [n]) = filepath.joinSlash l +:+ "/" +:+ n.
Proof.
  induction l as [|x l IH]; [done|]. intros _.
  destruct l as [|y l]; [reflexivity|].
  change (filepath.joinSlash ((x :: y :: l) ++ [n]))
    with (x +:+ "/" +:+ filepath.joinSlash ((y :: l) ++ [n])).
  rewrite IH by done.
  change (filepath.joinSlash (x :: y :: l))
    with (x +:+ "/" +:+ filepath.joinSlash (y :: l)).
  by rewrite !app_assoc_s.
Qed.

(** On a clean directory other than [.] and the root, joining a name
    that is a single element appends it after a slash. *)
Lemma Join_plain (d n : string) :
  filepath.Clean d = d -> d <> "." -> d <> "/" ->
  filepath.hasSlash n = false ->
  n <> EmptyString -> n <> "." -> n <> ".." ->
  filepath.Join d n = d +:+ "/" +:+ n.
Proof.
  intros Hclean Hdot Hroot Hn Hn0 Hn1 Hn2.
  assert (d <> EmptyString) as Hd by (intros ->; by compute in Hclean).
  unfold filepath.Join. apply String.eqb_neq in Hd as Hd'. rewrite Hd'.
  unfold filepath.Clean in *.
  assert (strings.HasPrefix (d +:+ "/" +:+ n) "/" = strings.HasPrefix d "/") as ->.
  { destruct d; [done|]. by rewrite app_cons. }
  set (rooted := strings.HasPrefix d "/") in *.
  rewrite elements_app, (elements_plain n Hn), foldl_app. cbn [foldl].
  set (out := foldl (filepath.cleanStep rooted) [] (filepath.elements d)) in *.
  assert (filepath.cleanStep rooted out n = n :: out) as ->.
  { unfold filepath.cleanStep.
    apply String.eqb_neq in Hn0, Hn1, Hn2. by rewrite Hn0, Hn1, Hn2. }
  clearbody out rooted. cbn [rev]. destruct (rev out) as [|x l] eqn:Hout.
  { destruct rooted; compute in Hclean; congruence. }
  rewrite joinSlash_snoc by done.
  destruct (String.eqb_spec
              ((if rooted then "/" else EmptyString)%string
               +:+ filepath.joinSlash (x :: l)) EmptyString) as [He|_];
    [congruence|].
  rewrite <- Hclean, !app_assoc_s.
  match goal with |- (if String.eqb ?s _ then _ else _) = _ =>
    destruct (String.eqb_spec s EmptyString) as [He|_]; [|reflexivity] end.
  apply (f_equal String.length) in He. rewrite !length_app_s in He.
  cbn in He. lia.
Qed.






Lemma lpk_name_plain (stem : string) :
  stem +:+ ".lpk" <> EmptyString /\ stem +:+ ".lpk" <> "."
  /\ stem +:+ ".lpk" <> "..".
Proof.
  repeat split; intros H; apply (f_equal String.length) in H;
    rewrite length_app_s in H; cbn in H; lia.
Qed.


(** *** Selecting the built package: the listing *)



Lemma findLatestLPK_world (dir : string) (w w' : World) (r : error + string) :
  findLatestLPK dir w = (r, w') -> w' = w.
Proof.
  unfold findLatestLPK. destruct (filepath_glob.Glob _ _ _) as [err|found];
    [by intros [= _ <-]|].
  destruct (sort.Slice _ _); by intros [= _ <-].
Qed.





(** *** The build step *)

Lemma ReadFile_inv (p : string) (w w' : World) (c : string) :
  os.ReadFile p w = (inr c, w') <-> w' = w /\ contentAt (files w) p = Some c.
Proof.
  unfold os.ReadFile, contentAt.
  destruct (files w !! p) as [[c' pm t|t]|]; split; intros H;
    try discriminate; try (destruct H; discriminate).
  - by injection H as -> <-.
  - by destruct H as [-> [= ->]].
Qed.

Lemma Rename_execLog (old new : string) (w w' : World) (r : error + unit) :
  os.Rename old new w = (r, w') -> execLog w' = execLog w.
Proof.
  unfold os.Rename. destruct (files w !! old); [|by intros [= _ <-]].
  destruct (String.eqb old new); [by intros [= _ <-]|].
  destruct (files w !! new) as [[? ? ?|?]|]; [|by intros [= _ <-]|by intros [= _ <-]].
  destruct (IsDir n); by intros [= _ <-].
Qed.

Lemma buildArtifact_execLog (path : string) (build : option LPKBuildBuildModel.t)
    (envVars : gmap string string) (artifactPath : string) (w w' : World)
    (r : error + unit) :
  buildArtifact path build envVars artifactPath w = (r, w') ->
  execLog w' = (execLog w ++ [buildCmd path build envVars])%list.
Proof.
  unfold buildArtifact, bind, Run.
  destruct (exec_Run _ _) as [[e|] fs']; [by intros [= _ <-]|].
  destruct (findLatestLPK path _) as [[e|out] w1] eqn:Hfind;
    apply findLatestLPK_world in Hfind as ->; [by intros [= _ <-]|].
  destruct (negb (String.eqb out artifactPath)); [|by intros [= _ <-]].
  unfold mapErr. destruct (os.Rename _ _ _) as [[e|[]] w2] eqn:Hren;
    intros [= _ <-]; by apply Rename_execLog in Hren.
Qed.

Lemma runBuild_inv (path : string) (build : option LPKBuildBuildModel.t)
    (pub : option LPKBuildPublishModel.t) (envVars : gmap string string)
    (w w' : World) (lpkPath : string) (meta : lpkMetadata.t) :
  runBuild path build pub envVars w = (inr (lpkPath, meta), w') ->
  exists data manifest art,
    contentAt (files w) (filepath.Join path "lzc-manifest.yml") = Some data
    /\ yaml_Unmarshal data = inr manifest
    /\ manifestYAML.Name manifest <> EmptyString
    /\ manifestYAML.Version manifest <> EmptyString
    /\ lpkPath = filepath.Join path (artifactBaseOf manifest (sha256hex data) +:+ ".lpk")
    /\ contentAt (files w') lpkPath = Some art
    /\ meta = lpkMetadata.mk
                (manifestYAML.AppID manifest)
                (override (LPKBuildPublishModel.Version <$> pub)
                          (manifestYAML.Version manifest))
                (sha256hex art)
                (override (LPKBuildPublishModel.Name <$> pub)
                          (artifactBaseOf manifest (sha256hex data)))
    /\ ((files w !! lpkPath = None
         /\ execLog w' = (execLog w ++ [buildCmd path build envVars])%list)
        \/ (is_Some (files w !! lpkPath) /\ w' = w)).
Proof.
  unfold runBuild, readManifest, computeSHA.
  unfold bind at 1. unfold mapErr at 1. unfold bind at 1.
  destruct (os.ReadFile _ w) as [[e|data] w0] eqn:Hread; [discriminate|].
  apply ReadFile_inv in Hread as [-> Hdata].
  unfold lift at 1. destruct (yaml_Unmarshal data) as [e|manifest] eqn:Hyaml; [discriminate|].
  destruct (String.eqb_spec (manifestYAML.Name manifest) EmptyString) as [|Hname];
    [discriminate|].
  destruct (String.eqb_spec (manifestYAML.Version manifest) EmptyString) as [|Hver];
    [discriminate|].
  unfold bind at 1. unfold mapErr at 1. unfold bind at 1.
  rewrite (proj2 (ReadFile_inv _ w w data) (conj eq_refl Hdata)).
  unfold ret at 1.
  set (artifactPath := filepath.Join path (artifactBaseOf manifest (sha256hex data) +:+ ".lpk")).
  unfold bind at 1. unfold os.Stat.
  assert (forall w1 : World,
    (sha <- (data0 <- os.ReadFile artifactPath ;; ret (sha256hex data0)) ;;
     ret (artifactPath,
          lpkMetadata.mk (manifestYAML.AppID manifest)
            (override (LPKBuildPublishModel.Version <$> pub)
                      (manifestYAML.Version manifest))
            sha
            (override (LPKBuildPublishModel.Name <$> pub)
                      (artifactBaseOf manifest (sha256hex data)))))%go w1
    = (inr (lpkPath, meta), w') ->
    w' = w1 /\ lpkPath = artifactPath
    /\ exists art, contentAt (files w1) artifactPath = Some art
       /\ meta = lpkMetadata.mk (manifestYAML.AppID manifest)
            (override (LPKBuildPublishModel.Version <$> pub)
                      (manifestYAML.Version manifest))
            (sha256hex art)
            (override (LPKBuildPublishModel.Name <$> pub)
                      (artifactBaseOf manifest (sha256hex data)))) as Hsha.
  { intros w1. unfold bind, ret.
    destruct (os.ReadFile artifactPath w1) as [[e|art] w2] eqn:Hart; [discriminate|].
    apply ReadFile_inv in Hart as [-> Hart]. intros [= <- <- <-]. eauto. }
  destruct (files w !! artifactPath) as [n|] eqn:Hstat.
  - intros H. apply Hsha in H as (-> & -> & art & Hart & ->).
    exists data, manifest, art. repeat split; try done. right. by rewrite Hstat.
  - cbn [Is_ErrNotExist].
    destruct (buildArtifact path build envVars artifactPath w) as [[e|[]] w1] eqn:Hb;
      [discriminate|].
    intros H. apply Hsha in H as (-> & -> & art & Hart & ->).
    exists data, manifest, art. repeat split; try done. left.
    split; [done|]. by apply buildArtifact_execLog in Hb.
Qed.

(** A cache hit: with the artifact on disk the step returns without
    running anything. *)
Lemma runBuild_hit (path : string) (build : option LPKBuildBuildModel.t)
    (pub : option LPKBuildPublishModel.t) (envVars : gmap string string)
    (w : World) (data art : string) (manifest : manifestYAML.t) :
  contentAt (files w) (filepath.Join path "lzc-manifest.yml") = Some data ->
  yaml_Unmarshal data = inr manifest ->
  manifestYAML.Name manifest <> EmptyString ->
  manifestYAML.Version manifest <> EmptyString ->
  contentAt (files w)
    (filepath.Join path (artifactBaseOf manifest (sha256hex data) +:+ ".lpk")) = Some art ->
  runBuild path build pub envVars w =
    (inr (filepath.Join path (artifactBaseOf manifest (sha256hex data) +:+ ".lpk"),
          lpkMetadata.mk
            (manifestYAML.AppID manifest)
            (override (LPKBuildPublishModel.Version <$> pub)
                      (manifestYAML.Version manifest))
            (sha256hex art)
            (override (LPKBuildPublishModel.Name <$> pub)
                      (artifactBaseOf manifest (sha256hex data)))), w).
Proof.
  intros Hdata Hyaml Hname Hver Hart.
  pose proof (proj2 (ReadFile_inv _ w w data) (conj eq_refl Hdata)) as Hread.
  pose proof (proj2 (ReadFile_inv _ w w art) (conj eq_refl Hart)) as Hreadart.
  apply String.eqb_neq in Hname, Hver.
  unfold runBuild, readManifest, computeSHA.
  unfold bind at 1. unfold mapErr at 1. unfold bind at 1. rewrite Hread.
  unfold lift at 1. rewrite Hyaml, Hname, Hver.
  unfold bind at 1. unfold mapErr at 1. unfold bind at 1. rewrite Hread.
  unfold ret at 1. unfold bind at 1. unfold os.Stat.
  unfold contentAt in Hart.
  destruct (files w !! filepath.Join path _) as [[c p t|t]|] eqn:Hstat; try discriminate.
  unfold bind, ret. by rewrite Hreadart.
Qed.

(** C2 (as amended).  A successful build step returns the path
    [filepath.Join(workdir, "{name}-{version}-{manifestHash}.lpk")], with
    name and version read from the manifest and the hash taken over the
    manifest's bytes: on a working directory given by a clean path, and a
    file name without a slash, this is
    [{workdir}/{name}-{version}-{manifestHash}.lpk].  The step ran the
    build command (once) exactly when nothing was at that path at the
    start, and ran nothing otherwise.  With a file at that path the step
    succeeds, whatever the build command would do. *)
Theorem runBuild_artifact_path (path : string) (build : option LPKBuildBuildModel.t)
    (pub : option LPKBuildPublishModel.t) (envVars : gmap string string)
    (w : World) :
  (forall (w' : World) (lpkPath : string) (meta : lpkMetadata.t),
      runBuild path build pub envVars w = (inr (lpkPath, meta), w') ->
      exists data manifest,
        contentAt (files w) (filepath.Join path "lzc-manifest.yml") = Some data
        /\ yaml_Unmarshal data = inr manifest
        /\ lpkPath =
           filepath.Join path
             (manifestYAML.Name manifest +:+ "-" +:+ manifestYAML.Version manifest
                +:+ "-" +:+ sha256hex data +:+ ".lpk")
        /\ (filepath.Clean path = path -> path <> "." -> path <> "/" ->
            filepath.hasSlash
              (manifestYAML.Name manifest +:+ "-" +:+ manifestYAML.Version manifest
                 +:+ "-" +:+ sha256hex data) = false ->
            lpkPath =
              path +:+ "/" +:+ manifestYAML.Name manifest +:+ "-"
                +:+ manifestYAML.Version manifest +:+ "-" +:+ sha256hex data
                +:+ ".lpk")
        /\ (files w !! lpkPath = None <->
            execLog w' = (execLog w ++ [buildCmd path build envVars])%list)
        /\ (files w !! lpkPath <> None <-> execLog w' = execLog w))
  /\ (forall (data art : string) (manifest : manifestYAML.t),
         contentAt (files w) (filepath.Join path "lzc-manifest.yml") = Some data ->
         yaml_Unmarshal data = inr manifest ->
         manifestYAML.Name manifest <> EmptyString ->
         manifestYAML.Version manifest <> EmptyString ->
         contentAt (files w)
           (filepath.Join path
              (manifestYAML.Name manifest +:+ "-" +:+ manifestYAML.Version manifest
                 +:+ "-" +:+ sha256hex data +:+ ".lpk")) = Some art ->
         exists meta,
           runBuild path build pub envVars w =
             (inr (filepath.Join path
                     (manifestYAML.Name manifest +:+ "-"
                        +:+ manifestYAML.Version manifest
                        +:+ "-" +:+ sha256hex data +:+ ".lpk"), meta), w)
           /\ lpkMetadata.SHA256 meta = sha256hex art).
Proof.
  assert (forall manifest hash,
            artifactBaseOf manifest hash +:+ ".lpk"
            = manifestYAML.Name manifest +:+ "-" +:+ manifestYAML.Version manifest
                +:+ "-" +:+ hash +:+ ".lpk") as Hbase.
  { intros manifest hash. unfold artifactBaseOf. by rewrite !app_assoc_s. }
  split.
  - intros w' lpkPath meta H. apply runBuild_inv in H
      as (data & manifest & art & Hdata & Hyaml & _ & _ & -> & _ & _ & Hrun).
    exists data, manifest. split; [done|]. split; [done|]. rewrite Hbase in Hrun |- *.
    split; [done|]. split.
    { intros Hclean Hdot Hroot Hslash.
      set (base := manifestYAML.Name manifest +:+ "-"
             +:+ manifestYAML.Version manifest +:+ "-" +:+ sha256hex data) in *.
      assert (manifestYAML.Name manifest +:+ "-" +:+ manifestYAML.Version manifest
                +:+ "-" +:+ sha256hex data +:+ ".lpk" = base +:+ ".lpk") as ->.
      { unfold base. by rewrite !app_assoc_s. }
      destruct (lpk_name_plain base) as (H0 & H1 & H2).
      rewrite Join_plain; try done.
      by rewrite hasSlash_append, Hslash. }
    assert (forall (l : list Cmd) c, (l ++ [c])%list <> l) as Hgrow.
    { intros l c Heq. apply (f_equal length) in Heq. rewrite length_app in Heq.
      simpl in Heq. lia. }
    destruct Hrun as [[Hnone Hlog]|[[n Hsome] ->]].
    + split; [done|]. rewrite Hlog, Hnone. split; [done|]. intros Heq.
      by apply Hgrow in Heq.
    + rewrite Hsome. split; [|done]. split; [done|]. intros Heq. symmetry in Heq.
      by apply Hgrow in Heq.
  - intros data art manifest Hdata Hyaml Hname Hver Hart. rewrite <- Hbase in *.
    eexists. split; [by apply (runBuild_hit _ _ _ _ _ data art manifest)|].
    reflexivity.
Qed.

(** C1 (as amended).  When the build step has succeeded, a later call,
    in any world in which the bytes of the manifest are what they were and
    the artifact of the first call is still in its place, whatever else
    has changed and whatever the build command and the variables now are,
    returns the same artifact path and metadata (appID, version, content
    hash) without running anything or touching the world, so that both
    calls together ran the build command at most once. *)
Theorem runBuild_idempotent (path : string)
    (build build' : option LPKBuildBuildModel.t)
    (pub : option LPKBuildPublishModel.t) (envVars envVars' : gmap string string)
    (w w1 w2 : World) (lpkPath : string) (meta : lpkMetadata.t) :
  runBuild path build pub envVars w = (inr (lpkPath, meta), w1) ->
  contentAt (files w2) (filepath.Join path "lzc-manifest.yml") =
    contentAt (files w) (filepath.Join path "lzc-manifest.yml") ->
  contentAt (files w2) lpkPath = contentAt (files w1) lpkPath ->
  runBuild path build' pub envVars' w2 = (inr (lpkPath, meta), w2)
  /\ (execLog w1 = execLog w
      \/ execLog w1 = (execLog w ++ [buildCmd path build envVars])%list).
Proof.
  intros H Hsame Hkept. apply runBuild_inv in H
    as (data & manifest & art & Hdata & Hyaml & Hname & Hver & -> & Hart & -> & Hrun).
  rewrite <- Hsame in Hdata. rewrite <- Hkept in Hart. split.
  - by apply runBuild_hit.
  - destruct Hrun as [[_ Hlog]|[_ ->]]; [by right | by left].
Qed.

(** *** Steps that make no upload *)

Create HintDb keeps.

Lemma keeps_ret {A} (a : A) : keepsUploads (ret a).
Proof. by intros w r w' [= _ <-]. Qed.

Lemma keeps_fail {A} (e : error) : keepsUploads (@fail A e).
Proof. by intros w r w' [= _ <-]. Qed.

Lemma keeps_lift {A} (x : error + A) : keepsUploads (lift x).
Proof. by intros w r w' [= _ <-]. Qed.

Lemma keeps_bind {A B} (m : M A) (k : A -> M B) :
  keepsUploads m -> (forall a, keepsUploads (k a)) -> keepsUploads (bind m k).
Proof.
  intros Hm Hk w r w'. unfold bind.
  destruct (m w) as [[e|a] w1] eqn:Hmw.
  - intros [= _ <-]. eauto.
  - intros Hka. rewrite (Hk a _ _ _ Hka). eauto.
Qed.

Lemma keeps_mapErr {A} (h : error -> error) (m : M A) :
  keepsUploads m -> keepsUploads (mapErr h m).
Proof.
  intros Hm w r w'. unfold mapErr.
  destruct (m w) as [[e|a] w1] eqn:Hmw; intros [= _ <-]; eauto.
Qed.

Lemma keeps_orCleanup {A} (cleanup : World -> World) (pre : string) (m : M A) :
  (forall w, uploadLog (cleanup w) = uploadLog w) ->
  keepsUploads m -> keepsUploads (orCleanup cleanup pre m).
Proof.
  intros Hc Hm w r w'. unfold orCleanup.
  destruct (m w) as [[e|a] w1] eqn:Hmw; intros [= _ <-]; [rewrite Hc|]; eauto.
Qed.

Lemma keeps_if {A} (b : bool) (m1 m2 : M A) :
  keepsUploads m1 -> keepsUploads m2 -> keepsUploads (if b then m1 else m2).
Proof. by destruct b. Qed.

Lemma RemoveAll_uploadLog (path : string) (w : World) :
  uploadLog (os.RemoveAll path w) = uploadLog w.
Proof. reflexivity. Qed.

Lemma keeps_ReadFile (p : string) : keepsUploads (os.ReadFile p).
Proof.
  intros w r w'. unfold os.ReadFile.
  destruct (files w !! p) as [[? ? ?|?]|]; by intros [= _ <-].
Qed.

Lemma keeps_WriteFile (p data : string) (perm : N) :
  keepsUploads (os.WriteFile p data perm).
Proof.
  intros w r w'. unfold os.WriteFile.
  destruct (String.eqb p EmptyString); [by intros [= _ <-]|].
  destruct (strings.HasSuffix p "/"); [by intros [= _ <-]|].
  destruct (files w !! p) as [[? ? ?|?]|]; by intros [= _ <-].
Qed.

Lemma keeps_Rename (old new : string) : keepsUploads (os.Rename old new).
Proof.
  intros w r w'. unfold os.Rename.
  destruct (files w !! old); [|by intros [= _ <-]].
  destruct (String.eqb old new); [by intros [= _ <-]|].
  destruct (files w !! new) as [[? ? ?|?]|]; [|by intros [= _ <-]|by intros [= _ <-]].
  destruct (IsDir n); by intros [= _ <-].
Qed.

Lemma keeps_Run (c : Cmd) : keepsUploads (Run c).
Proof.
  intros w r w'. unfold Run.
  destruct (exec_Run c (files w)) as [[e|] fs']; by intros [= _ <-].
Qed.

Lemma keeps_MkdirTemp : keepsUploads MkdirTemp.
Proof.
  intros w r w'. unfold MkdirTemp, os.Mkdir.
  destruct (files w !! tempDirName (files w)); by intros [= _ <-].
Qed.

Lemma keeps_findLatestLPK (dir : string) : keepsUploads (findLatestLPK dir).
Proof.
  intros w r w' H. by apply findLatestLPK_world in H as ->.
Qed.

Hint Resolve keeps_ret keeps_fail keeps_lift keeps_bind keeps_mapErr keeps_orCleanup
  keeps_if RemoveAll_uploadLog keeps_ReadFile keeps_WriteFile keeps_Rename keeps_Run
  keeps_MkdirTemp keeps_findLatestLPK : keeps.

Lemma keeps_renderTemplateFile (path ext : string) (envVars : gmap string string) :
  keepsUploads (renderTemplateFile path ext envVars).
Proof.
  unfold renderTemplateFile.
  repeat (apply keeps_bind; [auto with keeps | intros ?]).
  intros w r w'. apply keeps_mapErr, keeps_WriteFile.
Qed.

Lemma keeps_renderWalkFn (ext : string) (envVars : gmap string string)
    (path : string) (entry : option filepath_walk.DirEntry) (walkErr : option error) :
  keepsUploads (renderWalkFn ext envVars path entry walkErr).
Proof.
  unfold renderWalkFn. destruct walkErr, entry; auto with keeps.
  repeat apply keeps_if; auto using keeps_renderTemplateFile with keeps.
Qed.

Lemma keeps_walk (fn : filepath_walk.WalkDirFunc) (entries : list (string * node)) :
  (forall p e err, keepsUploads (fn p e err)) -> keepsUploads (filepath_walk.walk fn entries).
Proof.
  intros Hfn. induction entries as [|[p n] entries IH]; simpl; auto with keeps.
Qed.

Lemma keeps_renderTemplateFiles (baseDir ext : string) (envVars : gmap string string) :
  keepsUploads (renderTemplateFiles baseDir ext envVars).
Proof.
  unfold renderTemplateFiles, filepath_walk.WalkDir. intros w r w'.
  destruct (files w !! baseDir).
  - apply keeps_walk. apply keeps_renderWalkFn.
  - apply keeps_renderWalkFn.
Qed.

Lemma keeps_buildArtifact (path : string) (build : option LPKBuildBuildModel.t)
    (envVars : gmap string string) (artifactPath : string) :
  keepsUploads (buildArtifact path build envVars artifactPath).
Proof. unfold buildArtifact. auto 10 with keeps. Qed.

Lemma keeps_runBuild (path : string) (build : option LPKBuildBuildModel.t)
    (pub : option LPKBuildPublishModel.t) (envVars : gmap string string) :
  keepsUploads (runBuild path build pub envVars).
Proof.
  unfold runBuild, readManifest, computeSHA.
  apply keeps_bind; [auto 10 with keeps | intros manifest].
  repeat apply keeps_if; auto with keeps.
  apply keeps_bind; [auto 10 with keeps | intros manifestHash].
  apply keeps_bind; [|auto 10 with keeps].
  intros w r w'. destruct (os.Stat _ _) as [e|n].
  - destruct (Is_ErrNotExist e); [apply keeps_buildArtifact | by intros [= _ <-]].
  - by intros [= _ <-].
Qed.

Lemma keeps_prepareSource (source : option LPKBuildSourceModel.t) :
  keepsUploads (prepareSource source).
Proof.
  unfold prepareSource. destruct source as [[loc git]|]; [|auto with keeps].
  cbn [LPKBuildSourceModel.Local LPKBuildSourceModel.Git].
  destruct loc as [loc|]; [apply keeps_if; auto with keeps|].
  destruct git as [git|]; [|auto with keeps].
  apply keeps_if; [auto with keeps|].
  apply keeps_bind; [auto with keeps | intros tmp].
  apply keeps_bind; [auto with keeps | intros _].
  apply keeps_bind; [apply keeps_if; auto with keeps | intros _].
  auto with keeps.
Qed.

(** *** Cleaning up the staging directory *)

Lemma RemoveAll_gone (tmp : string) (w : World) : gone tmp (files (os.RemoveAll tmp w)).
Proof.
  intros p Hp. unfold os.RemoveAll. cbn [files setFiles].
  apply map_lookup_filter_None. right. intros n _. cbn [fst].
  destruct Hp as [->|Hu].
  - rewrite String.eqb_refl. cbn. tauto.
  - rewrite Hu, orb_true_r. cbn. tauto.
Qed.

(** The resolver on a git source whose staging name is fresh: a failure
    has removed the staging directory already, a success returns the
    handle that removes it. *)
Lemma prepareSource_git (git : LPKBuildSourceGitModel.t) (w w1 : World)
    (r : error + string * option (World -> World)) :
  unset (LPKBuildSourceGitModel.URL git) = false ->
  files w !! tempDirName (files w) = None ->
  prepareSource (Some (LPKBuildSourceModel.mk None (Some git))) w = (r, w1) ->
  match r with
  | inl _ => gone (tempDirName (files w)) (files w1)
  | inr (_, cleanup) => cleanup = Some (os.RemoveAll (tempDirName (files w)))
  end.
Proof.
  intros Hurl Hfresh. unfold prepareSource.
  cbn [LPKBuildSourceModel.Local LPKBuildSourceModel.Git]. rewrite Hurl.
  unfold bind at 1. unfold MkdirTemp, os.Mkdir. rewrite Hfresh.
  set (tmp := tempDirName (files w)).
  unfold bind at 1. unfold orCleanup at 1.
  destruct (Run _ _) as [[e|[]] w2].
  { intros [= <- <-]. apply RemoveAll_gone. }
  unfold bind at 1.
  destruct (unset (LPKBuildSourceGitModel.Ref git)).
  - unfold ret. by intros [= <- <-].
  - unfold orCleanup. destruct (Run _ _) as [[e|[]] w3].
    + intros [= <- <-]. apply RemoveAll_gone.
    + unfold ret. by intros [= <- <-].
Qed.

(** C9.  For a git source (with a URL, and a fresh staging name drawn) the
    staging directory is gone on every way out: when the clone or the
    checkout fails the resolver has removed it before it returns the error,
    when they succeed it returns the handle that removes it, and whatever
    [applyBuild] returns afterwards, success or the failure of any later
    stage, nothing is left at the staging directory or below it. *)
Theorem staging_directory_removed (data : LPKBuildModel.t)
    (prior : option LPKBuildModel.t) (git : LPKBuildSourceGitModel.t) (w : World) :
  LPKBuildModel.Source data = Some (LPKBuildSourceModel.mk None (Some git)) ->
  unset (LPKBuildSourceGitModel.URL git) = false ->
  files w !! tempDirName (files w) = None ->
  (forall r w1,
      prepareSource (LPKBuildModel.Source data) w = (r, w1) ->
      match r with
      | inl _ => gone (tempDirName (files w)) (files w1)
      | inr (_, cleanup) => cleanup = Some (os.RemoveAll (tempDirName (files w)))
      end)
  /\ (forall r w', applyBuild data prior w = (r, w') ->
                   gone (tempDirName (files w)) (files w')).
Proof.
  intros Hsrc Hurl Hfresh. rewrite Hsrc. split.
  - intros r w1. by apply prepareSource_git.
  - intros r w'. unfold applyBuild. rewrite Hsrc.
    unfold bind, mapErr.
    destruct (prepareSource _ w) as [[e|[sub cleanup]] w1] eqn:Hprep;
      apply prepareSource_git in Hprep; try done.
    + by intros [= _ <-].
    + subst cleanup. unfold defer. cbn [fst snd].
      destruct (buildAndPublish data prior sub w1) as [r' w2].
      intros [= _ <-]. apply RemoveAll_gone.
Qed.

(** *** Publishing *)

Lemma unset_false (v : tfString) : unset v = false <-> ValueString v <> EmptyString.
Proof.
  unfold unset. destruct v as [| |s]; cbn [IsNull ValueString orb]; try done.
  apply String.eqb_neq.
Qed.

Lemma canReuseUpload_spec (prior : option LPKBuildModel.t) (meta : lpkMetadata.t) :
  canReuseUpload prior meta = true <-> reusable prior (lpkMetadata.SHA256 meta).
Proof.
  unfold canReuseUpload, reusable. destruct prior as [p|].
  - destruct (unset (LPKBuildModel.UploadID p)) eqn:Hid.
    { split; [done|]. intros (p' & [= <-] & Hid' & _). apply unset_false in Hid'.
      congruence. }
    destruct (unset (LPKBuildModel.LPKURL p)) eqn:Hurl.
    { split; [done|]. intros (p' & [= <-] & _ & Hurl' & _). apply unset_false in Hurl'.
      congruence. }
    apply unset_false in Hid, Hurl.
    destruct (IsNull (LPKBuildModel.SHA256 p)) eqn:Hnull; cbn [orb].
    { split; [done|]. intros (p' & [= <-] & _ & _ & ? & _). congruence. }
    destruct (String.eqb_spec (ValueString (LPKBuildModel.SHA256 p))
                              (lpkMetadata.SHA256 meta)) as [Heq|Hne]; cbn [negb].
    + split; [|done]. intros _. by exists p.
    + split; [done|]. intros (p' & [= <-] & _ & _ & _ & ?). congruence.
  - split; [done|]. by intros (p & ? & _).
Qed.

(** A cleanup handle of the resolver makes no upload. *)
Lemma prepareSource_handle (source : option LPKBuildSourceModel.t) (w w1 : World)
    (workdir : string) (cleanup : option (World -> World)) :
  prepareSource source w = (inr (workdir, cleanup), w1) ->
  cleanup = None \/ exists tmp, cleanup = Some (os.RemoveAll tmp).
Proof.
  unfold prepareSource. destruct source as [[loc git]|]; [|discriminate].
  cbn [LPKBuildSourceModel.Local LPKBuildSourceModel.Git].
  destruct loc as [loc|].
  { destruct (unset _); [discriminate|]. intros [= _ <- _]. by left. }
  destruct git as [git|]; [|discriminate].
  destruct (unset _); [discriminate|].
  unfold bind at 1. destruct (MkdirTemp w) as [[e|tmp] w2]; [discriminate|].
  unfold bind at 1. destruct (orCleanup _ _ _ w2) as [[e|[]] w3]; [discriminate|].
  unfold bind at 1.
  destruct (_ w3) as [[e|[]] w4]; [discriminate|].
  intros [= _ <- _]. right. by exists tmp.
Qed.

(** [applyBuild] once source, templates and build have succeeded. *)
Lemma applyBuild_built (data : LPKBuildModel.t) (prior : option LPKBuildModel.t)
    (w w1 w2 w3 : World) (workdir : string) (cleanup : option (World -> World))
    (lpkPath : string) (meta : lpkMetadata.t) :
  prepareSource (LPKBuildModel.Source data) w = (inr (workdir, cleanup), w1) ->
  renderTemplateFiles workdir (resolveTemplateExtension (LPKBuildModel.Env data))
    (collectEnvVars (LPKBuildModel.Env data)) w1 = (inr tt, w2) ->
  runBuild workdir (LPKBuildModel.Build data) (LPKBuildModel.Publish data)
    (collectEnvVars (LPKBuildModel.Env data)) w2 = (inr (lpkPath, meta), w3) ->
  applyBuild data prior w =
    defer cleanup (publishStep data prior lpkPath meta) w3
  /\ uploadLog w3 = uploadLog w.
Proof.
  intros Hprep Hrender Hbuild. split.
  - unfold applyBuild, bind, mapErr. rewrite Hprep. cbn [fst snd].
    unfold defer at 1. unfold buildAndPublish, bind. by rewrite Hrender, Hbuild.
  - apply keeps_prepareSource in Hprep. apply keeps_renderTemplateFiles in Hrender.
    apply keeps_runBuild in Hbuild. congruence.
Qed.

Lemma defer_uploadLog {A} (cleanup : option (World -> World)) (m : M A)
    (w w' : World) (r : error + A) :
  (cleanup = None \/ exists tmp, cleanup = Some (os.RemoveAll tmp)) ->
  defer cleanup m w = (r, w') ->
  exists w4, m w = (r, w4) /\ uploadLog w' = uploadLog w4.
Proof.
  intros Hc. unfold defer. destruct (m w) as [r' w4]. intros [= <- <-].
  exists w4. split; [done|]. by destruct Hc as [->|[tmp ->]].
Qed.

Lemma publishStep_reuse (data p : LPKBuildModel.t) (lpkPath : string)
    (meta : lpkMetadata.t) (w : World) :
  shouldPublish (LPKBuildModel.Publish data) = true ->
  canReuseUpload (Some p) meta = true ->
  publishStep data (Some p) lpkPath meta w =
    (inr (withID (StringValue (resourceID meta))
            (reuseUpload p (withBuildResult lpkPath meta data))), w).
Proof.
  intros Hpub Hreuse. unfold publishStep.
  change (LPKBuildModel.Publish (withBuildResult lpkPath meta data))
    with (LPKBuildModel.Publish data).
  by rewrite Hpub, Hreuse.
Qed.

Lemma publishStep_upload (data : LPKBuildModel.t) (prior : option LPKBuildModel.t)
    (lpkPath : string) (meta : lpkMetadata.t) (w : World) :
  shouldPublish (LPKBuildModel.Publish data) = true ->
  canReuseUpload prior meta = false ->
  publishStep data prior lpkPath meta w =
    (match UploadLPK (uploadCallOf data lpkPath meta) (files w) with
     | inl e => inl (Errorf_w "upload error: " e)
     | inr upload =>
         inr (withID (StringValue (resourceID meta))
                (recordUpload upload (withBuildResult lpkPath meta data)))
     end,
     mkWorld (files w) (clock w) (execLog w)
       (uploadLog w ++ [uploadCallOf data lpkPath meta])).
Proof.
  intros Hpub Hreuse. unfold publishStep.
  change (LPKBuildModel.Publish (withBuildResult lpkPath meta data))
    with (LPKBuildModel.Publish data).
  rewrite Hpub, Hreuse.
  change (uploadCallOf (withBuildResult lpkPath meta data) lpkPath meta)
    with (uploadCallOf data lpkPath meta).
  unfold bind, mapErr, callUploadLPK, ret.
  by destruct (UploadLPK _ _).
Qed.

Lemma reuseUpload_fields (p d : LPKBuildModel.t) :
  LPKBuildModel.LPKURL (reuseUpload p d) = LPKBuildModel.LPKURL p
  /\ LPKBuildModel.UploadID (reuseUpload p d) = LPKBuildModel.UploadID p.
Proof. unfold reuseUpload. by destruct (negb _). Qed.

(** C3.  In an apply that publishes and whose build has succeeded, the
    prior upload is reused (no call to the registry; the prior download URL
    and upload ID are returned as they were) exactly when a prior state
    exists with a non-empty upload ID, a non-empty download URL and a
    recorded hash equal to the hash of the current artifact; otherwise, and
    in particular when the recorded hash differs, the registry is called
    exactly once. *)
Theorem publish_reuse (data : LPKBuildModel.t) (prior : option LPKBuildModel.t)
    (w w1 w2 w3 : World) (workdir : string) (cleanup : option (World -> World))
    (lpkPath : string) (meta : lpkMetadata.t) :
  prepareSource (LPKBuildModel.Source data) w = (inr (workdir, cleanup), w1) ->
  renderTemplateFiles workdir (resolveTemplateExtension (LPKBuildModel.Env data))
    (collectEnvVars (LPKBuildModel.Env data)) w1 = (inr tt, w2) ->
  runBuild workdir (LPKBuildModel.Build data) (LPKBuildModel.Publish data)
    (collectEnvVars (LPKBuildModel.Env data)) w2 = (inr (lpkPath, meta), w3) ->
  shouldPublish (LPKBuildModel.Publish data) = true ->
  exists r w',
    applyBuild data prior w = (r, w')
    /\ (reusable prior (lpkMetadata.SHA256 meta) ->
        uploadLog w' = uploadLog w
        /\ exists res p,
             r = inr res /\ prior = Some p
             /\ LPKBuildModel.LPKURL res = LPKBuildModel.LPKURL p
             /\ LPKBuildModel.UploadID res = LPKBuildModel.UploadID p)
    /\ (~ reusable prior (lpkMetadata.SHA256 meta) ->
        uploadLog w' = (uploadLog w ++ [uploadCallOf data lpkPath meta])%list)
    /\ (uploadLog w' = uploadLog w <-> reusable prior (lpkMetadata.SHA256 meta))
    /\ (forall p, prior = Some p ->
                  ValueString (LPKBuildModel.SHA256 p) <> lpkMetadata.SHA256 meta ->
                  uploadLog w' = (uploadLog w ++ [uploadCallOf data lpkPath meta])%list).
Proof.
  intros Hprep Hrender Hbuild Hpub.
  destruct (applyBuild_built data prior _ _ _ _ _ _ _ _ Hprep Hrender Hbuild)
    as [Happly Hlog].
  destruct (applyBuild data prior w) as [r w'] eqn:Hres. exists r, w'.
  split; [done|]. symmetry in Happly.
  apply defer_uploadLog in Happly as (w4 & Hstep & Hlog');
    [|by eapply prepareSource_handle].
  assert (forall (l : list UploadCall) c, (l ++ [c])%list <> l) as Hgrow.
  { intros l c Heq. apply (f_equal length) in Heq. rewrite length_app in Heq.
    simpl in Heq. lia. }
  assert (reusable prior (lpkMetadata.SHA256 meta) ->
          uploadLog w' = uploadLog w
          /\ exists res p,
               r = inr res /\ prior = Some p
               /\ LPKBuildModel.LPKURL res = LPKBuildModel.LPKURL p
               /\ LPKBuildModel.UploadID res = LPKBuildModel.UploadID p) as Hyes.
  { intros Hre. pose proof Hre as (p & -> & _). apply canReuseUpload_spec in Hre.
    rewrite (publishStep_reuse _ _ _ _ _ Hpub Hre) in Hstep.
    injection Hstep as <- <-. split; [congruence|].
    eexists _, p. split; [reflexivity|]. split; [done|].
    apply (reuseUpload_fields p (withBuildResult lpkPath meta data)). }
  assert (~ reusable prior (lpkMetadata.SHA256 meta) ->
          uploadLog w' = (uploadLog w ++ [uploadCallOf data lpkPath meta])%list) as Hno.
  { intros Hre. rewrite <- canReuseUpload_spec in Hre.
    apply not_true_is_false in Hre.
    rewrite (publishStep_upload _ _ _ _ _ Hpub Hre) in Hstep.
    injection Hstep as _ <-. rewrite Hlog'. cbn [uploadLog]. by rewrite Hlog. }
  split; [done|]. split; [done|]. split.
  - split.
    + intros Heq. destruct (decide (canReuseUpload prior meta = true)) as [Hc|Hc].
      * by apply canReuseUpload_spec.
      * rewrite canReuseUpload_spec in Hc. apply Hno in Hc. rewrite Hc in Heq.
        by apply Hgrow in Heq.
    + intros Hre. by apply Hyes.
  - intros p -> Hne. apply Hno. intros (p' & [= <-] & _ & _ & _ & Heq). done.
Qed.


(** *** Validation of the source descriptor *)

(** On its own the resolver takes the local variant when both are given;
    it is the validators that reject such a descriptor. *)
Lemma prepareSource_prefers_local (loc : LPKBuildSourceLocalModel.t)
    (git : LPKBuildSourceGitModel.t) (w : World) :
  unset (LPKBuildSourceLocalModel.Path loc) = false ->
  prepareSource (Some (LPKBuildSourceModel.mk (Some loc) (Some git))) w =
    (inr (ValueString (LPKBuildSourceLocalModel.Path loc), None), w).
Proof. intros H. unfold prepareSource. cbn. by rewrite H. Qed.

(** C5.  A descriptor with both variants populated, and one with
    neither, is rejected with a configuration error by the validators,
    which look at the configuration alone: whatever the world, the outcome
    is that error and the world is as it was.  With neither variant the
    resolver itself fails too, again without touching the world. *)
Theorem source_descriptor_validated (data : LPKBuildModel.t)
    (prior : option LPKBuildModel.t) :
  (bothPopulated data \/ neitherPopulated data ->
   exists diags,
     diags <> [] /\ forall w, Apply data prior w = (ConfigError diags, w))
  /\ (neitherPopulated data ->
      forall w, exists e,
        prepareSource (LPKBuildModel.Source data) w = (inl e, w)).
Proof.
  split.
  - intros [(s & l & g & Hs & Hl & Hg)|[Hs|(s & Hs & Hl & Hg)]].
    + exists [InvalidAttributeCombination (Conflicting [source_local; source_git])].
      split; [done|]. intros w. unfold Apply, ValidateConfig, ConfigValidators.
      cbn. unfold configured. by rewrite Hs, Hl, Hg.
    + exists [InvalidAttributeCombination (AtLeastOneOf [source_local; source_git])].
      split; [done|]. intros w. unfold Apply, ValidateConfig, ConfigValidators.
      cbn. unfold configured. by rewrite Hs.
    + exists [InvalidAttributeCombination (AtLeastOneOf [source_local; source_git])].
      split; [done|]. intros w. unfold Apply, ValidateConfig, ConfigValidators.
      cbn. unfold configured. by rewrite Hs, Hl, Hg.
  - intros [Hs|(s & Hs & Hl & Hg)] w; rewrite Hs; unfold prepareSource.
    + by eexists.
    + rewrite Hl, Hg. by eexists.
Qed.

(** *** Variables *)

Lemma collectEnvVars_lookup_aux (env : option LPKBuildEnvModel.t) (k v : string) :
  collectEnvVars env !! k = Some v ->
  exists e, env = Some e /\ LPKBuildEnvModel.Variables e !! k = Some (StringValue v).
Proof.
  unfold collectEnvVars. destruct env as [e|].
  - rewrite lookup_omap.
    destruct (LPKBuildEnvModel.Variables e !! k) as [[| |s]|] eqn:Hk;
      cbn; intros [= <-]. by exists e.
  - by rewrite lookup_empty.
Qed.

(** X1.  [collectEnvVars] keeps exactly the variables whose value is
    known, with that value (an empty string included); null and unknown
    values, and a missing [env] block, contribute nothing. *)
Theorem collectEnvVars_lookup (env : option LPKBuildEnvModel.t) (k v : string) :
  collectEnvVars env !! k = Some v <->
  exists e, env = Some e /\ LPKBuildEnvModel.Variables e !! k = Some (StringValue v).
Proof.
  split; [apply collectEnvVars_lookup_aux|].
  intros (e & -> & Hk). unfold collectEnvVars. by rewrite lookup_omap, Hk.
Qed.

(** X2.  No variable reaches the build exactly when every variable of
    the configuration is null or unknown (or there is no [env] block): the
    collected mapping is empty exactly then, and the build command is
    given a nil [Env] exactly when the collected mapping is empty. *)
Theorem no_variables_nil_Env (env : option LPKBuildEnvModel.t) :
  (collectEnvVars env = ∅ <->
   forall e k v, env = Some e -> LPKBuildEnvModel.Variables e !! k = Some v ->
                 IsNull v || IsUnknown v = true)
  /\ forall path build,
       CmdEnv (buildCmd path build (collectEnvVars env)) = None <->
       collectEnvVars env = ∅.
Proof.
  split.
  - split.
    + intros Hempty e k v -> Hv. destruct v as [| |s]; try reflexivity.
      assert (collectEnvVars (Some e) !! k = Some s) as Hk.
      { unfold collectEnvVars. by rewrite lookup_omap, Hv. }
      by rewrite Hempty, lookup_empty in Hk.
    + intros Hall. apply map_eq. intros k. rewrite lookup_empty.
      destruct (collectEnvVars env !! k) as [v|] eqn:Hk; [|done].
      apply collectEnvVars_lookup_aux in Hk as (e & He & Hv).
      specialize (Hall e k _ He Hv). discriminate.
  - intros path build. unfold buildCmd. cbn [CmdEnv].
    destruct (Nat.ltb_spec 0 (size (collectEnvVars env))) as [Hpos|Hzero].
    + split; [done|]. intros Hempty. rewrite Hempty, map_size_empty in Hpos. lia.
    + split; [|done]. intros _. apply map_size_empty_iff. lia.
Qed.

(** *** Publishing: the remaining branches *)

Lemma shouldPublish_false (pub : option LPKBuildPublishModel.t) :
  shouldPublish pub = false <->
  exists p, pub = Some p
    /\ (LPKBuildPublishModel.Enabled p = BoolValue false
        \/ LPKBuildPublishModel.Enabled p = BoolUnknown).
Proof.
  unfold shouldPublish. destruct pub as [[[| |[]] name version]|]; cbn; split;
    try done; try (intros (p & [= <-] & [?|?]); simplify_eq/=; done);
    intros _; eexists; split; eauto.
Qed.

Lemma publishStep_disabled (data : LPKBuildModel.t) (prior : option LPKBuildModel.t)
    (lpkPath : string) (meta : lpkMetadata.t) (w : World) :
  shouldPublish (LPKBuildModel.Publish data) = false ->
  publishStep data prior lpkPath meta w =
    (inr (withID (StringValue (resourceID meta)) (withBuildResult lpkPath meta data)), w).
Proof.
  intros Hpub. unfold publishStep.
  change (LPKBuildModel.Publish (withBuildResult lpkPath meta data))
    with (LPKBuildModel.Publish data).
  by rewrite Hpub.
Qed.

(** X3.  With publishing switched off ([enabled] false) an apply whose
    build succeeds makes no call to the registry, succeeds, and reports a
    null download URL and a null upload ID, whatever the prior state says;
    hash, version, appID and path are those of the local build. *)
Theorem publish_disabled (data : LPKBuildModel.t) (prior : option LPKBuildModel.t)
    (w w1 w2 w3 : World) (workdir : string) (cleanup : option (World -> World))
    (lpkPath : string) (meta : lpkMetadata.t) :
  prepareSource (LPKBuildModel.Source data) w = (inr (workdir, cleanup), w1) ->
  renderTemplateFiles workdir (resolveTemplateExtension (LPKBuildModel.Env data))
    (collectEnvVars (LPKBuildModel.Env data)) w1 = (inr tt, w2) ->
  runBuild workdir (LPKBuildModel.Build data) (LPKBuildModel.Publish data)
    (collectEnvVars (LPKBuildModel.Env data)) w2 = (inr (lpkPath, meta), w3) ->
  (exists p, LPKBuildModel.Publish data = Some p
             /\ LPKBuildPublishModel.Enabled p = BoolValue false) ->
  exists res w',
    applyBuild data prior w = (inr res, w')
    /\ uploadLog w' = uploadLog w
    /\ LPKBuildModel.LPKURL res = StringNull
    /\ LPKBuildModel.UploadID res = StringNull
    /\ LPKBuildModel.SHA256 res = StringValue (lpkMetadata.SHA256 meta)
    /\ LPKBuildModel.Version res = StringValue (lpkMetadata.Version meta)
    /\ LPKBuildModel.AppID res = StringValue (lpkMetadata.AppID meta)
    /\ LPKBuildModel.LocalPath res = StringValue lpkPath.
Proof.
  intros Hprep Hrender Hbuild (p & Hp & Hoff).
  assert (shouldPublish (LPKBuildModel.Publish data) = false) as Hpub.
  { apply shouldPublish_false. exists p. auto. }
  destruct (applyBuild_built data prior _ _ _ _ _ _ _ _ Hprep Hrender Hbuild)
    as [Happly Hlog].
  destruct (applyBuild data prior w) as [r w'] eqn:Hres. symmetry in Happly.
  apply defer_uploadLog in Happly as (w4 & Hstep & Hlog');
    [|by eapply prepareSource_handle].
  rewrite (publishStep_disabled _ _ _ _ _ Hpub) in Hstep. injection Hstep as <- <-.
  eexists _, w'. split; [reflexivity|]. split; [congruence|]. done.
Qed.

(** X4.  [Create] has no prior state to reuse: unconfigured it reports
    "Provider not configured" and touches nothing; configured, publishing
    and with a successful build it calls the registry exactly once. *)
Theorem Create_uploads_once (plan : LPKBuildModel.t) :
  (forall w, Create false plan w = (inl notConfigured, w))
  /\ forall (w w1 w2 w3 : World) (workdir : string)
            (cleanup : option (World -> World)) (lpkPath : string)
            (meta : lpkMetadata.t),
       prepareSource (LPKBuildModel.Source plan) w = (inr (workdir, cleanup), w1) ->
       renderTemplateFiles workdir (resolveTemplateExtension (LPKBuildModel.Env plan))
         (collectEnvVars (LPKBuildModel.Env plan)) w1 = (inr tt, w2) ->
       runBuild workdir (LPKBuildModel.Build plan) (LPKBuildModel.Publish plan)
         (collectEnvVars (LPKBuildModel.Env plan)) w2 = (inr (lpkPath, meta), w3) ->
       shouldPublish (LPKBuildModel.Publish plan) = true ->
       uploadLog (Create true plan w).2 =
         (uploadLog w ++ [uploadCallOf plan lpkPath meta])%list.
Proof.
  split; [done|]. intros w w1 w2 w3 workdir cleanup lpkPath meta Hprep Hrender Hbuild Hpub.
  destruct (applyBuild_built plan None _ _ _ _ _ _ _ _ Hprep Hrender Hbuild)
    as [Happly Hlog].
  unfold Create, orDiag. cbn [negb].
  destruct (applyBuild plan None w) as [r w'] eqn:Hres. symmetry in Happly.
  apply defer_uploadLog in Happly as (w4 & Hstep & Hlog');
    [|by eapply prepareSource_handle].
  rewrite (publishStep_upload _ None _ _ _ Hpub eq_refl) in Hstep.
  injection Hstep as _ <-.
  transitivity (uploadLog w'); [by destruct r|].
  rewrite Hlog'. cbn [uploadLog]. by rewrite Hlog.
Qed.

Lemma unset_StringValue (s : string) : unset (StringValue s) = String.eqb s EmptyString.
Proof. reflexivity. Qed.


(** X5.  The state stored by an apply that uploaded can be reused by a
    later apply for metadata [meta'] exactly when the registry returned a
    non-empty ID and download URL and the hash stored (the registry's when
    it reported one, the local one otherwise) is the hash of [meta'].  So a
    registry that reports a digest of its own, different from the local
    one, makes the next apply upload the same artifact again. *)
Theorem recorded_upload_reusable (data : LPKBuildModel.t) (lpkPath : string)
    (meta meta' : lpkMetadata.t) (upload : apiUpload.t) :
  (canReuseUpload
     (Some (withID (StringValue (resourceID meta))
              (recordUpload upload (withBuildResult lpkPath meta data)))) meta' = true <->
   apiUpload.ID upload <> EmptyString
   /\ apiUpload.DownloadURL upload <> EmptyString
   /\ (if String.eqb (apiUpload.SHA256 upload) EmptyString
       then lpkMetadata.SHA256 meta else apiUpload.SHA256 upload)
      = lpkMetadata.SHA256 meta')
  /\ (apiUpload.SHA256 upload <> EmptyString ->
      apiUpload.SHA256 upload <> lpkMetadata.SHA256 meta ->
      canReuseUpload
        (Some (withID (StringValue (resourceID meta))
                 (recordUpload upload (withBuildResult lpkPath meta data)))) meta
      = false).
Proof.
  set (state := withID (StringValue (resourceID meta))
                  (recordUpload upload (withBuildResult lpkPath meta data))).
  assert (forall m, canReuseUpload (Some state) m = true <->
            apiUpload.ID upload <> EmptyString
            /\ apiUpload.DownloadURL upload <> EmptyString
            /\ (if String.eqb (apiUpload.SHA256 upload) EmptyString
                then lpkMetadata.SHA256 meta else apiUpload.SHA256 upload)
               = lpkMetadata.SHA256 m) as Hiff.
  { intros m. rewrite canReuseUpload_spec. unfold reusable, state, recordUpload.
    destruct (String.eqb (apiUpload.SHA256 upload) EmptyString);
      destruct (String.eqb (apiUpload.Version upload) EmptyString); cbn; split.
    all: try (intros (p & [= <-] & Hid & Hurl & _ & Hsha); cbn in *; done).
    all: intros (Hid & Hurl & Hsha); eexists; split; [reflexivity|]; cbn; done. }
  split; [apply Hiff|].
  intros Hne Hdiff. apply not_true_is_false. rewrite Hiff.
  apply String.eqb_neq in Hne. rewrite Hne. by intros (_ & _ & ?).
Qed.

(** X6.  Reuse is stable: the state stored by an apply that reused the
    prior upload passes the reuse check again for the same metadata. *)
Theorem reused_state_reusable (data prior : LPKBuildModel.t) (lpkPath : string)
    (meta : lpkMetadata.t) :
  canReuseUpload (Some prior) meta = true ->
  canReuseUpload
    (Some (withID (StringValue (resourceID meta))
             (reuseUpload prior (withBuildResult lpkPath meta data)))) meta = true.
Proof.
  rewrite !canReuseUpload_spec. intros (p & [= <-] & Hid & Hurl & _ & _).
  eexists. split; [reflexivity|]. unfold reuseUpload.
  by destruct (negb (IsNull (LPKBuildModel.Version prior))).
Qed.

(** X7.  An apply that reuses the prior upload stores the version of the
    prior state when that is not null (the version of the local metadata
    otherwise), next to the hash, appID and path of the local build. *)
Theorem reuse_keeps_prior_version (data prior : LPKBuildModel.t)
    (w w1 w2 w3 : World) (workdir : string) (cleanup : option (World -> World))
    (lpkPath : string) (meta : lpkMetadata.t) :
  prepareSource (LPKBuildModel.Source data) w = (inr (workdir, cleanup), w1) ->
  renderTemplateFiles workdir (resolveTemplateExtension (LPKBuildModel.Env data))
    (collectEnvVars (LPKBuildModel.Env data)) w1 = (inr tt, w2) ->
  runBuild workdir (LPKBuildModel.Build data) (LPKBuildModel.Publish data)
    (collectEnvVars (LPKBuildModel.Env data)) w2 = (inr (lpkPath, meta), w3) ->
  shouldPublish (LPKBuildModel.Publish data) = true ->
  canReuseUpload (Some prior) meta = true ->
  exists res w',
    applyBuild data (Some prior) w = (inr res, w')
    /\ LPKBuildModel.Version res =
       (if IsNull (LPKBuildModel.Version prior)
        then StringValue (lpkMetadata.Version meta)
        else LPKBuildModel.Version prior)
    /\ LPKBuildModel.SHA256 res = StringValue (lpkMetadata.SHA256 meta)
    /\ LPKBuildModel.AppID res = StringValue (lpkMetadata.AppID meta)
    /\ LPKBuildModel.LocalPath res = StringValue lpkPath.
Proof.
  intros Hprep Hrender Hbuild Hpub Hreuse.
  destruct (applyBuild_built data (Some prior) _ _ _ _ _ _ _ _ Hprep Hrender Hbuild)
    as [Happly _].
  destruct (applyBuild data (Some prior) w) as [r w'] eqn:Hres. symmetry in Happly.
  apply defer_uploadLog in Happly as (w4 & Hstep & _);
    [|by eapply prepareSource_handle].
  rewrite (publishStep_reuse _ _ _ _ _ Hpub Hreuse) in Hstep. injection Hstep as <- <-.
  eexists _, w'. split; [reflexivity|]. unfold reuseUpload.
  by destruct (IsNull (LPKBuildModel.Version prior)).
Qed.


(** *** Deleting the resource *)

Lemma Remove_inv (name : string) (w w' : World) (r : error + unit) :
  os_remove.Remove name w = (r, w') ->
  match r with
  | inl e => w' = w /\ (Is_ErrNotExist e = true -> files w !! name = None)
  | inr _ => files w' !! name = None
  end.
Proof.
  unfold os_remove.Remove. destruct (files w !! name) as [[c p t|t]|] eqn:Hn.
  - intros [= <- <-]. cbn. apply lookup_delete_eq.
  - destruct (os_remove.hasEntries name (files w)); intros [= <- <-].
    + split; [done|]. discriminate.
    + cbn. apply lookup_delete_eq.
  - intros [= <- <-]. done.
Qed.

(** X9.  [Delete] either reaches the removal of the resource from the
    state, without a diagnostic and with nothing left at the local path of
    the state, or it reports a diagnostic, keeps the resource, and leaves
    the filesystem as it was.  It asks the registry to delete the upload
    exactly when a client is configured and the state has a non-empty
    upload ID. *)
Theorem Delete_outcome (DeleteLPK : string -> option error) (hasClient : bool)
    (state : LPKBuildModel.t) (w w' : World) (out : DeleteOutcome) :
  Delete DeleteLPK hasClient state w = (out, w') ->
  (stateRemoved out = true <-> deleteDiag out = None)
  /\ (stateRemoved out = true ->
      unset (LPKBuildModel.LocalPath state) = false ->
      files w' !! ValueString (LPKBuildModel.LocalPath state) = None)
  /\ (stateRemoved out = false -> w' = w)
  /\ deleteCalls out =
     if hasClient && negb (unset (LPKBuildModel.UploadID state))
     then [ValueString (LPKBuildModel.UploadID state)] else [].
Proof.
  assert (forall calls o v,
            removeArtifact state calls w = (o, v) ->
            (stateRemoved o = true <-> deleteDiag o = None)
            /\ (stateRemoved o = true ->
                unset (LPKBuildModel.LocalPath state) = false ->
                files v !! ValueString (LPKBuildModel.LocalPath state) = None)
            /\ (stateRemoved o = false -> v = w)
            /\ deleteCalls o = calls) as Hlocal.
  { intros calls o v. unfold removeArtifact.
    destruct (unset (LPKBuildModel.LocalPath state)) eqn:Hunset; cbn [negb].
    { intros [= <- <-]. cbn. done. }
    destruct (os_remove.Remove _ w) as [[e|[]] v'] eqn:Hrem;
      apply Remove_inv in Hrem.
    - destruct Hrem as [-> Hgone].
      destruct (Is_ErrNotExist e) eqn:He; cbn [negb]; intros [= <- <-]; cbn.
      + repeat split; try done. intros _ _. by apply Hgone.
      + repeat split; try done.
    - intros [= <- <-]. cbn. repeat split; try done. }
  unfold Delete.
  destruct (hasClient && negb (unset (LPKBuildModel.UploadID state))).
  - destruct (DeleteLPK _) as [err|].
    + destruct (errors.Is err errNotFound); cbn [negb].
      * intros H. by apply Hlocal in H.
      * intros [= <- <-]. cbn. repeat split; done.
    + intros H. by apply Hlocal in H.
  - intros H. by apply Hlocal in H.
Qed.

Lemma removeArtifact_absent (state : LPKBuildModel.t) (calls : list string)
    (w : World) :
  (unset (LPKBuildModel.LocalPath state) = false ->
   files w !! ValueString (LPKBuildModel.LocalPath state) = None) ->
  removeArtifact state calls w = (mkDeleteOutcome None true calls, w).
Proof.
  intros Habsent. unfold removeArtifact.
  destruct (unset (LPKBuildModel.LocalPath state)); cbn [negb]; [reflexivity|].
  unfold os_remove.Remove. by rewrite Habsent.
Qed.

Lemma removeArtifact_removed (state : LPKBuildModel.t) (calls : list string)
    (w w' : World) (out : DeleteOutcome) :
  removeArtifact state calls w = (out, w') ->
  stateRemoved out = true ->
  unset (LPKBuildModel.LocalPath state) = false ->
  files w' !! ValueString (LPKBuildModel.LocalPath state) = None.
Proof.
  unfold removeArtifact. intros H Hrem Hset. rewrite Hset in H. cbn [negb] in H.
  destruct (os_remove.Remove _ w) as [[e|[]] v] eqn:Hremove;
    apply Remove_inv in Hremove.
  - destruct Hremove as [-> Hgone].
    destruct (Is_ErrNotExist e); cbn [negb] in H; injection H as <- <-; [|done].
    by apply Hgone.
  - by injection H as <- <-.
Qed.

(** X10.  Deleting is safe to repeat.  After a [Delete] that removed the
    resource, a [Delete] of the same state, to which the registry now
    answers that the upload is not found (the error variable
    [errNotFound], bare or wrapped) or answers without error, removes the
    resource again and changes nothing: the upload that is gone and the
    artifact that is gone are both passed over. *)
Theorem Delete_again (DeleteLPK DeleteLPK' : string -> option error)
    (hasClient hasClient' : bool) (state : LPKBuildModel.t) (w w' : World)
    (out : DeleteOutcome) :
  Delete DeleteLPK hasClient state w = (out, w') ->
  stateRemoved out = true ->
  (forall err, DeleteLPK' (ValueString (LPKBuildModel.UploadID state)) = Some err ->
               errors.Is err errNotFound = true) ->
  Delete DeleteLPK' hasClient' state w'
  = (mkDeleteOutcome None true
       (if hasClient' && negb (unset (LPKBuildModel.UploadID state))
        then [ValueString (LPKBuildModel.UploadID state)] else []), w').
Proof.
  intros Hfirst Hremoved Hgone.
  assert (unset (LPKBuildModel.LocalPath state) = false ->
          files w' !! ValueString (LPKBuildModel.LocalPath state) = None) as Habsent.
  { intros Hset. revert Hfirst. unfold Delete.
    destruct (hasClient && negb (unset (LPKBuildModel.UploadID state))).
    - destruct (DeleteLPK _) as [err|].
      + destruct (errors.Is err errNotFound); cbn [negb].
        * intros H. by apply (removeArtifact_removed _ _ _ _ _ H).
        * intros [= <- <-]. discriminate.
      + intros H. by apply (removeArtifact_removed _ _ _ _ _ H).
    - intros H. by apply (removeArtifact_removed _ _ _ _ _ H). }
  unfold Delete.
  destruct (hasClient' && negb (unset (LPKBuildModel.UploadID state))).
  - destruct (DeleteLPK' _) as [err|] eqn:Hdel.
    + rewrite (Hgone err eq_refl). cbn [negb]. by apply removeArtifact_absent.
    + by apply removeArtifact_absent.
  - by apply removeArtifact_absent.
Qed.

(** *** The data source and the resource *)

Lemma Error_Errorf_w (pre : string) (e : error) :
  Error (Errorf_w pre e) = pre +:+ Error e.
Proof. reflexivity. Qed.


(** *** The missing-key message *)

Lemma TrimRightFunc_snoc (f : ascii -> bool) (s : string) (d : ascii) :
  f d = true ->
  strings.TrimRightFunc f (s +:+ String d EmptyString) = strings.TrimRightFunc f s.
Proof.
  intros Hd. induction s as [|c s IH].
  - rewrite app_nil_l. cbn. by rewrite Hd.
  - rewrite app_cons. cbn [strings.TrimRightFunc]. by rewrite IH.
Qed.

Lemma Trim_quoted (s : string) :
  strings.Trim (template.quote s) strings.dquote = strings.Trim s strings.dquote.
Proof.
  unfold strings.Trim, template.quote, strings.dquote.
  rewrite app_cons, app_nil_l. cbn [strings.TrimRightFunc].
  rewrite TrimRightFunc_snoc by reflexivity.
  destruct (strings.TrimRightFunc _ s); reflexivity.
Qed.

(** X12.  [extractMissingKey] inverts the message that [text/template]
    writes for a missing map key: from [map has no entry for key "KEY"] it
    returns [KEY] without the double quotes at its ends, and from an error
    of any other beginning, or from no error, the empty string.  Handed an
    [*template.ExecError] whose inner error is that message,
    [formatTemplateError] answers [environment variable KEY not provided]
    when something is left of the key, and the inner error otherwise. *)
Theorem extractMissingKey_inverts_message (name key : string) (err : error) :
  extractMissingKey (Some (errorString (template.missingKeyText key)))
    = strings.Trim key strings.dquote
  /\ extractMissingKey None = EmptyString
  /\ (strings.HasPrefix (Error err) "map has no entry for key " = false ->
      extractMissingKey (Some err) = EmptyString)
  /\ formatTemplateError
       (ExecErrorPtr name (errorString (template.missingKeyText key)))
     = if String.eqb (strings.Trim key strings.dquote) EmptyString
       then errorString (template.missingKeyText key)
       else errorString ("environment variable "
                         +:+ strings.Trim key strings.dquote +:+ " not provided").
Proof.
  assert (extractMissingKey (Some (errorString (template.missingKeyText key)))
          = strings.Trim key strings.dquote) as Hkey.
  { unfold extractMissingKey, template.missingKeyText. cbn [Error].
    rewrite HasPrefix_app. cbn [negb].
    rewrite drop_app_length. apply Trim_quoted. }
  split; [exact Hkey|]. split; [reflexivity|]. split.
  - intros Hpre. unfold extractMissingKey. by rewrite Hpre.
  - unfold formatTemplateError. cbn [As_ExecErrorPtr]. rewrite Hkey.
    by destruct (String.eqb _ _).
Qed.

(** *** What rendering touches *)






(** *** What a build runs *)

Lemma ReadFile_world (p : string) (w w' : World) (r : error + string) :
  os.ReadFile p w = (r, w') ->
  w' = w /\ (forall c, r = inr c <-> contentAt (files w) p = Some c).
Proof.
  unfold os.ReadFile, contentAt.
  destruct (files w !! p) as [[c' pm t|t]|]; intros [= <- <-];
    (split; [done|]); intros c; split; congruence.
Qed.

(** X14.  [runBuild] runs at most one command, the build command, and
    that only when no file sits at the canonical artifact path; in every
    other outcome, success or failure, it leaves the world as it found it.
    Unless the manifest can be read and parsed and names both the package
    and its version, [runBuild] fails and nothing is run. *)
Theorem runBuild_runs_only_the_build_command (path : string)
    (build : option LPKBuildBuildModel.t) (pub : option LPKBuildPublishModel.t)
    (envVars : gmap string string) (w w' : World)
    (r : error + string * lpkMetadata.t) :
  runBuild path build pub envVars w = (r, w') ->
  (w' = w
   \/ (execLog w' = (execLog w ++ [buildCmd path build envVars])%list
       /\ exists data manifest,
            contentAt (files w) (filepath.Join path "lzc-manifest.yml") = Some data
            /\ yaml_Unmarshal data = inr manifest
            /\ files w !! filepath.Join path
                 (artifactBaseOf manifest (sha256hex data) +:+ ".lpk") = None))
  /\ ((forall data manifest,
         contentAt (files w) (filepath.Join path "lzc-manifest.yml") = Some data ->
         yaml_Unmarshal data = inr manifest ->
         manifestYAML.Name manifest = EmptyString
         \/ manifestYAML.Version manifest = EmptyString) ->
      w' = w /\ exists err, r = inl err).
Proof.
  unfold runBuild, readManifest, computeSHA.
  unfold bind at 1. unfold mapErr at 1. unfold bind at 1.
  destruct (os.ReadFile _ w) as [[e|data] w1] eqn:Hread;
    apply ReadFile_world in Hread as [-> Hdata].
  { intros [= <- <-]. eauto. }
  pose proof (proj1 (Hdata data) eq_refl) as Hcontent.
  unfold lift at 1.
  destruct (yaml_Unmarshal data) as [e|manifest] eqn:Hyaml.
  { intros [= <- <-]. eauto. }
  destruct (String.eqb_spec (manifestYAML.Name manifest) EmptyString) as [Hn|Hn].
  { intros [= <- <-]. eauto. }
  destruct (String.eqb_spec (manifestYAML.Version manifest) EmptyString) as [Hv|Hv].
  { intros [= <- <-]. eauto. }
  intros Hrun. split.
  2:{ intros Hbad. destruct (Hbad _ _ Hcontent Hyaml); done. }
  revert Hrun.
  unfold bind at 1. unfold mapErr at 1. unfold bind at 1.
  destruct (os.ReadFile _ w) as [[e|data'] w1] eqn:Hread;
    apply ReadFile_world in Hread as [-> Hdata'].
  { intros [= <- <-]. eauto. }
  pose proof (proj2 (Hdata' _) Hcontent) as [= ->]. unfold ret at 1.
  unfold bind at 1. unfold os.Stat.
  destruct (files w !! _) as [n|] eqn:Hart.
  - unfold bind at 1. unfold bind at 1.
    destruct (os.ReadFile _ w) as [[e|art] w1] eqn:Hread;
      apply ReadFile_world in Hread as [-> _]; intros [= <- <-]; eauto.
  - cbn [Is_ErrNotExist].
    destruct (buildArtifact _ _ _ _ w) as [[e|[]] w1] eqn:Hbuild;
      apply buildArtifact_execLog in Hbuild.
    + intros [= <- <-]. right. split; [done|]. by exists data, manifest.
    + unfold bind at 1. unfold bind at 1.
      destruct (os.ReadFile _ w1) as [[e|art] w2] eqn:Hread;
        apply ReadFile_world in Hread as [-> _]; intros [= <- <-]; right;
        (split; [done|]); by exists data, manifest.
Qed.


(** *** The commands of a git source *)

(** X16.  A git source runs [git clone URL repo] in the staging directory
    and then, only when a ref is given and the clone succeeded,
    [git checkout REF] in the clone; nothing else is run.  On success the
    working directory is the clone, or the subpath below it.  A failure is
    that of making the staging directory (nothing was run), of the clone
    ([git clone failed: ...], no checkout follows) or of the checkout
    ([git checkout failed: ...]). *)
Theorem prepareSource_git_commands (git : LPKBuildSourceGitModel.t) (w w1 : World)
    (r : error + string * option (World -> World)) :
  unset (LPKBuildSourceGitModel.URL git) = false ->
  prepareSource (Some (LPKBuildSourceModel.mk None (Some git))) w = (r, w1) ->
  match r with
  | inr (workdir, _) =>
      workdir =
        (if unset (LPKBuildSourceGitModel.Subpath git)
         then filepath.Join (tempDirName (files w)) "repo"
         else filepath.Join (filepath.Join (tempDirName (files w)) "repo")
                (ValueString (LPKBuildSourceGitModel.Subpath git)))
      /\ execLog w1 =
         (execLog w ++ gitClone git (tempDirName (files w))
            :: (if unset (LPKBuildSourceGitModel.Ref git) then []
                else [gitCheckout git (tempDirName (files w))]))%list
  | inl err =>
      (w1 = w /\ is_Some (files w !! tempDirName (files w)))
      \/ (execLog w1 = (execLog w ++ [gitClone git (tempDirName (files w))])%list
          /\ strings.HasPrefix (Error err) "git clone failed: " = true)
      \/ (unset (LPKBuildSourceGitModel.Ref git) = false
          /\ execLog w1 =
             (execLog w ++ [gitClone git (tempDirName (files w));
                            gitCheckout git (tempDirName (files w))])%list
          /\ strings.HasPrefix (Error err) "git checkout failed: " = true)
  end.
Proof.
  intros Hurl. unfold prepareSource.
  cbn [LPKBuildSourceModel.Local LPKBuildSourceModel.Git]. rewrite Hurl.
  unfold bind at 1. unfold MkdirTemp, os.Mkdir.
  set (tmp := tempDirName (files w)).
  destruct (files w !! tmp) as [n|] eqn:Hfresh.
  { intros [= <- <-]. left. eauto. }
  unfold bind at 1. unfold orCleanup at 1. unfold Run at 1. cbn [files clock execLog uploadLog].
  fold (gitClone git tmp).
  destruct (exec_Run (gitClone git tmp) _) as [[e|] fs1].
  { intros [= <- <-]. right. left. split; [reflexivity|].
    rewrite Error_Errorf_w. apply HasPrefix_app. }
  unfold bind at 1.
  destruct (unset (LPKBuildSourceGitModel.Ref git)).
  - unfold ret. intros [= <- <-]. done.
  - unfold orCleanup, Run. cbn [files clock execLog uploadLog].
    fold (gitCheckout git tmp).
    destruct (exec_Run (gitCheckout git tmp) _) as [[e|] fs2].
    + intros [= <- <-]. right. right. split; [done|]. split.
      * cbn. by rewrite <- app_assoc.
      * rewrite Error_Errorf_w. apply HasPrefix_app.
    + unfold ret. intros [= <- <-]. split; [done|]. cbn. by rewrite <- app_assoc.
Qed.

End Provider.

(** ** Properties of the registry client and the application resource *)

Section ClientProperties.

Context {Srv : Type}.
Variable httpDo : http.Request -> Srv -> (error + http.Response) * Srv.
Variable path_Join : string -> string -> string.
Variable json_Unmarshal_app : string -> error + apiAppInfo.t.
Variable json_Unmarshal_users : string -> error + list apiUser.t.
Variable json_Unmarshal_strings : string -> error + list string.
Variable url_Parse : string -> option error.

Local Abbreviation doRaw := (LcmdClient.doRaw httpDo).
Local Abbreviation InstallApp := (LcmdClient.InstallApp httpDo json_Unmarshal_app).
Local Abbreviation GetApp := (LcmdClient.GetApp httpDo path_Join json_Unmarshal_app).
Local Abbreviation DeleteApp := (LcmdClient.DeleteApp httpDo path_Join).
Local Abbreviation ListUsers :=
  (LcmdClient.ListUsers httpDo json_Unmarshal_users json_Unmarshal_strings).
Local Abbreviation Configure :=
  (LcmdProvider.Configure httpDo json_Unmarshal_users json_Unmarshal_strings url_Parse).
Local Abbreviation AppCreate := (AppResource.Create httpDo json_Unmarshal_app).
Local Abbreviation AppRead := (AppResource.Read httpDo path_Join json_Unmarshal_app).
Local Abbreviation AppUpdate := (AppResource.Update httpDo path_Join json_Unmarshal_app).
Local Abbreviation AppDelete := (AppResource.Delete httpDo path_Join).

(** The three requests of the application API. *)
Local Abbreviation installRequest c lpkURL wait ephemeral :=
  (http.mkRequest "POST" "/v1/apps" ∅
     (Some (apiInstallRequest.mk (LcmdClient.User c) lpkURL wait ephemeral))).
Local Abbreviation getRequest c appID :=
  (http.mkRequest "GET" (path_Join "/v1/apps" appID)
     {[ "uid" := LcmdClient.User c ]} None).
Local Abbreviation deleteRequest c appID clearData :=
  (http.mkRequest "DELETE" (path_Join "/v1/apps" appID)
     (<[ "clear_data" := if clearData : bool then "true" else "false" ]>
        {[ "uid" := LcmdClient.User c ]}) None).

Lemma doRaw_requests (method p : string) (query : gmap string string)
    (body : option apiInstallRequest.t) (r : Remote Srv) :
  requests (doRaw method p query body r).2
  = (requests r ++ [http.mkRequest method p query body])%list.
Proof.
  unfold LcmdClient.doRaw. destruct (httpDo _ _) as [[e|resp] srv']; [done|].
  cbv zeta. by repeat case_match.
Qed.

Lemma do_requests {A} (method p : string) (query : gmap string string)
    (body : option apiInstallRequest.t) (out : option (string -> error + A))
    (init : A) (r : Remote Srv) :
  requests (LcmdClient.do httpDo method p query body out init r).2
  = (requests r ++ [http.mkRequest method p query body])%list.
Proof.
  unfold LcmdClient.do.
  pose proof (doRaw_requests method p query body r) as H.
  destruct (doRaw method p query body r) as [[e|data] r']; [done|].
  by repeat case_match.
Qed.

(** What [doRaw] makes of an answer with status 404, and of another
    status from 300 on. *)
Lemma doRaw_not_found (method p : string) (query : gmap string string)
    (body : option apiInstallRequest.t) (r : Remote Srv) (resp : http.Response)
    (srv' : Srv) :
  httpDo (http.mkRequest method p query body) (server r) = (inr resp, srv') ->
  http.StatusCode resp = 404%Z ->
  doRaw method p query body r
  = (inl errNotFound,
     mkRemote srv' (requests r ++ [http.mkRequest method p query body])).
Proof.
  intros Hdo Hst. unfold LcmdClient.doRaw. rewrite Hdo, Hst. reflexivity.
Qed.

Lemma doRaw_refused (method p : string) (query : gmap string string)
    (body : option apiInstallRequest.t) (r : Remote Srv) (resp : http.Response)
    (srv' : Srv) :
  httpDo (http.mkRequest method p query body) (server r) = (inr resp, srv') ->
  (300 <= http.StatusCode resp)%Z -> http.StatusCode resp <> 404%Z ->
  doRaw method p query body r
  = (inl (errorString ("api " +:+ method +:+ " " +:+ p +:+ ": "
                       +:+ strings.TrimSpace (http.Body resp))),
     mkRemote srv' (requests r ++ [http.mkRequest method p query body])).
Proof.
  intros Hdo Hge Hne. unfold LcmdClient.doRaw. rewrite Hdo. cbv zeta.
  destruct (Z.eqb_spec (http.StatusCode resp) http.StatusNotFound); [done|].
  destruct (Z.leb_spec 300 (http.StatusCode resp)); [done|lia].
Qed.

Lemma api_error_not_errNotFound (s : string) :
  errors.Is (errorString ("api " +:+ s)) errNotFound = false.
Proof. by rewrite app_cons. Qed.

(** X17.  The requests of the application API.  A client without a user
    asks the registry nothing: every method fails with
    [user uid is not configured] and sends no request.  With a user, each
    method sends exactly one request: installing posts the user, the URL
    and the two flags to [/v1/apps]; reading gets, and removing deletes,
    the path of the app below [/v1/apps] with the user as query parameter,
    removal adding [clear_data] as [true] or [false]. *)
Theorem client_requests (c : LcmdClient.t) (lpkURL appID : string)
    (wait ephemeral clearData : bool) (r : Remote Srv) :
  (LcmdClient.User c = EmptyString ->
   InstallApp c lpkURL wait ephemeral r
     = (inl (errors_New "user uid is not configured"), r)
   /\ GetApp c appID r = (inl (errors_New "user uid is not configured"), r)
   /\ DeleteApp c appID clearData r
     = (inl (errors_New "user uid is not configured"), r))
  /\ (LcmdClient.User c <> EmptyString ->
      requests (InstallApp c lpkURL wait ephemeral r).2
        = (requests r ++ [installRequest c lpkURL wait ephemeral])%list
      /\ requests (GetApp c appID r).2
        = (requests r ++ [getRequest c appID])%list
      /\ requests (DeleteApp c appID clearData r).2
        = (requests r ++ [deleteRequest c appID clearData])%list).
Proof.
  unfold LcmdClient.InstallApp, LcmdClient.GetApp, LcmdClient.DeleteApp. split.
  - intros ->. done.
  - intros Hne. apply String.eqb_neq in Hne. rewrite Hne.
    split; [apply do_requests|]. split; [|apply do_requests].
    pose proof (do_requests "GET" (path_Join "/v1/apps" appID)
                  {[ "uid" := LcmdClient.User c ]} None
                  (Some json_Unmarshal_app) apiAppInfo.zero r) as H.
    unfold http.MethodGet.
    destruct (LcmdClient.do _ _ _ _ _ _ _ r) as [[e|app] r']; [|done].
    by destruct (errors.Is e errNotFound).
Qed.

(** X18.  Reading an application that the registry does not know: when
    the answer to the request has status 404, [Read] removes the resource
    from the state and reports nothing, whatever the body says.  Any other
    status from 300 on is reported as [QueryApplication failed] with the
    method, the path and the trimmed body, and the resource stays. *)
Theorem AppRead_by_status (c : LcmdClient.t) (state : LpkResourceModel.t)
    (r : Remote Srv) (resp : http.Response) (srv' : Srv) :
  LcmdClient.User c <> EmptyString ->
  IsNull (LpkResourceModel.Appid state) = false ->
  ValueString (LpkResourceModel.Appid state) <> EmptyString ->
  httpDo (getRequest c (ValueString (LpkResourceModel.Appid state))) (server r)
    = (inr resp, srv') ->
  (http.StatusCode resp = 404%Z ->
   AppRead c state r
   = (AppResource.Removed,
      mkRemote srv'
        (requests r ++ [getRequest c (ValueString (LpkResourceModel.Appid state))])))
  /\ ((300 <= http.StatusCode resp)%Z -> http.StatusCode resp <> 404%Z ->
      AppRead c state r
      = (AppResource.ReadFailed
           (mkDiag "QueryApplication failed"
              ("api GET "
               +:+ path_Join "/v1/apps" (ValueString (LpkResourceModel.Appid state))
               +:+ ": " +:+ strings.TrimSpace (http.Body resp))),
         mkRemote srv'
           (requests r ++ [getRequest c (ValueString (LpkResourceModel.Appid state))]))).
Proof.
  intros Huser Hnull Hid Hdo.
  apply String.eqb_neq in Huser, Hid.
  unfold AppResource.Read, LcmdClient.GetApp, LcmdClient.do.
  rewrite Hnull, Hid, Huser. cbn [orb]. unfold http.MethodGet. split.
  - intros Hst. by rewrite (doRaw_not_found _ _ _ _ _ _ _ Hdo Hst).
  - intros Hge Hne. rewrite (doRaw_refused _ _ _ _ _ _ _ Hdo Hge Hne).
    rewrite !api_error_not_errNotFound. cbn [Error].
    by rewrite !app_cons, !app_nil_l.
Qed.

(** X19.  Removing an application that the registry does not know is an
    error for the application resource: on a 404 answer to the removal,
    [Delete] reports [Client Error] with [resource not found], and an
    [Update] to another URL reports [Uninstall failed] and sends no
    install request. *)
Theorem uninstall_not_found_is_reported (c : LcmdClient.t)
    (plan state : LpkResourceModel.t) (r : Remote Srv) (resp resp' : http.Response)
    (srv' srv'' : Srv) :
  LcmdClient.User c <> EmptyString ->
  IsNull (LpkResourceModel.Appid state) = false ->
  ValueString (LpkResourceModel.Appid state) <> EmptyString ->
  (httpDo (deleteRequest c (ValueString (LpkResourceModel.Appid state))
             (ValueBool (LpkResourceModel.Ephemeral state))) (server r)
     = (inr resp, srv') ->
   http.StatusCode resp = 404%Z ->
   AppDelete c state r
   = (Some (mkDiag "Client Error"
              "Unable to uninstall LPK, got error: resource not found"),
      mkRemote srv'
        (requests r ++ [deleteRequest c (ValueString (LpkResourceModel.Appid state))
                          (ValueBool (LpkResourceModel.Ephemeral state))])))
  /\ (ValueString (LpkResourceModel.LpkUrl plan)
        <> ValueString (LpkResourceModel.LpkUrl state) ->
      httpDo (deleteRequest c (ValueString (LpkResourceModel.Appid state)) false)
             (server r) = (inr resp', srv'') ->
      http.StatusCode resp' = 404%Z ->
      AppUpdate c plan state r
      = (inl (mkDiag "Uninstall failed" "resource not found"),
         mkRemote srv''
           (requests r ++ [deleteRequest c (ValueString (LpkResourceModel.Appid state))
                             false]))).
Proof.
  intros Huser Hnull Hid. apply String.eqb_neq in Huser, Hid. split.
  - intros Hdo Hst.
    unfold AppResource.Delete, LcmdClient.DeleteApp, LcmdClient.do.
    rewrite Hnull, Hid, Huser. cbn [negb andb]. unfold http.MethodDelete.
    by rewrite (doRaw_not_found _ _ _ _ _ _ _ Hdo Hst).
  - intros Hurl Hdo Hst. apply String.eqb_neq in Hurl.
    unfold AppResource.Update, LcmdClient.DeleteApp, LcmdClient.do.
    rewrite Hurl, Hnull, Hid, Huser. cbn [negb andb]. unfold http.MethodDelete.
    by rewrite (doRaw_not_found _ _ _ _ _ _ _ Hdo Hst).
Qed.

Lemma stringOrNull_normalized (s : string) : normalized (stringOrNull s).
Proof.
  unfold stringOrNull, normalized.
  destruct (String.eqb_spec s EmptyString); [by left|right; eauto].
Qed.

Lemma withApp_normalized (app : apiAppInfo.t) (d : LpkResourceModel.t) :
  Forall normalized (computedAttributes (AppResource.withApp app d)).
Proof. repeat (constructor; [apply stringOrNull_normalized|]). constructor. Qed.

Lemma InstallApp_inv (c : LcmdClient.t) (lpkURL : string) (wait ephemeral : bool)
    (r r' : Remote Srv) (app : apiAppInfo.t) :
  InstallApp c lpkURL wait ephemeral r = (inr app, r') ->
  requests r' = (requests r ++ [installRequest c lpkURL wait ephemeral])%list.
Proof.
  unfold LcmdClient.InstallApp. destruct (String.eqb _ _); [done|].
  intros H. pose proof (do_requests "POST" "/v1/apps" ∅
    (Some (apiInstallRequest.mk (LcmdClient.User c) lpkURL wait ephemeral))
    (Some json_Unmarshal_app) apiAppInfo.zero r) as Hreq.
  unfold http.MethodPost in H. by rewrite H in Hreq.
Qed.

Lemma DeleteApp_inv (c : LcmdClient.t) (appID : string) (clearData : bool)
    (r r' : Remote Srv) (u : unit) :
  DeleteApp c appID clearData r = (inr u, r') ->
  requests r' = (requests r ++ [deleteRequest c appID clearData])%list.
Proof.
  unfold LcmdClient.DeleteApp. destruct (String.eqb _ _); [done|].
  intros H. pose proof (do_requests (A := unit) "DELETE" (path_Join "/v1/apps" appID)
    (<[ "clear_data" := if clearData then "true" else "false" ]>
       {[ "uid" := LcmdClient.User c ]}) None None tt r) as Hreq.
  unfold http.MethodDelete in H. by rewrite H in Hreq.
Qed.

(** X20.  A successful [Update] keeps the URL of the plan and stores the
    ephemeral flag as a known value.  When the URL is that of the state it
    asks the registry nothing and carries the computed attributes of the
    state over.  When the URL differs it removes the installed application
    (if the state names one, keeping its data) and then installs the new
    URL, in this order and with no other request, and the computed
    attributes are those of the registry's answer, each null or
    non-empty. *)
Theorem AppUpdate_outcome (c : LcmdClient.t) (plan state res : LpkResourceModel.t)
    (r r' : Remote Srv) :
  AppUpdate c plan state r = (inr res, r') ->
  LpkResourceModel.LpkUrl res = LpkResourceModel.LpkUrl plan
  /\ LpkResourceModel.Ephemeral res
     = BoolValue (ValueBool (LpkResourceModel.Ephemeral plan))
  /\ (ValueString (LpkResourceModel.LpkUrl plan)
        = ValueString (LpkResourceModel.LpkUrl state) ->
      r' = r /\ computedAttributes res = computedAttributes state)
  /\ (ValueString (LpkResourceModel.LpkUrl plan)
        <> ValueString (LpkResourceModel.LpkUrl state) ->
      Forall normalized (computedAttributes res)
      /\ requests r' =
         (requests r
          ++ (if negb (IsNull (LpkResourceModel.Appid state))
                 && negb (String.eqb (ValueString (LpkResourceModel.Appid state))
                                     EmptyString)
              then [deleteRequest c (ValueString (LpkResourceModel.Appid state)) false]
              else [])
          ++ [installRequest c (ValueString (LpkResourceModel.LpkUrl plan)) true
                (ValueBool (LpkResourceModel.Ephemeral plan))])%list).
Proof.
  unfold AppResource.Update.
  destruct (String.eqb_spec (ValueString (LpkResourceModel.LpkUrl plan))
              (ValueString (LpkResourceModel.LpkUrl state))) as [Heq|Hne]; cbn [negb].
  { intros [= <- <-]. repeat split; done. }
  destruct (negb (IsNull _) && negb (String.eqb _ EmptyString)).
  - destruct (DeleteApp c _ false r) as [[e|u] r1] eqn:Hdel; [done|].
    apply DeleteApp_inv in Hdel.
    destruct (InstallApp c _ true _ r1) as [[e|app] r2] eqn:Hins; [done|].
    apply InstallApp_inv in Hins. intros [= <- <-].
    repeat split; try done.
    + apply withApp_normalized.
    + by rewrite Hins, Hdel, <- app_assoc.
  - destruct (InstallApp c _ true _ r) as [[e|app] r2] eqn:Hins; [done|].
    apply InstallApp_inv in Hins. intros [= <- <-].
    repeat split; try done. apply withApp_normalized.
Qed.

(** X21.  The state written from an answer of the registry: after a
    successful [Create], and after a [Read] that refreshes, the URL and
    the ephemeral flag are those of the plan or state the method started
    from, and each computed attribute is null or holds a non-empty
    string, never the empty string and never an unknown value. *)
Theorem state_from_registry_answer (c : LcmdClient.t) (data res : LpkResourceModel.t)
    (r r' : Remote Srv) :
  AppCreate c data r = (inr res, r')
  \/ AppRead c data r = (AppResource.Refreshed res, r') ->
  LpkResourceModel.LpkUrl res = LpkResourceModel.LpkUrl data
  /\ LpkResourceModel.Ephemeral res = LpkResourceModel.Ephemeral data
  /\ Forall normalized (computedAttributes res)
  /\ length (requests r') = S (length (requests r)).
Proof.
  intros [H|H].
  - unfold AppResource.Create in H.
    destruct (InstallApp c _ true _ r) as [[e|app] r1] eqn:Hins; [done|].
    apply InstallApp_inv in Hins. injection H as <- <-.
    repeat split; [apply withApp_normalized|].
    rewrite Hins, length_app. cbn. lia.
  - unfold AppResource.Read in H.
    destruct (IsNull _ || String.eqb _ EmptyString); [done|].
    unfold LcmdClient.GetApp in H.
    destruct (String.eqb (LcmdClient.User c) EmptyString);
      [by destruct (errors.Is _ _)|].
    pose proof (do_requests "GET"
      (path_Join "/v1/apps" (ValueString (LpkResourceModel.Appid data)))
      {[ "uid" := LcmdClient.User c ]} None
      (Some json_Unmarshal_app) apiAppInfo.zero r) as Hreq.
    unfold http.MethodGet in H.
    destruct (LcmdClient.do _ _ _ _ _ _ _ r) as [[e|app] r1].
    { destruct (errors.Is e errNotFound); cbn in H; by destruct (errors.Is e errNotFound). }
    injection H as <- <-. repeat split; [apply withApp_normalized|].
    cbn in Hreq. rewrite Hreq, length_app. cbn. lia.
Qed.

(** X22.  An install that the registry answers with a status below 300
    and an empty body succeeds with every computed attribute null, the
    application ID included; the next [Read] of that state then removes
    the resource without asking the registry. *)
Theorem Create_empty_answer (c : LcmdClient.t) (data : LpkResourceModel.t)
    (r : Remote Srv) (resp : http.Response) (srv' : Srv) :
  LcmdClient.User c <> EmptyString ->
  httpDo (installRequest c (ValueString (LpkResourceModel.LpkUrl data)) true
            (ValueBool (LpkResourceModel.Ephemeral data))) (server r)
    = (inr resp, srv') ->
  (http.StatusCode resp < 300)%Z ->
  http.Body resp = EmptyString ->
  exists res r',
    AppCreate c data r = (inr res, r')
    /\ Forall (fun v => v = StringNull) (computedAttributes res)
    /\ AppRead c res r' = (AppResource.Removed, r').
Proof.
  intros Huser Hdo Hst Hbody. apply String.eqb_neq in Huser.
  unfold AppResource.Create, LcmdClient.InstallApp, LcmdClient.do, LcmdClient.doRaw.
  rewrite Huser. unfold http.MethodPost. rewrite Hdo. cbv zeta.
  destruct (Z.eqb_spec (http.StatusCode resp) http.StatusNotFound) as [H404|_].
  { unfold http.StatusNotFound in H404. lia. }
  destruct (Z.leb_spec 300 (http.StatusCode resp)); [lia|].
  rewrite Hbody. cbn [String.length Nat.eqb].
  eexists _, _. split; [reflexivity|]. split; [by repeat constructor|reflexivity].
Qed.

(** X23.  A client handed out by [Configure] carries the configured user,
    and that user is among the users that the registry's answer to the one
    request sent, [GET /v1/users], lists: the answer had a status below
    300, and its body decodes to users, either in the detailed form or,
    when it does not decode as that, as a plain list of UIDs, one of which
    is the configured user.  All four settings were given and the endpoint
    was not empty. *)
Theorem Configure_hands_out_listed_user (data : LcmdProviderModel.t)
    (c : LcmdClient.t) (r r' : Remote Srv) :
  Configure data r = (inr c, r') ->
  LcmdClient.User c = ValueString (LcmdProviderModel.User data)
  /\ (exists s, LcmdProviderModel.User data = StringValue s)
  /\ (exists s, s <> EmptyString /\ LcmdProviderModel.Endpoint data = StringValue s)
  /\ exists resp srv' users,
       httpDo (http.mkRequest "GET" "/v1/users" ∅ None) (server r) = (inr resp, srv')
       /\ (http.StatusCode resp < 300)%Z
       /\ r' = mkRemote srv' (requests r ++ [http.mkRequest "GET" "/v1/users" ∅ None])
       /\ (json_Unmarshal_users (http.Body resp) = inr users
           \/ (exists err simple,
                 json_Unmarshal_users (http.Body resp) = inl err
                 /\ json_Unmarshal_strings (http.Body resp) = inr simple
                 /\ users = (fun uid => apiUser.mk uid EmptyString) <$> simple))
       /\ LcmdClient.User c ∈ apiUser.UID <$> users.
Proof.
  unfold LcmdProvider.Configure.
  destruct (LcmdProviderModel.Endpoint data) as [| |endpoint] eqn:Hend; try done.
  destruct (LcmdProviderModel.Username data) as [| |username]; try done.
  destruct (LcmdProviderModel.Password data) as [| |password]; try done.
  destruct (LcmdProviderModel.User data) as [| |uid]; try done.
  cbn [IsUnknown IsNull orb ValueString].
  unfold LcmdClient.newAPIClient.
  destruct (String.eqb_spec endpoint EmptyString) as [|Hne]; [done|].
  destruct (url_Parse endpoint); [done|].
  unfold LcmdClient.ListUsers, LcmdClient.doRaw, http.MethodGet.
  destruct (httpDo _ (server r)) as [[e|resp] srv'] eqn:Hdo; [done|]. cbv zeta.
  destruct (Z.eqb_spec (http.StatusCode resp) http.StatusNotFound); [done|].
  destruct (Z.leb_spec 300 (http.StatusCode resp)) as [|Hlt]; [done|].
  assert (forall users,
            containsUID users uid = true -> uid ∈ apiUser.UID <$> users) as Hin.
  { intros users Hc. unfold containsUID in Hc.
    apply existsb_exists in Hc as (u & Hu & Heq). apply String.eqb_eq in Heq.
    apply list_elem_of_fmap. exists u. split; [done|]. by apply list_elem_of_In. }
  destruct (json_Unmarshal_users (http.Body resp)) as [err|detailed] eqn:Hdet.
  - destruct (json_Unmarshal_strings (http.Body resp)) as [err'|simple] eqn:Hsim;
      [done|].
    destruct (containsUID _ uid) eqn:Hc; cbn [negb]; [|done].
    intros [= <- <-]. repeat split; eauto.
    exists resp, srv', ((fun uid0 => apiUser.mk uid0 EmptyString) <$> simple).
    repeat split; [done|right; eauto|by apply Hin].
  - destruct (containsUID _ uid) eqn:Hc; cbn [negb]; [|done].
    intros [= <- <-]. repeat split; eauto.
    exists resp, srv', detailed. repeat split; [done|by left|by apply Hin].
Qed.

End ClientProperties.

(** ** The properties on concrete inputs *)

Local Abbreviation fxRunBuild :=
  (runBuild Fixture.hash Fixture.yaml Fixture.environ Fixture.exec Fixture.glob).

Local Abbreviation fxApplyBuild :=
  (applyBuild Fixture.hash Fixture.yaml Fixture.parse Fixture.environ Fixture.exec Fixture.glob
     Fixture.temp Fixture.upload "user").

Local Abbreviation fxExt v :=
  (resolveTemplateExtension (Some (LPKBuildEnvModel.mk ∅ (StringValue v)))).

(** The value [" j2"] and the same value behind a dot normalize
    differently (the leading space is trimmed only when it comes first),
    and so do the empty value and the lone dot. *)
Lemma template_extension_leading_space :
  fxExt " j2" = ".j2" /\ fxExt ("." +:+ " j2") = ". j2"
  /\ fxExt " j2" <> fxExt ("." +:+ " j2")
  /\ fxExt EmptyString = ".tmpl" /\ fxExt ("." +:+ EmptyString) = "."
  /\ fxExt EmptyString <> fxExt ("." +:+ EmptyString).
Proof. repeat split; vm_compute; discriminate. Qed.

(** A no-break space (U+00A0) before the value is trimmed like a space,
    before as behind a dot. *)
Example template_extension_no_break_space :
  fxExt (String (strings.byte 194) (String (strings.byte 160) "j2")) = ".j2"
  /\ fxExt ("." +:+ "j2" +:+ String (strings.byte 194) (String (strings.byte 160) EmptyString))
     = ".j2".
Proof. split; vm_compute; reflexivity. Qed.

Lemma template_extension_normalized_witness :
  fxExt "j2" = ".j2" /\ fxExt ".j2" = ".j2".
Proof.
  destruct (template_extension_normalized Fixture.parse) as [H _].
  exact (H ∅ "j"%char "2" eq_refl ltac:(discriminate)).
Defined.



(** The supplied [NAME] wins over the inherited one, and the entries come
    out in order of key. *)
Example commandEnvironment_fixture :
  commandEnvironment Fixture.environ Fixture.vars =
    ["HOME=/root"; "NAME=bob"; "PATH=/bin"].
Proof. vm_compute. reflexivity. Qed.

Lemma commandEnvironment_overlay_witness :
  environMap Fixture.environ !! "PATH" = Some "/bin"
  /\ exists keys : list string,
    StronglySorted String.le keys
    /\ NoDup keys
    /\ (forall k, k ∈ keys <->
                  is_Some (Fixture.vars !! k)
                  \/ is_Some (environMap Fixture.environ !! k))
    /\ commandEnvironment Fixture.environ Fixture.vars =
       (fun k => k +:+ "=" +:+
                 match Fixture.vars !! k with
                 | Some v => v
                 | None => default EmptyString (environMap Fixture.environ !! k)
                 end) <$> keys
    /\ forall path build,
         CmdEnv (buildCmd Fixture.environ path build Fixture.vars) =
         Some (commandEnvironment Fixture.environ Fixture.vars).
Proof.
  destruct (commandEnvironment_overlay Fixture.environ Fixture.vars) as [Hinh Hkeys].
  - unfold Fixture.vars. apply insert_non_empty.
  - split; [|exact Hkeys].
    apply (Hinh ["HOME=/root"] ["NAME=inherited"] "PATH" "/bin");
      [reflexivity | discriminate | reflexivity |].
    intros p v' Hp. apply list_elem_of_singleton in Hp as ->. vm_compute. discriminate.
Defined.



(** A working directory written [./w]: the path returned is the cleaned
    one, not the directory's spelling followed by the file name. *)
Lemma runBuild_cleans_artifact_path :
  (fxRunBuild "./w" None None ∅ Fixture.w0).1
    = inr ("w/app-1.0.0-hm1.lpk", Fixture.meta)
  /\ fxRunBuild "./w" None None ∅ Fixture.cachedWorld
     = (inr ("w/app-1.0.0-hm1.lpk", Fixture.meta), Fixture.cachedWorld)
  /\ "w/app-1.0.0-hm1.lpk" <> "./w" +:+ "/" +:+ "app-1.0.0-hm1.lpk"
  /\ filepath.Join "./w" "app-1.0.0-hm1.lpk" = "w/app-1.0.0-hm1.lpk"
  /\ filepath.Join ("w" +:+ "/") "app-1.0.0-hm1.lpk" = "w/app-1.0.0-hm1.lpk".
Proof. repeat split; vm_compute; (reflexivity || discriminate). Qed.

Lemma runBuild_artifact_path_witness :
  (exists data manifest,
      contentAt Fixture.fs0 "w/lzc-manifest.yml" = Some data
      /\ Fixture.yaml data = inr manifest
      /\ Fixture.artifact =
         "w" +:+ "/" +:+ manifestYAML.Name manifest +:+ "-"
           +:+ manifestYAML.Version manifest +:+ "-" +:+ Fixture.hash data +:+ ".lpk"
      /\ Fixture.fs0 !! Fixture.artifact = None)
  /\ exists meta,
       fxRunBuild "w" None None ∅ Fixture.laterWorld
         = (inr (Fixture.artifact, meta), Fixture.laterWorld)
       /\ lpkMetadata.SHA256 meta = Fixture.hash "artifact".
Proof.
  split.
  - destruct (runBuild_artifact_path Fixture.hash Fixture.yaml Fixture.environ
                Fixture.exec Fixture.glob "w" None None ∅ Fixture.w0) as [Hpath _].
    destruct (Hpath Fixture.cachedWorld Fixture.artifact Fixture.meta)
      as (data & manifest & Hdata & Hyaml & _ & Hplain & Hran & _).
    + vm_compute. reflexivity.
    + exists data, manifest. split; [exact Hdata|]. split; [exact Hyaml|].
      vm_compute in Hdata. injection Hdata as <-.
      vm_compute in Hyaml. injection Hyaml as <-.
      split; [apply Hplain; vm_compute; (reflexivity || discriminate)|].
      apply Hran. vm_compute. reflexivity.
  - destruct (runBuild_artifact_path Fixture.hash Fixture.yaml Fixture.environ
                Fixture.exec Fixture.glob "w" None None ∅ Fixture.laterWorld)
      as [_ Hhit].
    exact (Hhit "m1" "artifact" (manifestYAML.mk "a1" "1.0.0" "app")
             eq_refl eq_refl ltac:(discriminate) ltac:(discriminate) eq_refl).
Defined.

(** A build that fails is run again by the next call: with the manifest
    unchanged, two calls of the build step ran the build command twice. *)
Lemma runBuild_retries_failed_build :
  runBuild Fixture.hash Fixture.yaml Fixture.environ Fixture.execFail Fixture.glob
    "w" None None ∅ Fixture.w0 = (inl (ExitError 1), Fixture.failedOnce)
  /\ runBuild Fixture.hash Fixture.yaml Fixture.environ Fixture.execFail Fixture.glob
       "w" None None ∅ Fixture.failedOnce = (inl (ExitError 1), Fixture.failedTwice)
  /\ contentAt (files Fixture.failedOnce) "w/lzc-manifest.yml"
     = contentAt (files Fixture.w0) "w/lzc-manifest.yml"
  /\ execLog Fixture.w0 = []
  /\ execLog Fixture.failedTwice =
     [buildCmd Fixture.environ "w" None ∅; buildCmd Fixture.environ "w" None ∅].
Proof. repeat split; vm_compute; reflexivity. Qed.

(** An artifact removed between two calls is built again: the second call
    finds the manifest as it was and nothing at the canonical path. *)
Example runBuild_rebuilds_removed_artifact :
  fxRunBuild "w" None None ∅ Fixture.w0
    = (inr (Fixture.artifact, Fixture.meta), Fixture.cachedWorld)
  /\ delete Fixture.artifact (files Fixture.cachedWorld) = files Fixture.failedOnce
  /\ execLog Fixture.cachedWorld = execLog Fixture.failedOnce
  /\ (fxRunBuild "w" None None ∅ Fixture.failedOnce).1
     = inr (Fixture.artifact, Fixture.meta)
  /\ execLog (fxRunBuild "w" None None ∅ Fixture.failedOnce).2 =
     [buildCmd Fixture.environ "w" None ∅; buildCmd Fixture.environ "w" None ∅].
Proof. repeat split; vm_compute; reflexivity. Qed.

Lemma runBuild_idempotent_witness :
  fxRunBuild "w" None None ∅ Fixture.w0
    = (inr (Fixture.artifact, Fixture.meta), Fixture.cachedWorld)
  /\ fxRunBuild "w" (Some (LPKBuildBuildModel.mk (StringValue "make")))
       None Fixture.vars Fixture.laterWorld
     = (inr (Fixture.artifact, Fixture.meta), Fixture.laterWorld)
  /\ (execLog Fixture.cachedWorld = execLog Fixture.w0
      \/ execLog Fixture.cachedWorld =
         (execLog Fixture.w0 ++ [buildCmd Fixture.environ "w" None ∅])%list).
Proof.
  split; [vm_compute; reflexivity|].
  apply (runBuild_idempotent Fixture.hash Fixture.yaml Fixture.environ Fixture.exec
           Fixture.glob "w" None (Some (LPKBuildBuildModel.mk (StringValue "make")))
           None ∅ Fixture.vars Fixture.w0 Fixture.cachedWorld Fixture.laterWorld).
  - vm_compute. reflexivity.
  - vm_compute. reflexivity.
  - vm_compute. reflexivity.
Defined.

Lemma staging_directory_removed_witness :
  gone "/tmp/lpk-build-1"
    (files (fxApplyBuild (Fixture.config (Some Fixture.gitSource)) None Fixture.w0).2).
Proof.
  destruct (staging_directory_removed Fixture.hash Fixture.yaml Fixture.parse
              Fixture.environ Fixture.exec Fixture.glob Fixture.temp Fixture.upload "user"
              (Fixture.config (Some Fixture.gitSource)) None
              (LPKBuildSourceGitModel.mk (StringValue "https://example.com/app.git")
                 StringNull StringNull)
              Fixture.w0) as [_ Hgone].
  - reflexivity.
  - reflexivity.
  - vm_compute. reflexivity.
  - eapply Hgone. apply surjective_pairing.
Defined.

Local Abbreviation fxRender :=
  (renderTemplateFiles Fixture.parse "w" ".tmpl" Fixture.vars Fixture.w0).

Local Abbreviation fxBuilt :=
  (runBuild Fixture.hash Fixture.yaml Fixture.environ Fixture.exec Fixture.glob
     "w" None None Fixture.vars fxRender.2).

Lemma publish_reuse_witness :
  exists r w',
    fxApplyBuild (Fixture.config (Some Fixture.localSource)) (Some Fixture.priorState)
      Fixture.w0 = (r, w')
    /\ uploadLog w' = uploadLog Fixture.w0
    /\ exists res,
         r = inr res
         /\ LPKBuildModel.LPKURL res = StringValue "http://nas/up0.lpk"
         /\ LPKBuildModel.UploadID res = StringValue "up0".
Proof.
  destruct (publish_reuse Fixture.hash Fixture.yaml Fixture.parse Fixture.environ
              Fixture.exec Fixture.glob Fixture.temp Fixture.upload "user"
              (Fixture.config (Some Fixture.localSource)) (Some Fixture.priorState)
              Fixture.w0 Fixture.w0 fxRender.2 fxBuilt.2 "w" None
              Fixture.artifact Fixture.meta)
    as (r & w' & Happly & Hyes & _).
  - vm_compute. reflexivity.
  - vm_compute. reflexivity.
  - vm_compute. reflexivity.
  - reflexivity.
  - destruct Hyes as (Hlog & res & p & -> & [= <-] & Hurl & Hid).
    + exists Fixture.priorState. repeat split; vm_compute; congruence.
    + exists (inr res), w'. split; [exact Happly|]. split; [exact Hlog|].
      exists res. split; [reflexivity|]. split; [exact Hurl | exact Hid].
Defined.


Lemma source_descriptor_validated_witness :
  exists diags,
    diags <> []
    /\ forall w,
         Apply Fixture.hash Fixture.yaml Fixture.parse Fixture.environ Fixture.exec Fixture.glob
           Fixture.temp Fixture.upload "user"
           (Fixture.config (Some Fixture.bothSource)) None w
         = (ConfigError diags, w).
Proof.
  apply (source_descriptor_validated Fixture.hash Fixture.yaml Fixture.parse
           Fixture.environ Fixture.exec Fixture.glob Fixture.temp Fixture.upload "user"
           (Fixture.config (Some Fixture.bothSource)) None).
  left. exists Fixture.bothSource. eexists _, _. repeat split; reflexivity.
Defined.

(** The resolver alone accepts the descriptor that the validators reject. *)
Example prepareSource_both :
  prepareSource Fixture.exec Fixture.temp (Some Fixture.bothSource) Fixture.w0
    = (inr ("w", None), Fixture.w0).
Proof. reflexivity. Qed.

(** *** Further properties on concrete inputs *)

Local Abbreviation fxConfig := (Fixture.config (Some Fixture.localSource)).

Lemma collectEnvVars_lookup_witness :
  collectEnvVars (Some Fixture.env) !! "NAME" = Some "bob".
Proof.
  apply (collectEnvVars_lookup (Some Fixture.env) "NAME" "bob").
  exists Fixture.env. split; [reflexivity | vm_compute; reflexivity].
Defined.

Lemma no_variables_nil_Env_witness :
  collectEnvVars (Some Fixture.nullEnv) = ∅
  /\ CmdEnv (buildCmd Fixture.environ "w" None (collectEnvVars (Some Fixture.nullEnv)))
     = None.
Proof.
  destruct (no_variables_nil_Env Fixture.environ (Some Fixture.nullEnv))
    as [Hempty Henv].
  assert (collectEnvVars (Some Fixture.nullEnv) = ∅) as Hnone.
  { apply Hempty. intros e k v [= <-] Hk. cbn in Hk.
    apply lookup_insert_Some in Hk as [[_ <-]|[_ Hk]]; [reflexivity|].
    by rewrite lookup_empty in Hk. }
  split; [exact Hnone | by apply Henv].
Defined.

Lemma publish_disabled_witness :
  exists res w',
    fxApplyBuild Fixture.unpublished (Some Fixture.priorState) Fixture.w0 = (inr res, w')
    /\ uploadLog w' = []
    /\ LPKBuildModel.LPKURL res = StringNull
    /\ LPKBuildModel.UploadID res = StringNull.
Proof.
  destruct (publish_disabled Fixture.hash Fixture.yaml Fixture.parse Fixture.environ
              Fixture.exec Fixture.glob Fixture.temp Fixture.upload "user"
              Fixture.unpublished (Some Fixture.priorState)
              Fixture.w0 Fixture.w0 fxRender.2 fxBuilt.2 "w" None
              Fixture.artifact Fixture.meta)
    as (res & w' & Happly & Hlog & Hurl & Hid & _).
  - vm_compute. reflexivity.
  - vm_compute. reflexivity.
  - vm_compute. reflexivity.
  - eexists. split; reflexivity.
  - exists res, w'. split; [exact Happly|]. split; [exact Hlog|].
    split; [exact Hurl | exact Hid].
Defined.

Lemma Create_uploads_once_witness :
  uploadLog (Create Fixture.hash Fixture.yaml Fixture.parse Fixture.environ
               Fixture.exec Fixture.glob Fixture.temp Fixture.upload "user" true fxConfig
               Fixture.w0).2
  = [mkUploadCall "user" "app-1.0.0-hm1" "1.0.0" Fixture.artifact].
Proof.
  destruct (Create_uploads_once Fixture.hash Fixture.yaml Fixture.parse
              Fixture.environ Fixture.exec Fixture.glob Fixture.temp Fixture.upload "user"
              fxConfig) as [_ Honce].
  rewrite (Honce Fixture.w0 Fixture.w0 fxRender.2 fxBuilt.2 "w" None
             Fixture.artifact Fixture.meta).
  - vm_compute. reflexivity.
  - vm_compute. reflexivity.
  - vm_compute. reflexivity.
  - vm_compute. reflexivity.
  - reflexivity.
Defined.

Lemma recorded_upload_reusable_witness :
  withID (StringValue (resourceID Fixture.meta))
    (recordUpload Fixture.uploaded
       (withBuildResult Fixture.artifact Fixture.meta fxConfig))
  = Fixture.uploadedState
  /\ canReuseUpload (Some Fixture.uploadedState) Fixture.meta = false.
Proof.
  split; [vm_compute; reflexivity|].
  destruct (recorded_upload_reusable fxConfig Fixture.artifact Fixture.meta
              Fixture.meta Fixture.uploaded) as [_ Hagain].
  apply Hagain; vm_compute; discriminate.
Defined.

Lemma reused_state_reusable_witness :
  canReuseUpload
    (Some (withID (StringValue (resourceID Fixture.meta))
             (reuseUpload Fixture.priorState
                (withBuildResult Fixture.artifact Fixture.meta fxConfig))))
    Fixture.meta = true.
Proof.
  apply (reused_state_reusable fxConfig Fixture.priorState Fixture.artifact
           Fixture.meta).
  vm_compute. reflexivity.
Defined.

Lemma reuse_keeps_prior_version_witness :
  exists res w',
    fxApplyBuild fxConfig (Some Fixture.priorState) Fixture.w0 = (inr res, w')
    /\ LPKBuildModel.Version res = StringValue "1.0.0"
    /\ LPKBuildModel.LocalPath res = StringValue Fixture.artifact.
Proof.
  destruct (reuse_keeps_prior_version Fixture.hash Fixture.yaml Fixture.parse
              Fixture.environ Fixture.exec Fixture.glob Fixture.temp Fixture.upload "user"
              fxConfig Fixture.priorState
              Fixture.w0 Fixture.w0 fxRender.2 fxBuilt.2 "w" None
              Fixture.artifact Fixture.meta)
    as (res & w' & Happly & Hver & _ & _ & Hpath).
  - vm_compute. reflexivity.
  - vm_compute. reflexivity.
  - vm_compute. reflexivity.
  - reflexivity.
  - vm_compute. reflexivity.
  - exists res, w'. split; [exact Happly|]. split; [exact Hver | exact Hpath].
Defined.


Lemma Delete_outcome_witness :
  files (Delete (fun _ => None) true Fixture.uploadedState Fixture.cachedWorld).2
    !! Fixture.artifact = None
  /\ deleteCalls (Delete (fun _ => None) true Fixture.uploadedState
                    Fixture.cachedWorld).1 = ["up1"].
Proof.
  destruct (Delete_outcome (fun _ => None) true Fixture.uploadedState
              Fixture.cachedWorld _ _ (surjective_pairing _))
    as (_ & Hgone & _ & Hcalls).
  split; [apply Hgone; vm_compute; reflexivity | exact Hcalls].
Defined.

Lemma Delete_again_witness :
  Delete Fixture.deleteGone true Fixture.uploadedState
    (Delete (fun _ => None) true Fixture.uploadedState Fixture.cachedWorld).2
  = (mkDeleteOutcome None true ["up1"],
     (Delete (fun _ => None) true Fixture.uploadedState Fixture.cachedWorld).2)
  /\ Delete Fixture.deleteDown true Fixture.uploadedState Fixture.cachedWorld
     = (mkDeleteOutcome
          (Some (mkDiag "Delete upload failed" "api DELETE /v1/lpks: bad gateway"))
          false ["up1"], Fixture.cachedWorld).
Proof.
  split; [|reflexivity].
  apply (Delete_again (fun _ => None) Fixture.deleteGone true true
           Fixture.uploadedState Fixture.cachedWorld _ _ (surjective_pairing _)).
  - vm_compute. reflexivity.
  - intros err [= <-]. reflexivity.
Defined.

Lemma extractMissingKey_inverts_message_witness :
  extractMissingKey (Some (errorString (template.missingKeyText "NAME"))) = "NAME"
  /\ extractMissingKey (Some (ExitError 1)) = EmptyString.
Proof.
  destruct (extractMissingKey_inverts_message "conf.tmpl" "NAME" (ExitError 1))
    as (Hkey & _ & Hother & _).
  split; [exact Hkey | exact (Hother eq_refl)].
Defined.


Lemma runBuild_runs_only_the_build_command_witness :
  (fxRunBuild "w" None None ∅ Fixture.emptyWorld).2 = Fixture.emptyWorld
  /\ exists err, (fxRunBuild "w" None None ∅ Fixture.emptyWorld).1 = inl err.
Proof.
  destruct (runBuild_runs_only_the_build_command Fixture.hash Fixture.yaml
              Fixture.environ Fixture.exec Fixture.glob "w" None None ∅ Fixture.emptyWorld
              _ _ (surjective_pairing _)) as [_ Hbad].
  apply Hbad. intros data manifest Hdata. vm_compute in Hdata. discriminate.
Defined.

Lemma prepareSource_git_commands_witness :
  exists cleanup w1,
    prepareSource Fixture.exec Fixture.temp
      (Some (LPKBuildSourceModel.mk None (Some Fixture.git))) Fixture.w0
    = (inr ("/tmp/lpk-build-1/repo", cleanup), w1)
    /\ execLog w1 = [gitClone Fixture.git "/tmp/lpk-build-1"].
Proof.
  exists (Some (os.RemoveAll "/tmp/lpk-build-1")),
    (prepareSource Fixture.exec Fixture.temp
       (Some (LPKBuildSourceModel.mk None (Some Fixture.git))) Fixture.w0).2.
  split; [vm_compute; reflexivity|].
  refine (proj2 (prepareSource_git_commands Fixture.exec Fixture.temp Fixture.git
                   Fixture.w0 _
                   (inr ("/tmp/lpk-build-1/repo", Some (os.RemoveAll "/tmp/lpk-build-1")))
                   eq_refl _)).
  vm_compute. reflexivity.
Defined.

Local Abbreviation fxAppCreate :=
  (AppResource.Create Fixture.httpDo Fixture.decodeApp Fixture.client).
Local Abbreviation fxAppRead :=
  (AppResource.Read Fixture.httpDo Fixture.pathJoin Fixture.decodeApp Fixture.client).
Local Abbreviation fxAppUpdate :=
  (AppResource.Update Fixture.httpDo Fixture.pathJoin Fixture.decodeApp Fixture.client).
Local Abbreviation fxAppDelete :=
  (AppResource.Delete Fixture.httpDo Fixture.pathJoin Fixture.client).

Lemma client_requests_witness :
  LcmdClient.InstallApp Fixture.httpDo Fixture.decodeApp (LcmdClient.mk EmptyString)
    "http://nas/up1.lpk" true false Fixture.remote0
  = (inl (errorString "user uid is not configured"), Fixture.remote0)
  /\ requests (LcmdClient.DeleteApp Fixture.httpDo Fixture.pathJoin Fixture.client
                 "app1" true Fixture.remote1).2
     = [http.mkRequest "DELETE" "/v1/apps/app1"
          (<["clear_data" := "true"]> {["uid" := "alice"]}) None].
Proof.
  split.
  - destruct (client_requests Fixture.httpDo Fixture.pathJoin Fixture.decodeApp
                (LcmdClient.mk EmptyString) "http://nas/up1.lpk" "app1" true false
                true Fixture.remote0) as [Hnone _].
    exact (proj1 (Hnone eq_refl)).
  - destruct (client_requests Fixture.httpDo Fixture.pathJoin Fixture.decodeApp
                Fixture.client "http://nas/up1.lpk" "app1" true false
                true Fixture.remote1) as [_ Hone].
    destruct Hone as (_ & _ & Hdel); [discriminate | exact Hdel].
Defined.

Lemma AppRead_by_status_witness :
  fxAppRead Fixture.lostState Fixture.remote1
  = (AppResource.Removed,
     mkRemote ["/v1/apps/app1"]
       [http.mkRequest "GET" "/v1/apps/app9" {["uid" := "alice"]} None]).
Proof.
  destruct (AppRead_by_status Fixture.httpDo Fixture.pathJoin Fixture.decodeApp
              Fixture.client Fixture.lostState Fixture.remote1
              (http.mkResponse 404 "no such app") ["/v1/apps/app1"])
    as [Hgone _].
  - discriminate.
  - reflexivity.
  - discriminate.
  - vm_compute. reflexivity.
  - exact (Hgone eq_refl).
Defined.

Lemma uninstall_not_found_is_reported_witness :
  fxAppDelete Fixture.lostState Fixture.remote1
  = (Some (mkDiag "Client Error"
             "Unable to uninstall LPK, got error: resource not found"),
     mkRemote ["/v1/apps/app1"]
       [http.mkRequest "DELETE" "/v1/apps/app9"
          (<["clear_data" := "false"]> {["uid" := "alice"]}) None])
  /\ requests (fxAppUpdate Fixture.movedPlan Fixture.lostState Fixture.remote1).2
     = [http.mkRequest "DELETE" "/v1/apps/app9"
          (<["clear_data" := "false"]> {["uid" := "alice"]}) None].
Proof.
  destruct (uninstall_not_found_is_reported Fixture.httpDo Fixture.pathJoin
              Fixture.decodeApp Fixture.client Fixture.movedPlan Fixture.lostState
              Fixture.remote1 (http.mkResponse 404 "no such app")
              (http.mkResponse 404 "no such app") ["/v1/apps/app1"] ["/v1/apps/app1"])
    as [Hdelete Hupdate].
  - discriminate.
  - reflexivity.
  - discriminate.
  - split.
    + apply Hdelete; [vm_compute; reflexivity | reflexivity].
    + rewrite Hupdate; [reflexivity | discriminate | vm_compute; reflexivity
                        | reflexivity].
Defined.

Lemma AppUpdate_outcome_witness :
  fxAppUpdate Fixture.movedPlan Fixture.appState Fixture.remote1
    = (inr Fixture.movedState, Fixture.remoteMoved)
  /\ Forall normalized (computedAttributes Fixture.movedState)
  /\ requests Fixture.remoteMoved
     = [http.mkRequest "DELETE" "/v1/apps/app1"
          (<["clear_data" := "false"]> {["uid" := "alice"]}) None;
        http.mkRequest "POST" "/v1/apps" ∅
          (Some (apiInstallRequest.mk "alice" "http://nas/up2.lpk" true false))].
Proof.
  split; [vm_compute; reflexivity|].
  destruct (AppUpdate_outcome Fixture.httpDo Fixture.pathJoin Fixture.decodeApp
              Fixture.client Fixture.movedPlan Fixture.appState Fixture.movedState
              Fixture.remote1 Fixture.remoteMoved) as (_ & _ & _ & Hmoved).
  - vm_compute. reflexivity.
  - apply Hmoved. discriminate.
Defined.

Lemma state_from_registry_answer_witness :
  fxAppCreate Fixture.appPlan Fixture.remote0
    = (inr Fixture.createdState, Fixture.remoteCreated)
  /\ Forall normalized (computedAttributes Fixture.createdState)
  /\ length (requests Fixture.remoteCreated) = 1%nat.
Proof.
  split; [vm_compute; reflexivity|].
  destruct (state_from_registry_answer Fixture.httpDo Fixture.pathJoin
              Fixture.decodeApp Fixture.client Fixture.appPlan Fixture.createdState
              Fixture.remote0 Fixture.remoteCreated) as (_ & _ & Hnorm & Hlen).
  - left. vm_compute. reflexivity.
  - split; [exact Hnorm | exact Hlen].
Defined.

Lemma Create_empty_answer_witness :
  exists res r',
    AppResource.Create Fixture.httpEmpty Fixture.decodeApp Fixture.client
      Fixture.appPlan Fixture.remote0 = (inr res, r')
    /\ LpkResourceModel.Appid res = StringNull
    /\ AppResource.Read Fixture.httpEmpty Fixture.pathJoin Fixture.decodeApp
         Fixture.client res r' = (AppResource.Removed, r').
Proof.
  destruct (Create_empty_answer Fixture.httpEmpty Fixture.pathJoin Fixture.decodeApp
              Fixture.client Fixture.appPlan Fixture.remote0
              (http.mkResponse 204 EmptyString) [])
    as (res & r' & Hcreate & Hnull & Hread).
  - discriminate.
  - reflexivity.
  - reflexivity.
  - reflexivity.
  - exists res, r'. split; [exact Hcreate|]. split; [|exact Hread].
    unfold computedAttributes in Hnull.
    apply Forall_cons in Hnull as [_ Hnull]. apply Forall_cons in Hnull as [_ Hnull].
    by apply Forall_cons in Hnull as [Hid _].
Defined.

Lemma Configure_hands_out_listed_user_witness :
  LcmdProvider.Configure Fixture.httpDo Fixture.decodeUsers Fixture.decodeStrings
    Fixture.urlParse Fixture.providerConfig Fixture.remote0
    = (inr Fixture.client, Fixture.remoteListed)
  /\ exists resp srv' users,
       Fixture.httpDo (http.mkRequest "GET" "/v1/users" ∅ None) [] = (inr resp, srv')
       /\ (Fixture.decodeUsers (http.Body resp) = inr users
           \/ (exists err simple,
                 Fixture.decodeUsers (http.Body resp) = inl err
                 /\ Fixture.decodeStrings (http.Body resp) = inr simple
                 /\ users = (fun uid => apiUser.mk uid EmptyString) <$> simple))
       /\ "alice" ∈ apiUser.UID <$> users.
Proof.
  split; [vm_compute; reflexivity|].
  destruct (Configure_hands_out_listed_user Fixture.httpDo Fixture.decodeUsers
              Fixture.decodeStrings Fixture.urlParse Fixture.providerConfig
              Fixture.client Fixture.remote0 Fixture.remoteListed)
    as (_ & _ & _ & resp & srv' & users & Hdo & _ & _ & Hdecode & Hin).
  - vm_compute. reflexivity.
  - exists resp, srv', users. split; [exact Hdo|]. split; [exact Hdecode | exact Hin].
Defined.
